(** * AVR-FAT: a shallow embedding of the SD-in-SPI block layer and of the
      FAT32 directory engine, with the properties of the specification.

    Sources embedded here:
    - [sd_spi_data_access.c]  (functions [SD_...])
    - its later revision, the implementation of SD_SPI_RWE.H (functions [sd_...])
    - [FAT.c]                 (functions [FAT_...] and [pvt_...])

    Part I holds the definitions, Part II the lemmas and theorems of the
    specification, Part III further properties of the embedded code. *)

From Stdlib Require Import String Ascii Strings.Byte.
From Stdlib Require Import ZArith NArith List Bool Lia.
Import ListNotations.
Local Open Scope Z_scope.

(* ################################################################# *)
(** * Part I: definitions *)

(* ================================================================= *)
(** ** Machine integers and bytes *)

(** The target is an 8-bit AVR: [uint8_t], [uint16_t] and [uint32_t] are
    modelled as [Z] with the wrap-around written out; [int] is 16 bits.
    A byte held in a buffer is a [Byte.byte]. *)

Definition u8 (z : Z) : Z := z mod 2 ^ 8.
Definition u16 (z : Z) : Z := z mod 2 ^ 16.
Definition u32 (z : Z) : Z := z mod 2 ^ 32.

Definition byteZ (b : byte) : Z := Z.of_N (Byte.to_N b).

Definition byte_of_Z (z : Z) : byte :=
  match Byte.of_N (Z.to_N (z mod 256)) with
  | Some b => b
  | None => x00
  end.

(** [arr[i] = b] on an array held as a list.  A store past the end of the
    array is undefined in C; the model leaves the list as it is there. *)
Fixpoint store {A : Type} (i : nat) (b : A) (arr : list A) : list A :=
  match arr, i with
  | [], _ => []
  | _ :: tl, O => b :: tl
  | a :: tl, S i' => a :: store i' b tl
  end.

(* ================================================================= *)
(** ** The block transport (sd_spi_base.h, spi.h) *)

(** The transport is an external collaborator of the block layer: its
    implementation is not part of the embedded files, so it is an
    interface.  [Wire] is the state of the SPI transceiver together with
    the card behind it.  Chip select is a pin of its own, driven only by
    the macros [CS_LOW] and [CS_HIGH]. *)
Class SpiBase (Wire : Type) : Type := {
  SD_SendByteSPI : byte -> Wire -> Wire;
  SD_ReceiveByteSPI : Wire -> byte * Wire;
  SD_SendCommand : Z -> Z -> Wire -> Wire;
  SD_GetR1 : Wire -> byte * Wire
}.

Record Bus (Wire : Type) : Type := mkBus {
  cs_high : bool;   (* [true]: chip select deasserted (high) *)
  wire : Wire
}.
Arguments mkBus {Wire} _ _.
Arguments cs_high {Wire} _.
Arguments wire {Wire} _.

(** Modelled from the spec: the macros [CS_LOW] and [CS_HIGH] of the
    absent transport header assert and deassert chip select (section 4.1).
    They set the level of the pin; the functions below keep it in a local
    [cs]. *)
Definition CS_LOW : bool := false.
Definition CS_HIGH : bool := true.

(** Modelled from the spec: the command indices of section 6 (the macros
    are declared in sd_spi_base.h). *)
Definition READ_SINGLE_BLOCK : Z := 17.
Definition ERASE_WR_BLK_START_ADDR : Z := 32.
Definition ERASE_WR_BLK_END_ADDR : Z := 33.
Definition ERASE : Z := 38.

(** Modelled from the spec: a block is 512 bytes ([BLOCK_LEN]). *)
Definition BLOCK_LEN : nat := 512.

(** The flags of the returned 16-bit codes are macros of the header of the
    block layer; their numeric values are not part of the embedded files. *)
Class SdFlags : Type := {
  R1_ERROR : Z;
  READ_SUCCESS : Z;
  START_TOKEN_TIMEOUT : Z;
  ERASE_SUCCESSFUL : Z;
  SET_ERASE_START_ADDR_ERROR : Z;
  SET_ERASE_END_ADDR_ERROR : Z;
  ERASE_ERROR : Z;
  ERASE_BUSY_TIMEOUT : Z
}.

(** The macros of the later revision that the functions [sd_...] use. *)
Class RweLimits : Type := {
  OUT_OF_IDLE : Z;
  TIMEOUT_LIMIT : Z
}.

(** The next [n] bytes the card shifts out, and the wire after them. *)
Fixpoint recv_n {Wire} {SB : SpiBase Wire} (n : nat) (w : Wire) : list byte * Wire :=
  match n with
  | O => ([], w)
  | S n' =>
      let (b, w') := SD_ReceiveByteSPI w in
      let (bs, w'') := recv_n n' w' in
      (b :: bs, w'')
  end.

Definition rx {Wire} {SB : SpiBase Wire} (n : nat) (w : Wire) : list byte :=
  fst (recv_n n w).
Definition after {Wire} {SB : SpiBase Wire} (n : nat) (w : Wire) : Wire :=
  snd (recv_n n w).

(** Index of the first Start Block Token [0xFE] in a run of bytes. *)
Fixpoint find_token (bs : list byte) : option nat :=
  match bs with
  | [] => None
  | b :: tl =>
      if byteZ b =? 0xFE then Some O
      else option_map S (find_token tl)
  end.

(** Index of the first byte that is not [0x00]: the card holds the data
    line low while it is busy. *)
Fixpoint find_ready (bs : list byte) : option nat :=
  match bs with
  | [] => None
  | b :: tl =>
      if byteZ b =? 0 then option_map S (find_ready tl)
      else Some O
  end.

(* ================================================================= *)
(** ** sd_spi_data_access.c *)

Section SdSpiDataAccess.
Context {Wire : Type} {SB : SpiBase Wire} {SF : SdFlags}.

(** [for (i = 0; i < BLOCK_LEN; i++) block[i] = SD_ReceiveByteSPI();]
    with [n] iterations left and [i] the loop index. *)
Fixpoint load_block (n i : nat) (block : list byte) (w : Wire)
  : list byte * Wire :=
  match n with
  | O => (block, w)
  | S n' =>
      let (b, w') := SD_ReceiveByteSPI w in
      load_block n' (S i) (store i b block) w'
  end.

(** The wait for the Start Block Token in [SD_ReadSingleBlock]:
    [while (sbt != 0xFE) { sbt = receive; timeout++;
                           if (timeout > 0xFE) return timeout; }]
    [Some (true, w)]: the token arrived; [Some (false, w)]: timed out.
    [timeout] is a [uint8_t]. *)
Fixpoint wait_sbt (fuel : nat) (sbt : byte) (timeout : Z) (w : Wire)
  : option (bool * Wire) :=
  if negb (byteZ sbt =? 0xFE) then
    match fuel with
    | O => None
    | S fuel' =>
        let (sbt', w') := SD_ReceiveByteSPI w in
        let timeout' := u8 (timeout + 1) in
        if timeout' >? 0xFE then Some (false, w')
        else wait_sbt fuel' sbt' timeout' w'
    end
  else Some (true, w).

(** [SD_ReadSingleBlock]: the returned code, the caller's array and the bus
    when the function returns.  [None] only if the fuel of the token wait
    ran out; the wait ends within 256 polls, so it never does. *)
Definition SD_ReadSingleBlock (blockAddress : Z) (block : list byte)
  (bus : Bus Wire) : option (Z * list byte * Bus Wire) :=
  let timeout := 0 in
  let cs := CS_LOW in
  let w := SD_SendCommand READ_SINGLE_BLOCK blockAddress (wire bus) in
  let (r1, w) := SD_GetR1 w in
  if byteZ r1 >? 0 then
    let cs := CS_HIGH in
    Some (u16 (Z.lor R1_ERROR (byteZ r1)), block, mkBus cs w)
  else if byteZ r1 =? 0 then
    let (sbt, w) := SD_ReceiveByteSPI w in
    match wait_sbt 256 sbt timeout w with
    | None => None
    | Some (false, w) =>
        let cs := CS_HIGH in
        Some (u16 (Z.lor START_TOKEN_TIMEOUT (byteZ r1)), block, mkBus cs w)
    | Some (true, w) =>
        (* start block token has been received *)
        let (block, w) := load_block BLOCK_LEN 0 block w in
        let w := after 2 w in   (* CRC *)
        let w := after 1 w in   (* clear any remaining bytes *)
        let cs := CS_HIGH in
        Some (u16 (Z.lor READ_SUCCESS (byteZ r1)), block, mkBus cs w)
    end
  else
    let cs := CS_HIGH in
    Some (u16 (Z.lor READ_SUCCESS (byteZ r1)), block, mkBus cs w).

(** The busy wait of [SD_EraseBlocks]:
    [while (receive == 0) { if (timeout++ > 0xFFFE) return timeout; }]
    [timeout] is a [uint16_t].  [Some (true, w)]: the card left busy. *)
Fixpoint wait_erase (fuel : nat) (timeout : Z) (w : Wire)
  : option (bool * Wire) :=
  match fuel with
  | O => None
  | S fuel' =>
      let (b, w') := SD_ReceiveByteSPI w in
      if byteZ b =? 0 then
        if timeout >? 0xFFFE then Some (false, w')
        else wait_erase fuel' (u16 (timeout + 1)) w'
      else Some (true, w')
  end.

(** [SD_EraseBlocks]: the returned code and the bus on return. *)
Definition SD_EraseBlocks (startBlockAddress endBlockAddress : Z)
  (bus : Bus Wire) : option (Z * Bus Wire) :=
  (* set start address for erase block *)
  let cs := CS_LOW in
  let w := SD_SendCommand ERASE_WR_BLK_START_ADDR startBlockAddress (wire bus) in
  let (r1, w) := SD_GetR1 w in
  let cs := CS_HIGH in
  if byteZ r1 >? 0 then
    Some (u16 (Z.lor (Z.lor SET_ERASE_START_ADDR_ERROR R1_ERROR) (byteZ r1)),
          mkBus cs w)
  else
  (* set end address for erase block *)
  let cs := CS_LOW in
  let w := SD_SendCommand ERASE_WR_BLK_END_ADDR endBlockAddress w in
  let (r1, w) := SD_GetR1 w in
  let cs := CS_HIGH in
  if byteZ r1 >? 0 then
    Some (u16 (Z.lor (Z.lor SET_ERASE_END_ADDR_ERROR R1_ERROR) (byteZ r1)),
          mkBus cs w)
  else
  (* erase all blocks in range *)
  let cs := CS_LOW in
  let w := SD_SendCommand ERASE 0 w in
  let (r1, w) := SD_GetR1 w in
  if byteZ r1 >? 0 then
    let cs := CS_HIGH in
    Some (u16 (Z.lor (Z.lor ERASE_ERROR R1_ERROR) (byteZ r1)), mkBus cs w)
  else
  let timeout := 0 in
  (* wait for card not to finish erasing blocks. *)
  match wait_erase (Z.to_nat 65537) timeout w with
  | None => None
  | Some (false, w) =>
      (* the return inside the loop: no CS_HIGH before it *)
      Some (u16 (Z.lor ERASE_BUSY_TIMEOUT (byteZ r1)), mkBus cs w)
  | Some (true, w) =>
      let cs := CS_HIGH in
      Some (u16 ERASE_SUCCESSFUL, mkBus cs w)
  end.

End SdSpiDataAccess.

(* ================================================================= *)
(** ** The later revision of the block layer (implementation of SD_SPI_RWE.H) *)

Section SdSpiRwe.
Context {Wire : Type} {SB : SpiBase Wire} {SF : SdFlags} {RL : RweLimits}.

(** [while (sd_ReceiveByteSPI() != 0xFE)
      { timeout++; if (timeout > TIMEOUT_LIMIT) return timeout; }]
    with a [uint8_t timeout]. *)
Fixpoint sd_wait_sbt (fuel : nat) (timeout : Z) (w : Wire)
  : option (bool * Wire) :=
  match fuel with
  | O => None
  | S fuel' =>
      let (b, w') := SD_ReceiveByteSPI w in
      if negb (byteZ b =? 0xFE) then
        let timeout' := u8 (timeout + 1) in
        if timeout' >? TIMEOUT_LIMIT then Some (false, w')
        else sd_wait_sbt fuel' timeout' w'
      else Some (true, w')
  end.

(** [sd_ReadSingleBlock].  The token wait is bounded only when
    [TIMEOUT_LIMIT] is below 255, so the fuel of that loop is an argument. *)
Definition sd_ReadSingleBlock (fuel : nat) (blckAddr : Z) (blckArr : list byte)
  (bus : Bus Wire) : option (Z * list byte * Bus Wire) :=
  let cs := CS_LOW in
  let w := SD_SendCommand READ_SINGLE_BLOCK blckAddr (wire bus) in
  let (r1, w) := SD_GetR1 w in
  if negb (byteZ r1 =? OUT_OF_IDLE) then
    let cs := CS_HIGH in
    Some (u16 (Z.lor R1_ERROR (byteZ r1)), blckArr, mkBus cs w)
  else
    let timeout := 0 in
    match sd_wait_sbt fuel timeout w with
    | None => None
    | Some (false, w) =>
        let cs := CS_HIGH in
        Some (u16 (Z.lor START_TOKEN_TIMEOUT (byteZ r1)), blckArr, mkBus cs w)
    | Some (true, w) =>
        (* Load SD card block into the array. *)
        let (blckArr, w) := load_block BLOCK_LEN 0 blckArr w in
        (* Get 16-bit CRC. Don't need. *)
        let w := after 1 w in
        let w := after 1 w in
        (* clear any remaining data from the SPDR *)
        let w := after 1 w in
        let cs := CS_HIGH in
        Some (u16 (Z.lor READ_SUCCESS (byteZ r1)), blckArr, mkBus cs w)
    end.

(** [while (sd_ReceiveByteSPI() == 0)
      { if (timeout++ > 4 * TIMEOUT_LIMIT) return timeout; }]
    with a [uint16_t timeout]. *)
Fixpoint sd_wait_erase (fuel : nat) (timeout : Z) (w : Wire)
  : option (bool * Wire) :=
  match fuel with
  | O => None
  | S fuel' =>
      let (b, w') := SD_ReceiveByteSPI w in
      if byteZ b =? 0 then
        if timeout >? 4 * TIMEOUT_LIMIT then Some (false, w')
        else sd_wait_erase fuel' (u16 (timeout + 1)) w'
      else Some (true, w')
  end.

(** [sd_EraseBlocks]. *)
Definition sd_EraseBlocks (fuel : nat) (startBlckAddr endBlckAddr : Z)
  (bus : Bus Wire) : option (Z * Bus Wire) :=
  (* set Start Address for erase block *)
  let cs := CS_LOW in
  let w := SD_SendCommand ERASE_WR_BLK_START_ADDR startBlckAddr (wire bus) in
  let (r1, w) := SD_GetR1 w in
  let cs := CS_HIGH in
  if negb (byteZ r1 =? OUT_OF_IDLE) then
    Some (u16 (Z.lor (Z.lor SET_ERASE_START_ADDR_ERROR R1_ERROR) (byteZ r1)),
          mkBus cs w)
  else
  (* set End Address for erase block *)
  let cs := CS_LOW in
  let w := SD_SendCommand ERASE_WR_BLK_END_ADDR endBlckAddr w in
  let (r1, w) := SD_GetR1 w in
  let cs := CS_HIGH in
  if negb (byteZ r1 =? OUT_OF_IDLE) then
    Some (u16 (Z.lor (Z.lor SET_ERASE_END_ADDR_ERROR R1_ERROR) (byteZ r1)),
          mkBus cs w)
  else
  (* erase all blocks between, and including, start and end address *)
  let cs := CS_LOW in
  let w := SD_SendCommand ERASE 0 w in
  let (r1, w) := SD_GetR1 w in
  if negb (byteZ r1 =? OUT_OF_IDLE) then
    let cs := CS_HIGH in
    Some (u16 (Z.lor (Z.lor ERASE_ERROR R1_ERROR) (byteZ r1)), mkBus cs w)
  else
  (* wait for card not to finish erasing blocks. *)
  let timeout := 0 in
  match sd_wait_erase fuel timeout w with
  | None => None
  | Some (false, w) =>
      (* the return inside the loop: no CS_SD_HIGH before it *)
      Some (u16 (Z.lor ERASE_BUSY_TIMEOUT (byteZ r1)), mkBus cs w)
  | Some (true, w) =>
      let cs := CS_HIGH in
      Some (u16 ERASE_SUCCESSFUL, mkBus cs w)
  end.

End SdSpiRwe.

(* ================================================================= *)
(** ** A scripted card, to run the block layer on concrete byte streams *)

(** Modelled from the spec: the transport of section 4.1, which is not part
    of the embedded files.  The wire is the list of bytes the card will
    shift out, one per exchange; an idle line reads [0xFF].  A command is a
    frame of six exchanged bytes; R1 is the first byte with its top bit
    clear among at most [R1_POLLS] dummy reads ([0xFF] if none comes). *)
Definition script_recv (w : list byte) : byte * list byte :=
  match w with
  | [] => (xff, [])
  | b :: tl => (b, tl)
  end.

Definition R1_POLLS : nat := 255.

Fixpoint script_getr1 (n : nat) (w : list byte) : byte * list byte :=
  match n with
  | O => (xff, w)
  | S n' =>
      let (b, w') := script_recv w in
      if byteZ b <? 0x80 then (b, w') else script_getr1 n' w'
  end.

#[export] Instance ScriptedCard : SpiBase (list byte) := {
  SD_SendByteSPI := fun _ w => snd (script_recv w);
  SD_ReceiveByteSPI := script_recv;
  SD_SendCommand := fun _ _ w => skipn 6 w;
  SD_GetR1 := script_getr1 R1_POLLS
}.

(** One assignment of distinct one-hot flags, for the concrete runs. *)
Definition demo_flags : SdFlags := {|
  R1_ERROR := 0x8000;
  READ_SUCCESS := 0x0000;
  START_TOKEN_TIMEOUT := 0x0200;
  ERASE_SUCCESSFUL := 0x0000;
  SET_ERASE_START_ADDR_ERROR := 0x0100;
  SET_ERASE_END_ADDR_ERROR := 0x0200;
  ERASE_ERROR := 0x0400;
  ERASE_BUSY_TIMEOUT := 0x0800
|}.

Definition demo_limits : RweLimits := {|
  OUT_OF_IDLE := 0;
  TIMEOUT_LIMIT := 0xFE
|}.

(* ================================================================= *)
(** ** Words to state the behaviour of the block layer *)

(** The R1 response to CMD17 and the wire right after it. *)
Definition cmd17 {Wire} {SB : SpiBase Wire} (lba : Z) (bus : Bus Wire)
  : byte * Wire :=
  SD_GetR1 (SD_SendCommand READ_SINGLE_BLOCK lba (wire bus)).

(** The R1 response to CMD32, CMD33 and CMD38 in turn, and the wire after
    the last one. *)
Definition erase_cmds {Wire} {SB : SpiBase Wire} (s e : Z) (bus : Bus Wire)
  : byte * byte * byte * Wire :=
  let (r32, w) := SD_GetR1 (SD_SendCommand ERASE_WR_BLK_START_ADDR s (wire bus)) in
  let (r33, w) := SD_GetR1 (SD_SendCommand ERASE_WR_BLK_END_ADDR e w) in
  let (r38, w) := SD_GetR1 (SD_SendCommand ERASE 0 w) in
  (r32, r33, r38, w).

(** Concrete runs: the answers of a card to one CMD17 (R1 [0x00], one idle
    byte, the token, a block of [0x41], CRC and a trailing byte), of a card
    that rejects the command (R1 [0x04]), of a card that never sends the
    token, and of a card that stays busy after CMD38. *)
Definition idle (n : nat) : list byte := repeat xff n.
Definition card_block : list byte := repeat x41 512.
Definition card_reads : list byte :=
  idle 6 ++ [x00] ++ [xff; xfe] ++ card_block ++ [x12; x34; xff].
Definition card_rejects : list byte := idle 6 ++ [x04].
Definition card_silent : list byte := idle 6 ++ [x00].
Definition card_stays_busy : list byte :=
  idle 6 ++ [x00] ++ idle 6 ++ [x00] ++ idle 6 ++ [x00]
  ++ repeat x00 (Z.to_nat 65536).
Definition host_array : list byte := repeat x00 512.

(* ================================================================= *)
(** ** FAT.c: data model *)

(** Modelled from the spec: the error flags returned by the fat functions
    and by the boot sector loader are macros of fat.h, which is not part
    of the embedded files; they are the codes named in sections 4.3, 4.7
    and 7, taken as two enumerations of distinct values. *)
Inductive FatError : Type :=
  | SUCCESS
  | END_OF_DIRECTORY
  | INVALID_FILE_NAME
  | FILE_NOT_FOUND
  | INVALID_DIR_NAME
  | DIR_NOT_FOUND
  | CORRUPT_FAT_ENTRY
  | END_OF_FILE.

Inductive BootSectorError : Type :=
  | BOOT_SECTOR_VALID
  | BOOT_SECTOR_NOT_FOUND
  | NOT_BOOT_SECTOR
  | INVALID_BYTES_PER_SECTOR
  | INVALID_SECTORS_PER_CLUSTER.

(** Modelled from the spec: the struct declarations of fat.h (section 3),
    with the widths the code uses when it assembles the fields
    ([uint8_t], [uint16_t], [uint32_t] values held in [Z]). *)
Record BiosParameterBlock : Type := mkBpb {
  bytesPerSector : Z;          (* uint16_t *)
  sectorsPerCluster : Z;       (* uint8_t *)
  reservedSectorCount : Z;     (* uint16_t *)
  numberOfFats : Z;            (* uint8_t *)
  fatSize32 : Z;               (* uint32_t *)
  rootCluster : Z;             (* uint32_t *)
  bootSectorAddress : Z;       (* uint32_t *)
  dataRegionFirstSector : Z    (* uint32_t *)
}.

(** Modelled from the spec: the struct of the current-directory cursor
    (declared in fat.h), with the five fields the code uses.  The strings
    are C strings: the bytes before the terminating NUL; the sizes of the
    char arrays are not known here. *)
Record FatCurrentDirectory : Type := mkDir {
  longName : list byte;
  longParentPath : list byte;
  shortName : list byte;
  shortParentPath : list byte;
  FATFirstCluster : Z          (* uint32_t *)
}.

(** Modelled from the spec: the constants of fat.h fixed by the FAT32
    on-disk layout (sections 3 and 4.5). *)
Definition SECTOR_LEN : Z := 512.
Definition ENTRY_LEN : Z := 32.
Definition LONG_NAME_ATTR_MASK : Z := 0x0F.
Definition LONG_NAME_LAST_ENTRY_FLAG : Z := 0x40.
Definition LONG_NAME_ORDINAL_MASK : Z := 0x3F.
Definition DIRECTORY_ENTRY_ATTR_FLAG : Z := 0x10.

(** The interface to the disk (fattosd.h), an external collaborator, and
    the end-of-chain sentinel of fat.h, whose value is not part of the
    embedded files. *)
Class FatToSd : Type := {
  fat_FindBootSector : Z;
  fat_ReadSingleSector : Z -> list byte;
  END_OF_CLUSTER : Z
}.

(** [arr[i]] as a number.  A read outside the array is undefined in C; the
    model reads 0 there. *)
Definition byte_at (arr : list byte) (i : Z) : byte :=
  if i <? 0 then x00 else nth (Z.to_nat i) arr x00.
Definition at_ (arr : list byte) (i : Z) : Z := byteZ (byte_at arr i).

(** [x <<= 8; x |= b;] on a [uint16_t] and on a [uint32_t]. *)
Definition shl8_or16 (x b : Z) : Z := Z.lor (u16 (Z.shiftl x 8)) b.
Definition shl8_or32 (x b : Z) : Z := Z.lor (u32 (Z.shiftl x 8)) b.

(** An [int] of the target (16 bits, two's complement). *)
Definition s16 (z : Z) : Z :=
  if u16 z <? 2 ^ 15 then u16 z else u16 z - 2 ^ 16.

(* ----------------------------------------------------------------- *)
(** *** C strings *)

Definition chr (c : string) : byte :=
  match list_byte_of_string c with
  | b :: _ => b
  | [] => x00
  end.

Definition str (s : string) : list byte := list_byte_of_string s.

Definition byte_eqb (a b : byte) : bool := byteZ a =? byteZ b.

Fixpoint bytes_eqb (a b : list byte) : bool :=
  match a, b with
  | [], [] => true
  | x :: a', y :: b' => byte_eqb x y && bytes_eqb a' b'
  | _, _ => false
  end.

(** The C string held in a char array: the bytes before the first NUL. *)
Fixpoint c_str (buf : list byte) : list byte :=
  match buf with
  | [] => []
  | b :: tl => if byteZ b =? 0 then [] else b :: c_str tl
  end.

(** [strcmp (a, b) == 0] *)
Definition strcmp_eq (a b : list byte) : bool := bytes_eqb (c_str a) (c_str b).

Definition strlen (s : list byte) : Z := Z.of_nat (length (c_str s)).

(** [strlcpy (dst, src, n)]: the string left in [dst].  With [n = 0]
    nothing is written. *)
Definition strlcpy (dst src : list byte) (n : Z) : list byte :=
  if n =? 0 then dst else firstn (Z.to_nat (n - 1)) (c_str src).

(** [strrchr (s, c)]: the index of the last [c] in [s], if any. *)
Fixpoint strrchr (s : list byte) (c : byte) : option nat :=
  match s with
  | [] => None
  | b :: tl =>
      match strrchr tl c with
      | Some i => Some (S i)
      | None => if byte_eqb b c then Some O else None
      end
  end.

(** [arr[i], ..., arr[i + n - 1]] *)
Fixpoint slice (arr : list byte) (i : Z) (n : nat) : list byte :=
  match n with
  | O => []
  | S n' => byte_at arr i :: slice arr (i + 1) n'
  end.

(* ----------------------------------------------------------------- *)
(** *** Private functions *)

Section Fat.
Context {D : FatToSd}.

Definition pvt_GetNextCluster (currentCluster : Z) (bpb : BiosParameterBlock)
  : Z :=
  let bytesPerClusterIndex := 4 in
  let numberOfIndexedClustersPerSectorOfFat :=
    u16 (bytesPerSector bpb / bytesPerClusterIndex) in
  let clusterIndex := currentCluster / numberOfIndexedClustersPerSectorOfFat in
  let clusterIndexStartByte :=
    u32 (4 * (currentCluster mod numberOfIndexedClustersPerSectorOfFat)) in
  let fatSectorToRead := u32 (clusterIndex + reservedSectorCount bpb) in
  let SectorContents := fat_ReadSingleSector fatSectorToRead in
  let cluster := at_ SectorContents (clusterIndexStartByte + 3) in
  let cluster := shl8_or32 cluster (at_ SectorContents (clusterIndexStartByte + 2)) in
  let cluster := shl8_or32 cluster (at_ SectorContents (clusterIndexStartByte + 1)) in
  let cluster := shl8_or32 cluster (at_ SectorContents clusterIndexStartByte) in
  cluster.

(** Backslash, slash, colon, asterisk, question mark, double quote, less
    than, greater than and vertical bar. *)
Definition illegalCharacters : list byte :=
  [x5c; x2f; x3a; x2a; x3f; x22; x3c; x3e; x7c].

Definition is_illegal (c : byte) : bool :=
  existsb (byte_eqb c) illegalCharacters.

(** Returns 1 if the name is an illegal FAT name.  The loop counters are
    [uint8_t]: on a name of 256 characters or more they wrap around, and
    the first loop ends only if it meets an illegal character among the
    first 256 ([None]: the call does not return). *)
Definition pvt_CheckIllegalName (nameStr : list byte) : option Z :=
  let name := c_str nameStr in
  (* illegal if name string is empty or begins with a space character *)
  if strcmp_eq name [] || (at_ name 0 =? byteZ (chr " ")) then Some 1
  else if strlen name <? 256 then
    (* illegal if name string contains an illegal character *)
    if existsb is_illegal name then Some 1
    (* illegal if name string is all space characters. *)
    else if existsb (fun c => negb (byte_eqb c (chr " "))) name then Some 0
    else Some 1
  else if existsb is_illegal (firstn 256 name) then Some 1
  else None.

(** The first cluster stored in a short name entry at [entry]: high word
    at offsets 20..21, low word at offsets 26..27. *)
Definition entry_first_cluster (sector : list byte) (entry : Z) : Z :=
  let c := at_ sector (entry + 21) in
  let c := shl8_or32 c (at_ sector (entry + 20)) in
  let c := shl8_or32 c (at_ sector (entry + 27)) in
  let c := shl8_or32 c (at_ sector (entry + 26)) in
  c.

(** First sector of a cluster, as the walks compute it. *)
Definition cluster_sector (bpb : BiosParameterBlock) (cluster : Z) : Z :=
  u32 (dataRegionFirstSector bpb
       + u32 ((cluster - 2) * sectorsPerCluster bpb)).

(** The first cluster of the parent, as [pvt_SetCurrentDirectoryToParent]
    assembles it from the second entry of the first sector of a
    directory: bytes 53, 52, 59, 58. *)
Definition dotdot_cluster (currentSectorContents : list byte) : Z :=
  let parentDirectoryFirstCluster := at_ currentSectorContents 53 in
  let parentDirectoryFirstCluster :=
    shl8_or32 parentDirectoryFirstCluster (at_ currentSectorContents 52) in
  let parentDirectoryFirstCluster :=
    shl8_or32 parentDirectoryFirstCluster (at_ currentSectorContents 59) in
  let parentDirectoryFirstCluster :=
    shl8_or32 parentDirectoryFirstCluster (at_ currentSectorContents 58) in
  parentDirectoryFirstCluster.

(** Sets the current directory to the parent directory.  [None]: the call
    runs into undefined behaviour (a temporary path array of 64 bytes is
    overrun, or [strrchr] finds no ['/'] and its null result is used). *)
Definition pvt_SetCurrentDirectoryToParent
  (currentDirectory : FatCurrentDirectory) (bpb : BiosParameterBlock)
  : option FatCurrentDirectory :=
  let absoluteCurrentSectorNumber :=
    cluster_sector bpb (FATFirstCluster currentDirectory) in
  let currentSectorContents := fat_ReadSingleSector absoluteCurrentSectorNumber in
  let parentDirectoryFirstCluster := dotdot_cluster currentSectorContents in
  (* if current directory is root directory, do nothing. *)
  if FATFirstCluster currentDirectory =? rootCluster bpb then
    Some currentDirectory
  (* parent directory is root directory *)
  else if parentDirectoryFirstCluster =? 0 then
    Some {| shortName := str "/"; shortParentPath := [];
            longName := str "/"; longParentPath := [];
            FATFirstCluster := rootCluster bpb |}
  else (* parent directory is not root directory *)
    let shortLen := strlen (shortParentPath currentDirectory) in
    let longLen := strlen (longParentPath currentDirectory) in
    if (64 <? shortLen) || (64 <? longLen) then None
    else if (shortLen =? 0) || (longLen =? 0) then None
    else
    let tmpShortNamePath := strlcpy [] (shortParentPath currentDirectory) shortLen in
    let tmpLongNamePath := strlcpy [] (longParentPath currentDirectory) longLen in
    match strrchr tmpShortNamePath (chr "/"), strrchr tmpLongNamePath (chr "/") with
    | Some shortNameLastDirectoryInPath, Some longNameLastDirectoryInPath =>
        Some {|
          shortName := skipn (shortNameLastDirectoryInPath + 1) tmpShortNamePath;
          longName := skipn (longNameLastDirectoryInPath + 1) tmpLongNamePath;
          shortParentPath :=
            strlcpy (shortParentPath currentDirectory) tmpShortNamePath
                    (Z.of_nat shortNameLastDirectoryInPath + 2);
          longParentPath :=
            strlcpy (longParentPath currentDirectory) tmpLongNamePath
                    (Z.of_nat longNameLastDirectoryInPath + 2);
          FATFirstCluster := parentDirectoryFirstCluster |}
    | _, _ => None
    end.

(** Sets the current directory to a child of the current directory. *)
Definition pvt_SetCurrentDirectoryToChild
  (currentDirectory : FatCurrentDirectory) (sector : list byte)
  (shortNamePosition : Z) (nameStr : list byte) (bpb : BiosParameterBlock)
  : FatCurrentDirectory :=
  let dirFirstCluster := entry_first_cluster sector shortNamePosition in
  let snLen := if strlen nameStr <? 8 then u8 (strlen nameStr) else 8 in
  let sn := c_str (slice sector shortNamePosition (Z.to_nat snLen)) in
  let longParentPath1 :=
    longParentPath currentDirectory ++ longName currentDirectory in
  let shortParentPath1 :=
    shortParentPath currentDirectory ++ shortName currentDirectory in
  (* if current directory is not root then append '/' *)
  let longParentPath2 :=
    if negb (at_ (longName currentDirectory) 0 =? byteZ (chr "/"))
    then longParentPath1 ++ str "/" else longParentPath1 in
  let shortParentPath2 :=
    if negb (at_ (shortName currentDirectory) 0 =? byteZ (chr "/"))
    then shortParentPath1 ++ str "/" else shortParentPath1 in
  {| FATFirstCluster := dirFirstCluster;
     longParentPath := longParentPath2;
     longName := c_str nameStr;
     shortParentPath := shortParentPath2;
     shortName := sn |}.

(** The characters one long name entry at [i] contributes: the bytes at
    offsets 1..10, 14..25 and 28..31 that are neither 0 nor above 126. *)
Definition long_name_chars (sector : list byte) (i : Z) : list byte :=
  filter (fun b => negb ((byteZ b =? 0) || (126 <? byteZ b)))
         (slice sector (i + 1) 10 ++ slice sector (i + 14) 12
          ++ slice sector (i + 28) 4).

(** [for (int i = first; i >= last; i = i - ENTRY_LEN)], appending to the
    long name string; [n] bounds the number of iterations. *)
Fixpoint long_name_loop (n : nat) (i last : Z) (sector : list byte)
  (longNameStr : list byte) : list byte :=
  match n with
  | O => longNameStr
  | S n' =>
      if i >=? last then
        long_name_loop n' (i - ENTRY_LEN) last sector
                       (longNameStr ++ long_name_chars sector i)
      else longNameStr
  end.

Definition pvt_GetLongNameEntry (longNameFirstEntry longNameLastEntry : Z)
  (sector : list byte) (longNameStr : list byte) : list byte :=
  long_name_loop
    (Z.to_nat ((longNameFirstEntry - longNameLastEntry) / ENTRY_LEN + 1))
    longNameFirstEntry longNameLastEntry sector longNameStr.

End Fat.

(* ----------------------------------------------------------------- *)
(** *** The boot sector loader *)

Section BootSector.
Context {D : FatToSd}.

Definition FAT_GetBiosParameterBlock (bpb : BiosParameterBlock)
  : BootSectorError * BiosParameterBlock :=
  let boot := fat_FindBootSector in
  let bpb := mkBpb (bytesPerSector bpb) (sectorsPerCluster bpb)
               (reservedSectorCount bpb) (numberOfFats bpb) (fatSize32 bpb)
               (rootCluster bpb) boot (dataRegionFirstSector bpb) in
  if negb (boot =? 0xFFFFFFFF) then
    let BootSector := fat_ReadSingleSector boot in
    (* last two bytes of Boot Sector should be signature bytes. *)
    if (at_ BootSector (SECTOR_LEN - 2) =? 0x55)
       && (at_ BootSector (SECTOR_LEN - 1) =? 0xAA) then
      let bps := at_ BootSector 12 in
      let bps := shl8_or16 bps (at_ BootSector 11) in
      let bpb := mkBpb bps (sectorsPerCluster bpb)
                   (reservedSectorCount bpb) (numberOfFats bpb) (fatSize32 bpb)
                   (rootCluster bpb) boot (dataRegionFirstSector bpb) in
      if negb (bps =? SECTOR_LEN) then (INVALID_BYTES_PER_SECTOR, bpb)
      else
      (* secPerClus *)
      let spc := at_ BootSector 13 in
      let bpb := mkBpb bps spc
                   (reservedSectorCount bpb) (numberOfFats bpb) (fatSize32 bpb)
                   (rootCluster bpb) boot (dataRegionFirstSector bpb) in
      if negb (spc =? 1) && negb (spc =? 2) && negb (spc =? 4)
         && negb (spc =? 8) && negb (spc =? 16) && negb (spc =? 32)
         && negb (spc =? 64) && negb (spc =? 128)
      then (INVALID_SECTORS_PER_CLUSTER, bpb)
      else
      let rsvd := at_ BootSector 15 in
      let rsvd := shl8_or16 rsvd (at_ BootSector 14) in
      let nfats := at_ BootSector 16 in
      let fsz := at_ BootSector 39 in
      let fsz := shl8_or32 fsz (at_ BootSector 38) in
      let fsz := shl8_or32 fsz (at_ BootSector 37) in
      let fsz := shl8_or32 fsz (at_ BootSector 36) in
      let root := at_ BootSector 47 in
      let root := shl8_or32 root (at_ BootSector 46) in
      let root := shl8_or32 root (at_ BootSector 45) in
      let root := shl8_or32 root (at_ BootSector 44) in
      let data := u32 (u32 (boot + rsvd) + u32 (nfats * fsz)) in
      (BOOT_SECTOR_VALID, mkBpb bps spc rsvd nfats fsz root boot data)
    else (NOT_BOOT_SECTOR, bpb)
  else (BOOT_SECTOR_NOT_FOUND, bpb).

End BootSector.

(** Words of the claims: a little-endian field of a sector, as a number. *)
Definition le16 (sector : list byte) (off : Z) : Z :=
  at_ sector off + 256 * at_ sector (off + 1).
Definition le32 (sector : list byte) (off : Z) : Z :=
  at_ sector off + 256 * at_ sector (off + 1)
  + 65536 * at_ sector (off + 2) + 16777216 * at_ sector (off + 3).

(* ----------------------------------------------------------------- *)
(** *** Walking a directory *)

(** The variables of a walk that live across the entries and sectors of a
    directory. *)
Record LnState : Type := mkLn {
  shortNamePositionInCurrentSector : Z;     (* uint16_t *)
  shortNamePositionInNextSector : Z;        (* uint16_t *)
  longNameExistsFlag : bool;
  longNameCrossSectorBoundaryFlag : bool;
  longNameLastSectorEntryFlag : bool
}.

Definition ln_init : LnState := mkLn 0 0 false false false.

(** What a search of the directory ends with: the sector and position of
    the short name entry that matched, a corrupt entry, or no match (the
    terminator was met or the walk ran out of clusters). *)
Inductive Search : Type :=
  | Found (sector : list byte) (shortNamePosition : Z)
  | Corrupt
  | NotFound.

(** One pass through the body of the loop over the entries of a sector:
    go on to the increment of [entry], [break], [return], or undefined
    behaviour. *)
Inductive Step : Type :=
  | Continue (st : LnState) (entry : Z)
  | BreakLoop (st : LnState)
  | Return (r : Search)
  | Undef.

(** What a loop over entries or sectors ends with. *)
Inductive Flow : Type :=
  | Go (st : LnState)
  | Stop (r : Search)
  | Undefined.

(** "ensure 'entry' is pointing at correct location in sector": the head
    of the loop body, the same in the three walks.  [None] is the
    [break]. *)
Definition adjust_entry (st : LnState) (entry : Z) : option (LnState * Z) :=
  if longNameExistsFlag st then
    if (shortNamePositionInCurrentSector st >=? SECTOR_LEN - ENTRY_LEN)
       && negb (entry =? 0)
    then None
    else
      let snCur :=
        if shortNamePositionInCurrentSector st >=? SECTOR_LEN - ENTRY_LEN
        then u16 (- ENTRY_LEN)
        else shortNamePositionInCurrentSector st in
      if longNameCrossSectorBoundaryFlag st || longNameLastSectorEntryFlag st
      then
        Some (mkLn snCur 0 false false false,
              u16 (shortNamePositionInNextSector st + ENTRY_LEN))
      else
        Some (mkLn 0 (shortNamePositionInNextSector st) false
                   (longNameCrossSectorBoundaryFlag st)
                   (longNameLastSectorEntryFlag st),
              u16 (snCur + ENTRY_LEN))
  else Some (st, entry).

Section Walks.
Context {D : FatToSd}.

(** "get next sector's contents" as [FAT_SetCurrentDirectory] writes it
    (it compares with and multiplies by [bytesPerSector]). *)
Definition cd_next_sector (bpb : BiosParameterBlock)
  (clusterNumber currentSectorNumberInCluster absoluteCurrentSectorNumber : Z)
  : Z :=
  if currentSectorNumberInCluster >=? u16 (bytesPerSector bpb - 1) then
    u32 (dataRegionFirstSector bpb
         + (pvt_GetNextCluster clusterNumber bpb - 2) * bytesPerSector bpb)
  else u32 (1 + absoluteCurrentSectorNumber).

(** The same step as [FAT_PrintCurrentDirectory] and [FAT_PrintFile] write
    it (with [sectorsPerCluster]). *)
Definition ls_next_sector (bpb : BiosParameterBlock)
  (cluster currentSectorNumberInCluster absoluteCurrentSectorNumber : Z) : Z :=
  if currentSectorNumberInCluster >=? u32 (sectorsPerCluster bpb - 1) then
    u32 (dataRegionFirstSector bpb
         + (pvt_GetNextCluster cluster bpb - 2) * sectorsPerCluster bpb)
  else u32 (1 + absoluteCurrentSectorNumber).

Definition cat_next_sector := ls_next_sector.

(** The absolute number of sector [currentSectorNumberInCluster] of a
    cluster. *)
Definition absolute_sector (bpb : BiosParameterBlock)
  (cluster currentSectorNumberInCluster : Z) : Z :=
  u32 (currentSectorNumberInCluster + dataRegionFirstSector bpb
       + (cluster - 2) * sectorsPerCluster bpb).

(** The test of a short name entry in [FAT_SetCurrentDirectory]: the first
    [newDirStrLen] bytes of the entry against the name. *)
Definition cd_short_name_match (newDirectoryStr : list byte) (newDirStrLen : Z)
  (currentSectorContents : list byte) (entry : Z) : bool :=
  let tempDir := newDirectoryStr in
  let sn := slice currentSectorContents entry (Z.to_nat newDirStrLen) in
  strcmp_eq tempDir sn.

(** The body of the loop over the entries of a sector in
    [FAT_SetCurrentDirectory]. *)
Definition cd_entry_step (bpb : BiosParameterBlock)
  (newDirectoryStr : list byte) (newDirStrLen : Z)
  (clusterNumber currentSectorNumberInCluster absoluteCurrentSectorNumber : Z)
  (currentSectorContents : list byte) (st : LnState) (entry : Z) : Step :=
  match adjust_entry st entry with
  | None => BreakLoop st
  | Some (st, entry) =>
  (* If first value of entry is 0 then all subsequent entries are empty. *)
  if at_ currentSectorContents entry =? 0 then Return NotFound
  else
  let attributeByte := at_ currentSectorContents (entry + 11) in
  if (Z.land attributeByte LONG_NAME_ATTR_MASK =? LONG_NAME_ATTR_MASK)
     && negb (at_ currentSectorContents entry =? 0xE5)
  then
    (* This entry must be the last entry of a long name *)
    if Z.land (at_ currentSectorContents entry) LONG_NAME_LAST_ENTRY_FLAG =? 0
    then Return Corrupt
    else
    (* number of entries required for the long name *)
    let longNameOrder :=
      Z.land LONG_NAME_ORDINAL_MASK (at_ currentSectorContents entry) in
    let snCur := u16 (entry + ENTRY_LEN * longNameOrder) in
    if snCur >=? bytesPerSector bpb then
      match (if snCur >? bytesPerSector bpb then Some (true, false)
             else if snCur =? bytesPerSector bpb then Some (false, true)
             else None) with
      | None => Return Corrupt
      | Some (cross, last) =>
      (* get next sector's contents *)
      let absoluteNextSectorNumber :=
        cd_next_sector bpb clusterNumber currentSectorNumberInCluster
                       absoluteCurrentSectorNumber in
      let nextSectorContents := fat_ReadSingleSector absoluteNextSectorNumber in
      let snNext := u16 (snCur - bytesPerSector bpb) in
      let st := mkLn snCur snNext true cross last in
      let attributeByte := at_ nextSectorContents (snNext + 11) in
      (* If snNext points to long name entry then something is wrong. *)
      if Z.land attributeByte LONG_NAME_ATTR_MASK =? LONG_NAME_ATTR_MASK
      then Return Corrupt
      (* only need to proceed if the entry is a directory *)
      else if negb (Z.land attributeByte DIRECTORY_ENTRY_ATTR_FLAG =? 0) then
        if cross && negb last then
          if negb (Z.land (at_ nextSectorContents (u16 (snNext - ENTRY_LEN)))
                          LONG_NAME_ORDINAL_MASK =? 1)
          then Return Corrupt
          else
          (* load long name entry that crosses sector boundary *)
          let longNameStr :=
            pvt_GetLongNameEntry (s16 (snNext - ENTRY_LEN)) 0
                                 nextSectorContents [] in
          let longNameStr :=
            pvt_GetLongNameEntry (SECTOR_LEN - ENTRY_LEN) (s16 entry)
                                 nextSectorContents longNameStr in
          if strcmp_eq newDirectoryStr longNameStr
          then Return (Found nextSectorContents snNext)
          else Continue st entry
        else if negb cross && last then
          (* confirm last entry of current sector is the first entry of
             the long name *)
          if negb (Z.land (at_ currentSectorContents (SECTOR_LEN - ENTRY_LEN))
                          LONG_NAME_ORDINAL_MASK =? 1)
          then Return Corrupt
          else
          let longNameStr :=
            pvt_GetLongNameEntry (SECTOR_LEN - ENTRY_LEN) (s16 entry)
                                 currentSectorContents [] in
          if strcmp_eq newDirectoryStr longNameStr
          then Return (Found nextSectorContents snNext)
          else Continue st entry
        else Return Corrupt
      else Continue st entry
      end
    else
      (* Long name exists and is entirely in current sector along with
         the short name *)
      let st := mkLn snCur (shortNamePositionInNextSector st) true
                     (longNameCrossSectorBoundaryFlag st)
                     (longNameLastSectorEntryFlag st) in
      (* Confirm entry preceding short name is first entry of a long name. *)
      if negb (Z.land (at_ currentSectorContents (u16 (snCur - ENTRY_LEN)))
                      LONG_NAME_ORDINAL_MASK =? 1)
      then Return Corrupt
      else
      let attributeByte := at_ currentSectorContents (snCur + 11) in
      (* If not a directory entry, move on to next entry. *)
      if negb (Z.land attributeByte DIRECTORY_ENTRY_ATTR_FLAG =? 0) then
        let longNameStr :=
          pvt_GetLongNameEntry (s16 (snCur - ENTRY_LEN)) (s16 entry)
                               currentSectorContents [] in
        if strcmp_eq newDirectoryStr longNameStr
        then Return (Found currentSectorContents snCur)
        else Continue st entry
      else Continue st entry
  else
    (* Long Name Entry does not exist *)
    let attributeByte := at_ currentSectorContents (entry + 11) in
    (* If not a directory entry OR newDirectoryStr is too long for a short
       name then skip this section. *)
    if (newDirStrLen <? 9)
       && negb (Z.land attributeByte DIRECTORY_ENTRY_ATTR_FLAG =? 0)
    then
      if cd_short_name_match newDirectoryStr newDirStrLen
                             currentSectorContents entry
      then Return (Found currentSectorContents entry)
      else Continue st entry
    else Continue st entry
  end.

(** [for (entry = 0; entry < SECTOR_LEN; entry = entry + ENTRY_LEN)],
    entered with the current value of [entry]. *)
Fixpoint cd_entries (fuel : nat) (bpb : BiosParameterBlock)
  (newDirectoryStr : list byte) (newDirStrLen : Z)
  (clusterNumber currentSectorNumberInCluster absoluteCurrentSectorNumber : Z)
  (currentSectorContents : list byte) (st : LnState) (entry : Z) : Flow :=
  match fuel with
  | O => Undefined
  | S fuel' =>
      if entry <? SECTOR_LEN then
        match cd_entry_step bpb newDirectoryStr newDirStrLen clusterNumber
                currentSectorNumberInCluster absoluteCurrentSectorNumber
                currentSectorContents st entry with
        | Continue st' entry' =>
            cd_entries fuel' bpb newDirectoryStr newDirStrLen clusterNumber
              currentSectorNumberInCluster absoluteCurrentSectorNumber
              currentSectorContents st' (u16 (entry' + ENTRY_LEN))
        | BreakLoop st' => Go st'
        | Return r => Stop r
        | Undef => Undefined
        end
      else Go st
  end.

(** The loop through the sectors of the current cluster, with [n] sectors
    left. *)
Fixpoint cd_sectors (n fuel : nat) (bpb : BiosParameterBlock)
  (newDirectoryStr : list byte) (newDirStrLen : Z)
  (clusterNumber currentSectorNumberInCluster : Z) (st : LnState) : Flow :=
  match n with
  | O => Go st
  | S n' =>
      (* load sector bytes into currentSectorContents[] *)
      let absoluteCurrentSectorNumber :=
        absolute_sector bpb clusterNumber currentSectorNumberInCluster in
      let currentSectorContents :=
        fat_ReadSingleSector absoluteCurrentSectorNumber in
      match cd_entries fuel bpb newDirectoryStr newDirStrLen clusterNumber
              currentSectorNumberInCluster absoluteCurrentSectorNumber
              currentSectorContents st 0 with
      | Go st' =>
          cd_sectors n' fuel bpb newDirectoryStr newDirStrLen clusterNumber
                     (currentSectorNumberInCluster + 1) st'
      | other => other
      end
  end.

(** The [do ... while] loop through the current directory's clusters. *)
Fixpoint cd_clusters (fuel0 fuel : nat) (bpb : BiosParameterBlock)
  (newDirectoryStr : list byte) (newDirStrLen : Z)
  (clusterNumber : Z) (st : LnState) : option Search :=
  match fuel with
  | O => None
  | S fuel' =>
      match cd_sectors (Z.to_nat (sectorsPerCluster bpb)) fuel0 bpb
              newDirectoryStr newDirStrLen clusterNumber 0 st with
      | Go st' =>
          let clusterNumber := pvt_GetNextCluster clusterNumber bpb in
          if negb (clusterNumber =? END_OF_CLUSTER)
          then cd_clusters fuel0 fuel' bpb newDirectoryStr newDirStrLen
                           clusterNumber st'
          else Some NotFound
      | Stop r => Some r
      | Undefined => None
      end
  end.

(** Set currentDirectory to newDirectoryStr if found.  [fuel] bounds the
    number of clusters walked and the passes over one sector; [None]: the
    fuel ran out or the call has no defined result. *)
Definition FAT_SetCurrentDirectory (fuel : nat)
  (currentDirectory : FatCurrentDirectory) (newDirectoryStr : list byte)
  (bpb : BiosParameterBlock) : option (FatError * FatCurrentDirectory) :=
  match pvt_CheckIllegalName newDirectoryStr with
  | None => None
  | Some illegal =>
      if negb (illegal =? 0) then Some (INVALID_DIR_NAME, currentDirectory)
      (* Current Directory check *)
      else if strcmp_eq newDirectoryStr (str ".")
      then Some (SUCCESS, currentDirectory)
      (* Parent Directory check *)
      else if strcmp_eq newDirectoryStr (str "..") then
        match pvt_SetCurrentDirectoryToParent currentDirectory bpb with
        | Some parent => Some (SUCCESS, parent)
        | None => None
        end
      else
        let newDirStrLen := u8 (strlen newDirectoryStr) in
        let clusterNumber := FATFirstCluster currentDirectory in
        match cd_clusters fuel fuel bpb newDirectoryStr newDirStrLen
                clusterNumber ln_init with
        | None => None
        | Some (Found sector shortNamePosition) =>
            Some (SUCCESS,
                  pvt_SetCurrentDirectoryToChild currentDirectory sector
                    shortNamePosition newDirectoryStr bpb)
        | Some Corrupt => Some (CORRUPT_FAT_ENTRY, currentDirectory)
        | Some NotFound => Some (END_OF_DIRECTORY, currentDirectory)
        end
  end.

End Walks.

(* ----------------------------------------------------------------- *)
(** *** Printing a file *)

Section PrintFile.
Context {D : FatToSd}.

(** [for (int i = SECTOR_LEN - ENTRY_LEN; i >= entry; i = i - ENTRY_LEN)]
    as [FAT_PrintFile] writes it for a long name that ends the current
    sector: [entry] is a [uint16_t], so on the target the comparison
    converts [i] to unsigned.  When the loop passes below [entry] with [i]
    negative, it goes on and reads before the array: undefined ([None]). *)
Fixpoint long_name_loop_u (n : nat) (i entry : Z) (sector : list byte)
  (longNameStr : list byte) : option (list byte) :=
  match n with
  | O => None
  | S n' =>
      if u16 i >=? entry then
        if i <? 0 then None
        else long_name_loop_u n' (i - ENTRY_LEN) entry sector
                              (longNameStr ++ long_name_chars sector i)
      else Some longNameStr
  end.

(** The inlined copies of the loop of [pvt_GetLongNameEntry] whose bound
    is an [int]. *)
Definition long_name_inline (first last : Z) (sector : list byte)
  (longNameStr : list byte) : list byte :=
  long_name_loop (Z.to_nat ((first - last) / ENTRY_LEN + 1))
                 first last sector longNameStr.

(** "search for location of '.', if it exists, in fileNameStr. Exclude
    first position": the loop from [k], with [n] passes left.  [Some k]:
    the flag is set and [pt = k]. *)
Fixpoint find_pt (n : nat) (k : Z) (fileNameStr : list byte)
  (fileNameStrLen : Z) : option Z :=
  match n with
  | O => None
  | S n' =>
      if k <? fileNameStrLen then
        if k + 1 >=? fileNameStrLen then None
        else if at_ fileNameStr k =? byteZ (chr ".") then Some k
        else find_pt n' (u8 (k + 1)) fileNameStr fileNameStrLen
      else None
  end.

Definition spaces (n : nat) : list byte := repeat (chr " ") n.

(** The test of a short name entry in [FAT_PrintFile] (the name is at most
    12 characters long).  [None]: the 9-byte array [tempFileName] is
    overrun. *)
Definition cat_short_name_match (fileNameStr : list byte) (fileNameStrLen : Z)
  (currentSectorContents : list byte) (entry : Z) : option bool :=
  let found := find_pt 12 1 fileNameStr fileNameStrLen in
  let pt := match found with Some k => k | None => fileNameStrLen end in
  let fileNameExtExistsFlag :=
    match found with Some _ => true | None => false end in
  if 9 <? pt then None
  else
  let tempFileName :=
    firstn 8 (slice fileNameStr 0 (Z.to_nat pt)
              ++ spaces (Z.to_nat (8 - pt))) in
  let sn := slice currentSectorContents entry 8 in
  (* if name portion of short name matches then check that extensions
     match. *)
  if strcmp_eq tempFileName sn then
    let ext := slice currentSectorContents (entry + 8) 3 in
    let entryExtExistsFlag := true in
    let entryExtExistsFlag :=
      if negb (strcmp_eq ext (spaces 3)) && fileNameExtExistsFlag
      then true else entryExtExistsFlag in
    if negb entryExtExistsFlag && negb fileNameExtExistsFlag then Some true
    else if (entryExtExistsFlag && negb fileNameExtExistsFlag)
            || (negb entryExtExistsFlag && fileNameExtExistsFlag)
    then Some false
    else if entryExtExistsFlag && fileNameExtExistsFlag then
      let tail := firstn 3 (skipn (Z.to_nat (pt + 1)) fileNameStr) in
      let tempEXT := tail ++ spaces (3 - length tail) in
      (* Extensions match! *)
      Some (strcmp_eq ext tempEXT)
    else Some false
  else Some false.

(** The body of the loop over the entries of a sector in
    [FAT_PrintFile]. *)
Definition cat_entry_step (bpb : BiosParameterBlock)
  (fileNameStr : list byte) (fileNameStrLen : Z)
  (cluster currentSectorNumberInCluster absoluteCurrentSectorNumber : Z)
  (currentSectorContents : list byte) (st : LnState) (entry : Z) : Step :=
  match adjust_entry st entry with
  | None => BreakLoop st
  | Some (st, entry) =>
  (* this entry marked for deletion. Go to next entry. *)
  if at_ currentSectorContents entry =? 0xE5 then Continue st entry
  (* all subsequent entries are empty. *)
  else if at_ currentSectorContents entry =? 0 then Return NotFound
  else
  let attributeByte := at_ currentSectorContents (entry + 11) in
  (* long name? *)
  if Z.land attributeByte LONG_NAME_ATTR_MASK =? LONG_NAME_ATTR_MASK then
    (* confirm last long name entry flag is set *)
    if Z.land (at_ currentSectorContents entry) LONG_NAME_LAST_ENTRY_FLAG =? 0
    then Return Corrupt
    else
    (* number of entries required by the long name *)
    let longNameOrder :=
      Z.land LONG_NAME_ORDINAL_MASK (at_ currentSectorContents entry) in
    let snCur := u16 (entry + ENTRY_LEN * longNameOrder) in
    (* short name in next sector? *)
    if snCur >=? bytesPerSector bpb then
      match (if snCur >? bytesPerSector bpb then Some (true, false)
             else if snCur =? SECTOR_LEN then Some (false, true)
             else None) with
      | None => Return Corrupt
      | Some (cross, last) =>
      (* get next sector's contents *)
      let absoluteNextSectorNumber :=
        cat_next_sector bpb cluster currentSectorNumberInCluster
                        absoluteCurrentSectorNumber in
      let nextSectorContents := fat_ReadSingleSector absoluteNextSectorNumber in
      (* short name position in the next sector *)
      let snNext := u16 (snCur - bytesPerSector bpb) in
      let st := mkLn snCur snNext true cross last in
      let attributeByte := at_ nextSectorContents (snNext + 11) in
      (* confirm snNext points to short name entry *)
      if Z.land attributeByte LONG_NAME_ATTR_MASK =? LONG_NAME_ATTR_MASK
      then Return Corrupt
      (* Do nothing. Entry is a directory. *)
      else if negb (Z.land attributeByte DIRECTORY_ENTRY_ATTR_FLAG =? 0)
      then Continue st entry
      (* read in long name entry *)
      else if cross && negb last then
        if negb (Z.land (at_ nextSectorContents (u16 (snNext - ENTRY_LEN)))
                        LONG_NAME_ORDINAL_MASK =? 1)
        then Return Corrupt
        else
        (* read long name into longNameStr *)
        let longNameStr :=
          long_name_inline (s16 (snNext - ENTRY_LEN)) 0 nextSectorContents [] in
        match long_name_loop_u 17 (SECTOR_LEN - ENTRY_LEN) entry
                currentSectorContents longNameStr with
        | None => Undef
        | Some longNameStr =>
            (* print file contents if a matching entry was found *)
            if strcmp_eq fileNameStr longNameStr
            then Return (Found nextSectorContents snNext)
            else Continue st entry
        end
      else if negb cross && last then
        (* confirm last entry of current sector is the first entry of a
           long name *)
        if negb (Z.land (at_ currentSectorContents (SECTOR_LEN - ENTRY_LEN))
                        LONG_NAME_ORDINAL_MASK =? 1)
        then Return Corrupt
        else
        match long_name_loop_u 17 (SECTOR_LEN - ENTRY_LEN) entry
                currentSectorContents [] with
        | None => Undef
        | Some longNameStr =>
            if strcmp_eq fileNameStr longNameStr
            then Return (Found nextSectorContents snNext)
            else Continue st entry
        end
      else Return Corrupt
      end
    else
      (* Long name exists and long and short name entirely in the current
         sector. *)
      let st := mkLn snCur (shortNamePositionInNextSector st) true
                     (longNameCrossSectorBoundaryFlag st)
                     (longNameLastSectorEntryFlag st) in
      let attributeByte := at_ currentSectorContents (snCur + 11) in
      (* confirm snCur points to a short name entry in the current sector *)
      if Z.land attributeByte LONG_NAME_ATTR_MASK =? LONG_NAME_ATTR_MASK
      then Return Corrupt
      (* Entry is a directory. Do nothing. *)
      else if negb (Z.land attributeByte DIRECTORY_ENTRY_ATTR_FLAG =? 0)
      then Continue st entry
      (* confirm entry immediately preceding the short name entry is the
         first entry of a long name *)
      else if negb (Z.land (at_ currentSectorContents (u16 (snCur - ENTRY_LEN)))
                           LONG_NAME_ORDINAL_MASK =? 1)
      then Return Corrupt
      else
        (* read long name into longNameStr *)
        let longNameStr :=
          long_name_inline (s16 (snCur - ENTRY_LEN)) (s16 entry)
                           currentSectorContents [] in
        (* print file contents if a matching entry was found *)
        if strcmp_eq fileNameStr longNameStr
        then Return (Found currentSectorContents snCur)
        else Continue st entry
  else
    (* Long name does not exist for current entry so check if fileNameStr
       matches the short name. *)
    (* Entry is a directory. Do nothing. *)
    if negb (Z.land attributeByte DIRECTORY_ENTRY_ATTR_FLAG =? 0)
    then Continue st entry
    (* fileNameStr is too long to be a short name. *)
    else if fileNameStrLen >? 12 then Continue st entry
    (* read in short name. *)
    else
      match cat_short_name_match fileNameStr fileNameStrLen
              currentSectorContents entry with
      | None => Undef
      | Some true => Return (Found currentSectorContents entry)
      | Some false => Continue st entry
      end
  end.

(** [for (entry = 0; entry < bpb->bytesPerSector; entry = entry + ENTRY_LEN)] *)
Fixpoint cat_entries (fuel : nat) (bpb : BiosParameterBlock)
  (fileNameStr : list byte) (fileNameStrLen : Z)
  (cluster currentSectorNumberInCluster absoluteCurrentSectorNumber : Z)
  (currentSectorContents : list byte) (st : LnState) (entry : Z) : Flow :=
  match fuel with
  | O => Undefined
  | S fuel' =>
      if entry <? bytesPerSector bpb then
        match cat_entry_step bpb fileNameStr fileNameStrLen cluster
                currentSectorNumberInCluster absoluteCurrentSectorNumber
                currentSectorContents st entry with
        | Continue st' entry' =>
            cat_entries fuel' bpb fileNameStr fileNameStrLen cluster
              currentSectorNumberInCluster absoluteCurrentSectorNumber
              currentSectorContents st' (u16 (entry' + ENTRY_LEN))
        | BreakLoop st' => Go st'
        | Return r => Stop r
        | Undef => Undefined
        end
      else Go st
  end.

Fixpoint cat_sectors (n fuel : nat) (bpb : BiosParameterBlock)
  (fileNameStr : list byte) (fileNameStrLen : Z)
  (cluster currentSectorNumberInCluster : Z) (st : LnState) : Flow :=
  match n with
  | O => Go st
  | S n' =>
      let absoluteCurrentSectorNumber :=
        absolute_sector bpb cluster currentSectorNumberInCluster in
      let currentSectorContents :=
        fat_ReadSingleSector absoluteCurrentSectorNumber in
      match cat_entries fuel bpb fileNameStr fileNameStrLen cluster
              currentSectorNumberInCluster absoluteCurrentSectorNumber
              currentSectorContents st 0 with
      | Go st' =>
          cat_sectors n' fuel bpb fileNameStr fileNameStrLen cluster
                      (currentSectorNumberInCluster + 1) st'
      | other => other
      end
  end.

(** The [do ... while] loop through the clusters of the current directory,
    which also stops once [clusCnt] has reached 5. *)
Fixpoint cat_clusters (fuel0 fuel : nat) (bpb : BiosParameterBlock)
  (fileNameStr : list byte) (fileNameStrLen : Z)
  (cluster clusCnt : Z) (st : LnState) : option Search :=
  match fuel with
  | O => None
  | S fuel' =>
      let clusCnt := clusCnt + 1 in
      match cat_sectors (Z.to_nat (sectorsPerCluster bpb)) fuel0 bpb
              fileNameStr fileNameStrLen cluster 0 st with
      | Go st' =>
          let cluster := pvt_GetNextCluster cluster bpb in
          if negb (cluster =? END_OF_CLUSTER) && (clusCnt <? 5)
          then cat_clusters fuel0 fuel' bpb fileNameStr fileNameStrLen
                            cluster clusCnt st'
          else Some NotFound
      | Stop r => Some r
      | Undefined => None
      end
  end.

(** What the bytes of one sector of a file put on the screen: a line feed
    is printed as line feed and carriage return, a NUL is skipped. *)
Definition print_byte (b : byte) : list byte :=
  if byteZ b =? 10 then [x0a; x0d]
  else if byteZ b =? 0 then []
  else [b].

Definition print_sector (bpb : BiosParameterBlock) (fileSector : list byte)
  : list byte :=
  flat_map print_byte (slice fileSector 0 (Z.to_nat (bytesPerSector bpb))).

(** The sectors of one cluster of the file, with [n] sectors left. *)
Fixpoint print_cluster (n : nat) (bpb : BiosParameterBlock)
  (cluster currentSectorNumberInCluster : Z) : list byte :=
  match n with
  | O => []
  | S n' =>
      let absoluteCurrentSectorNumber :=
        absolute_sector bpb cluster currentSectorNumberInCluster in
      print_sector bpb (fat_ReadSingleSector absoluteCurrentSectorNumber)
      ++ print_cluster n' bpb cluster (currentSectorNumberInCluster + 1)
  end.

(** The [do ... while] loop of [pvt_PrintFatFile] from [cluster] on: the
    bytes put on the screen. *)
Fixpoint print_chain (fuel : nat) (bpb : BiosParameterBlock) (cluster : Z)
  : option (list byte) :=
  match fuel with
  | O => None
  | S fuel' =>
      let out :=
        [x0a; x0a; x0d]
        ++ print_cluster (Z.to_nat (sectorsPerCluster bpb)) bpb cluster 0 in
      let cluster := pvt_GetNextCluster cluster bpb in
      if negb (cluster =? END_OF_CLUSTER) then
        match print_chain fuel' bpb cluster with
        | Some rest => Some (out ++ rest)
        | None => None
        end
      else Some out
  end.

Definition pvt_PrintFatFile (fuel : nat) (entry : Z) (fileSector : list byte)
  (bpb : BiosParameterBlock) : option (list byte) :=
  (* get FAT index for file's first cluster *)
  let cluster := entry_first_cluster fileSector entry in
  print_chain fuel bpb cluster.

(** "legal name verification" at the head of [FAT_PrintFile]: the flag
    returned when the name is rejected.  [fileNameStrLen] is a [uint8_t]. *)
Definition file_name_check (fileNameStr : list byte) : option FatError :=
  let fileNameStrLen := u8 (strlen fileNameStr) in
  let seen := firstn (Z.to_nat fileNameStrLen) (c_str fileNameStr) in
  if strcmp_eq fileNameStr [] then Some INVALID_FILE_NAME
  else if at_ (c_str fileNameStr) 0 =? byteZ (chr " ")
  then Some INVALID_FILE_NAME
  else if existsb is_illegal seen then Some INVALID_DIR_NAME
  else if forallb (fun c => byte_eqb c (chr " ")) seen
  then Some INVALID_FILE_NAME
  else None.

(** What one cluster of a file puts on the screen. *)
Definition cluster_out (bpb : BiosParameterBlock) (cluster : Z) : list byte :=
  [x0a; x0a; x0d]
  ++ print_cluster (Z.to_nat (sectorsPerCluster bpb)) bpb cluster 0.

(** The clusters that follow [cluster] in the FAT, up to the end of the
    chain. *)
Fixpoint is_chain (bpb : BiosParameterBlock) (cluster : Z) (rest : list Z)
  : Prop :=
  match rest with
  | [] => pvt_GetNextCluster cluster bpb = END_OF_CLUSTER
  | c :: rest' =>
      pvt_GetNextCluster cluster bpb = c /\ c <> END_OF_CLUSTER
      /\ is_chain bpb c rest'
  end.

(** Prints the contents of the file to the screen: the returned flag and
    the bytes printed. *)
Definition FAT_PrintFile (fuel : nat) (currentDirectory : FatCurrentDirectory)
  (fileNameStr : list byte) (bpb : BiosParameterBlock)
  : option (FatError * list byte) :=
  let fileNameStrLen := u8 (strlen fileNameStr) in
  match file_name_check fileNameStr with
  | Some flag => Some (flag, [])
  | None =>
    let cluster := FATFirstCluster currentDirectory in
    let clusCnt := 0 in
    match cat_clusters fuel fuel bpb (c_str fileNameStr) fileNameStrLen
            cluster clusCnt ln_init with
    | None => None
    | Some (Found sector shortNamePosition) =>
        match pvt_PrintFatFile fuel shortNamePosition sector bpb with
        | Some out => Some (SUCCESS, out)
        | None => None
        end
    | Some Corrupt => Some (CORRUPT_FAT_ENTRY, [])
    | Some NotFound => Some (FILE_NOT_FOUND, [])
    end
  end.

End PrintFile.

(* ================================================================= *)
(** ** A small volume, to run the directory engine on concrete sectors *)

(** One sector per cluster, 32 reserved sectors, two FATs of 1024 sectors,
    the boot sector at LBA 0: the data region starts at sector 2080.

    - root directory: clusters 2 -> 11.  Its first sector holds the
      directory FOOBAR (cluster 3), the file F.TXT (clusters 4 -> 5 -> 6
      -> 7 -> 8 -> 9), thirteen deleted entries and, in the last slot,
      the single long name entry "longdir"; the short name entry of
      "longdir" (cluster 12) opens the second cluster of the root.
    - FOOBAR and longdir hold only their dot entries. *)

Definition le16_bytes (z : Z) : list byte :=
  [byte_of_Z z; byte_of_Z (z / 256)].
Definition le32_bytes (z : Z) : list byte :=
  le16_bytes z ++ le16_bytes (z / 65536).

Definition pad_sector (l : list byte) : list byte :=
  l ++ repeat x00 (512 - length l).

(** A short name entry: the 11 bytes of the 8.3 name, the attribute byte,
    the first cluster and the size. *)
Definition short_entry (name : string) (attr cluster size : Z) : list byte :=
  str name ++ [byte_of_Z attr] ++ repeat x00 8
  ++ le16_bytes (cluster / 65536) ++ repeat x00 4
  ++ le16_bytes cluster ++ le32_bytes size.

Definition deleted_entry : list byte :=
  [xe5] ++ str "ELETED TMP" ++ [x20] ++ repeat x00 20.

(** The only long name entry of "longdir": ordinal 1 with the last-entry
    flag, thirteen UTF-16 code units, attribute 0x0F. *)
Definition longdir_entry : list byte :=
  [x41] ++ [x6c; x00; x6f; x00; x6e; x00; x67; x00; x64; x00]
  ++ [x0f; x00; x5a]
  ++ [x69; x00; x72; x00; x00; x00; xff; xff; xff; xff; xff; xff]
  ++ [x00; x00] ++ [xff; xff; xff; xff].

Definition demo_boot_sector : list byte :=
  repeat x00 11 ++ le16_bytes 512 ++ [x01] ++ le16_bytes 32 ++ [x02]
  ++ repeat x00 19 ++ le32_bytes 1024 ++ repeat x00 4 ++ le32_bytes 2
  ++ repeat x00 462 ++ [x55; xaa].

Definition demo_fat_sector : list byte :=
  pad_sector (flat_map le32_bytes
    [0x0FFFFFF8; 0x0FFFFFFF; 11; 0x0FFFFFFF; 5; 6; 7; 8; 9; 0x0FFFFFFF;
     0; 0x0FFFFFFF; 0x0FFFFFFF]).

Definition demo_root_sector1 : list byte :=
  short_entry "FOOBAR     " 0x10 3 0
  ++ short_entry "F       TXT" 0x20 4 3072
  ++ flat_map (fun _ => deleted_entry) (seq 0 13)
  ++ longdir_entry.

Definition demo_root_sector2 : list byte :=
  pad_sector (short_entry "LONGDIR    " 0x10 12 0).

Definition dot_entries (self parent : Z) : list byte :=
  pad_sector (short_entry ".          " 0x10 self 0
              ++ short_entry "..         " 0x10 parent 0).

Definition file_sector (c : byte) : list byte := pad_sector [c].

Definition demo_read (lba : Z) : list byte :=
  if lba =? 0 then demo_boot_sector
  else if lba =? 32 then demo_fat_sector
  else if lba =? 2080 then demo_root_sector1
  else if lba =? 2081 then dot_entries 3 0
  else if lba =? 2082 then file_sector x41
  else if lba =? 2083 then file_sector x42
  else if lba =? 2084 then file_sector x43
  else if lba =? 2085 then file_sector x44
  else if lba =? 2086 then file_sector x45
  else if lba =? 2087 then file_sector x46
  else if lba =? 2089 then demo_root_sector2
  else if lba =? 2090 then dot_entries 12 0
  else repeat x00 512.

Definition DemoDisk : FatToSd := {|
  fat_FindBootSector := 0;
  fat_ReadSingleSector := demo_read;
  END_OF_CLUSTER := 0x0FFFFFFF
|}.

Definition demo_bpb : BiosParameterBlock := {|
  bytesPerSector := 512; sectorsPerCluster := 1; reservedSectorCount := 32;
  numberOfFats := 2; fatSize32 := 1024; rootCluster := 2;
  bootSectorAddress := 0; dataRegionFirstSector := 2080
|}.

Definition blank_bpb : BiosParameterBlock := mkBpb 0 0 0 0 0 0 0 0.

Definition root_dir : FatCurrentDirectory := {|
  longName := str "/"; longParentPath := [];
  shortName := str "/"; shortParentPath := [];
  FATFirstCluster := 2
|}.

Definition foobar_dir : FatCurrentDirectory := {|
  longName := str "FOOBAR"; longParentPath := str "/";
  shortName := str "FOOBAR"; shortParentPath := str "/";
  FATFirstCluster := 3
|}.

(* ================================================================= *)
(** ** Words to state the behaviour of the directory engine *)

(** A char array that holds no NUL: it is its own C string. *)
Definition clean (s : list byte) : bool :=
  forallb (fun b => negb (byteZ b =? 0)) s.

Definition has_slash (s : list byte) : bool :=
  existsb (fun b => byte_eqb b (chr "/")) s.

Definition ends_with_slash (s : list byte) : bool :=
  match rev s with
  | b :: _ => byte_eqb b (chr "/")
  | [] => false
  end.

(** The cursors the directory engine itself produces (section 3): the
    first cluster is a cluster index; at the root both names are "/" and
    both parent paths are empty; below the root the names hold no slash,
    the parent paths end with one, and a parent path followed by the name
    and a slash fits the 64-byte arrays of
    [pvt_SetCurrentDirectoryToParent]. *)
Definition wf_cursor (bpb : BiosParameterBlock) (dir : FatCurrentDirectory)
  : bool :=
  (2 <=? FATFirstCluster dir)
  && if FATFirstCluster dir =? rootCluster bpb then
       bytes_eqb (longName dir) (str "/")
       && bytes_eqb (shortName dir) (str "/")
       && bytes_eqb (longParentPath dir) []
       && bytes_eqb (shortParentPath dir) []
     else
       clean (longName dir) && clean (shortName dir)
       && clean (longParentPath dir) && clean (shortParentPath dir)
       && negb (has_slash (longName dir))
       && negb (has_slash (shortName dir))
       && ends_with_slash (longParentPath dir)
       && ends_with_slash (shortParentPath dir)
       && (length (longParentPath dir ++ longName dir) <? 64)%nat
       && (length (shortParentPath dir ++ shortName dir) <? 64)%nat.

(** The first cluster that the ".." entry of a directory records. *)
Definition parent_recorded {D : FatToSd} (bpb : BiosParameterBlock)
  (dir : FatCurrentDirectory) : Z :=
  dotdot_cluster (fat_ReadSingleSector (cluster_sector bpb (FATFirstCluster dir))).

(* ================================================================= *)
(** ** sd_spi_data_access.c: the write functions and the block count *)

(** Modelled from the spec: the remaining command indices of section 6. *)
Definition WRITE_BLOCK : Z := 24.
Definition WRITE_MULTIPLE_BLOCK : Z := 25.
Definition APP_CMD : Z := 55.
Definition SEND_NUM_WR_BLOCKS : Z := 22.

(** The flags of the codes the write functions return, macros of the
    header of the block layer like those of [SdFlags]. *)
Class SdWriteFlags : Type := {
  DATA_ACCEPTED_TOKEN_RECEIVED : Z;
  CRC_ERROR_TOKEN_RECEIVED : Z;
  WRITE_ERROR_TOKEN_RECEIVED : Z;
  INVALID_DATA_RESPONSE : Z;
  DATA_RESPONSE_TIMEOUT : Z;
  CARD_BUSY_TIMEOUT : Z
}.

(** Index of the first byte that satisfies [p]. *)
Fixpoint find_first (p : byte -> bool) (bs : list byte) : option nat :=
  match bs with
  | [] => None
  | b :: tl => if p b then Some O else option_map S (find_first p tl)
  end.

(** The test that ends the wait for a data response token: the low five
    bits are [0x05], [0x0B] or [0x0D]. *)
Definition valid_response (dataResponseToken : byte) : bool :=
  let dataTokenMask := 0x1F in
  negb (negb (Z.land dataTokenMask (byteZ dataResponseToken) =? 0x05)
        && negb (Z.land dataTokenMask (byteZ dataResponseToken) =? 0x0B)
        && negb (Z.land dataTokenMask (byteZ dataResponseToken) =? 0x0D)).

Definition is_busy (b : byte) : bool := byteZ b =? 0.
Definition not_token (b : byte) : bool := negb (byteZ b =? 0xFE).

Section SdSpiWrite.
Context {Wire : Type} {SB : SpiBase Wire} {SF : SdFlags} {WF : SdWriteFlags}.

(** [SD_SendByteSPI] on each byte in turn. *)
Definition send_bytes (bs : list byte) (w : Wire) : Wire :=
  fold_left (fun w b => SD_SendByteSPI b w) bs w.

(** The shape of the bounded waits written as
    [while (cond (receive)) { if (timeout++ > limit) return timeout; }]
    with a [uint16_t timeout].  [Some (true, w)]: the condition ended the
    wait; [Some (false, w)]: the return inside the loop was taken. *)
Fixpoint poll_while (cond : byte -> bool) (limit : Z) (fuel : nat)
  (timeout : Z) (w : Wire) : option (bool * Wire) :=
  match fuel with
  | O => None
  | S fuel' =>
      let (b, w') := SD_ReceiveByteSPI w in
      if cond b then
        if timeout >? limit then Some (false, w')
        else poll_while cond limit fuel' (u16 (timeout + 1)) w'
      else Some (true, w')
  end.

(** The wait for a valid data response token:
    [do { token = receive; if (timeout++ > limit) return timeout; }
     while (token is not valid);]
    [Some (Some token, w)]: a valid token ended the loop;
    [Some (None, w)]: the return inside the loop was taken. *)
Fixpoint poll_token (limit : Z) (fuel : nat) (timeout : Z) (w : Wire)
  : option (option byte * Wire) :=
  match fuel with
  | O => None
  | S fuel' =>
      let (dataResponseToken, w') := SD_ReceiveByteSPI w in
      if timeout >? limit then Some (None, w')
      else
        let timeout := u16 (timeout + 1) in
        if negb (valid_response dataResponseToken)
        then poll_token limit fuel' timeout w'
        else Some (Some dataResponseToken, w')
  end.

(** Writes data in the array to the block at the address: the returned
    code and the bus on return. *)
Definition SD_WriteSingleBlock (blockAddress : Z) (data : list byte)
  (bus : Bus Wire) : option (Z * Bus Wire) :=
  let cs := CS_LOW in
  let w := SD_SendCommand WRITE_BLOCK blockAddress (wire bus) in   (* CMD24 *)
  let (r1, w) := SD_GetR1 w in
  if byteZ r1 >? 0 then
    let cs := CS_HIGH in
    Some (u16 (Z.lor R1_ERROR (byteZ r1)), mkBus cs w)
  else
    let fall_through (w : Wire) :=
      Some (u16 (Z.lor INVALID_DATA_RESPONSE (byteZ r1)), mkBus cs w) in
    if byteZ r1 =? 0 then
      (* Send Start Block Token initiates data transfer *)
      let w := SD_SendByteSPI xfe w in
      (* send data to write to SD card. *)
      let w := send_bytes (slice data 0 BLOCK_LEN) w in
      (* Send 16-bit CRC. *)
      let w := SD_SendByteSPI xff w in
      let w := SD_SendByteSPI xff w in
      let timeout := 0 in
      (* wait for valid data response token *)
      match poll_token 0xFE (Z.to_nat 258) timeout w with
      | None => None
      | Some (None, w) =>
          let cs := CS_HIGH in
          Some (u16 (Z.lor DATA_RESPONSE_TIMEOUT (byteZ r1)), mkBus cs w)
      | Some (Some dataResponseToken, w) =>
          if Z.land (byteZ dataResponseToken) 0x05 =? 5 then
            (* DATA_ACCEPTED *)
            let timeout := 0 in
            (* Wait for SD card to finish writing data to the block. *)
            match poll_while is_busy 0x1FF (Z.to_nat 515) timeout w with
            | None => None
            | Some (false, w) =>
                let cs := CS_HIGH in
                Some (u16 (Z.lor CARD_BUSY_TIMEOUT (byteZ r1)), mkBus cs w)
            | Some (true, w) =>
                let cs := CS_HIGH in
                Some (u16 (Z.lor DATA_ACCEPTED_TOKEN_RECEIVED (byteZ r1)),
                      mkBus cs w)
            end
          else if Z.land (byteZ dataResponseToken) 0x0B =? 0x0B then
            (* CRC Error *)
            let cs := CS_HIGH in
            Some (u16 (Z.lor CRC_ERROR_TOKEN_RECEIVED (byteZ r1)), mkBus cs w)
          else if Z.land (byteZ dataResponseToken) 0x0D =? 0x0D then
            (* Write Error *)
            let cs := CS_HIGH in
            Some (u16 (Z.lor WRITE_ERROR_TOKEN_RECEIVED (byteZ r1)), mkBus cs w)
          else fall_through w
      end
    else fall_through w.

(** What one pass of the loop over the blocks of [SD_WriteMultipleBlocks]
    ends with. *)
Inductive BlocksOut : Type :=
  | BlocksReturn (code : Z) (cs : bool) (w : Wire)
  | BlocksDone (returnToken : option Z) (w : Wire)
  | BlocksUndefined.

(** [for (int k = 0; k < numberOfBlocks; k++)] of
    [SD_WriteMultipleBlocks], entered with the current [k].  [returnToken]
    is [None] while the variable is not yet assigned.  [k] is an [int]:
    its increment past 32767 is undefined. *)
Fixpoint write_blocks (fuel : nat) (k numberOfBlocks : Z) (data : list byte)
  (r1 : byte) (cs : bool) (returnToken : option Z) (w : Wire) : BlocksOut :=
  if k <? numberOfBlocks then
    match fuel with
    | O => BlocksUndefined
    | S fuel' =>
        (* Start Block Token initiates data transfer *)
        let w := SD_SendByteSPI xfc w in
        (* send data in 'data' to SD card. *)
        let w := send_bytes (slice data 0 BLOCK_LEN) w in
        (* Send 16-bit CRC. *)
        let w := SD_SendByteSPI xff w in
        let w := SD_SendByteSPI xff w in
        let timeout := 0 in
        match poll_token 0xFF (Z.to_nat 259) timeout w with
        | None => BlocksUndefined
        | Some (None, w) =>
            let cs := CS_HIGH in
            BlocksReturn (u16 (Z.lor DATA_RESPONSE_TIMEOUT (byteZ r1))) cs w
        | Some (Some dataResponseToken, w) =>
            if Z.land (byteZ dataResponseToken) 0x05 =? 5 then
              (* DATA ACCEPTED *)
              let timeout := 0 in
              match poll_while is_busy 511 (Z.to_nat 514) timeout w with
              | None => BlocksUndefined
              | Some (false, w) =>
                  (* the return inside the wait: no CS_HIGH before it *)
                  BlocksReturn (u16 (Z.lor CARD_BUSY_TIMEOUT (byteZ r1))) cs w
              | Some (true, w) =>
                  let returnToken := Some DATA_ACCEPTED_TOKEN_RECEIVED in
                  if k + 1 >? 32767 then BlocksUndefined
                  else write_blocks fuel' (k + 1) numberOfBlocks data r1 cs
                                    returnToken w
              end
            else if Z.land (byteZ dataResponseToken) 0x0B =? 0x0B then
              (* CRC Error *)
              BlocksDone (Some CRC_ERROR_TOKEN_RECEIVED) w
            else if Z.land (byteZ dataResponseToken) 0x0D =? 0x0D then
              (* Write Error *)
              BlocksDone (Some WRITE_ERROR_TOKEN_RECEIVED) w
            else
              if k + 1 >? 32767 then BlocksUndefined
              else write_blocks fuel' (k + 1) numberOfBlocks data r1 cs
                                returnToken w
        end
    end
  else BlocksDone returnToken w.

(** Writes the data in the array to multiple blocks.  [None]: no defined
    result (the returned variable was never assigned, or the loop counter
    overflowed). *)
Definition SD_WriteMultipleBlocks (startBlockAddress numberOfBlocks : Z)
  (data : list byte) (bus : Bus Wire) : option (Z * Bus Wire) :=
  let cs := CS_LOW in
  let w := SD_SendCommand WRITE_MULTIPLE_BLOCK startBlockAddress (wire bus) in
  let (r1, w) := SD_GetR1 w in
  if byteZ r1 >? 0 then
    let cs := CS_HIGH in
    Some (u16 (Z.lor R1_ERROR (byteZ r1)), mkBus cs w)
  else if byteZ r1 =? 0 then
    match write_blocks (Z.to_nat 32768) 0 numberOfBlocks data r1 cs None w with
    | BlocksUndefined => None
    | BlocksReturn code cs w => Some (code, mkBus cs w)
    | BlocksDone returnToken w =>
        let timeout := 0 in
        let w := SD_SendByteSPI xfd w in   (* Stop Transmission Token *)
        match poll_while is_busy 511 (Z.to_nat 514) timeout w with
        | None => None
        | Some (false, w) =>
            let cs := CS_HIGH in
            Some (u16 (Z.lor CARD_BUSY_TIMEOUT (byteZ r1)), mkBus cs w)
        | Some (true, w) =>
            let cs := CS_HIGH in
            match returnToken with
            | Some tok => Some (u16 tok, mkBus cs w)
            | None => None
            end
        end
    end
  else None.

(** Gets the number of well written blocks after a multi-block write
    error: the returned code, the value left in [*wellWrittenBlocks] and
    the bus. *)
Definition SD_GetNumberOfWellWrittenBlocks (wellWrittenBlocks : Z)
  (bus : Bus Wire) : option (Z * Z * Bus Wire) :=
  let timeout := 0 in
  let cs := CS_LOW in
  let w := SD_SendCommand APP_CMD 0 (wire bus) in   (* next command is ACMD *)
  let (r1, w) := SD_GetR1 w in
  if byteZ r1 >? 0 then
    let cs := CS_HIGH in
    Some (u16 (Z.lor R1_ERROR (byteZ r1)), wellWrittenBlocks, mkBus cs w)
  else
  let w := SD_SendCommand SEND_NUM_WR_BLOCKS 0 w in
  let (r1, w) := SD_GetR1 w in
  if byteZ r1 >? 0 then
    let cs := CS_HIGH in
    Some (u16 (Z.lor R1_ERROR (byteZ r1)), wellWrittenBlocks, mkBus cs w)
  else
  (* start block token *)
  match poll_while not_token 0x511 (Z.to_nat 1301) timeout w with
  | None => None
  | Some (false, w) =>
      let cs := CS_HIGH in
      Some (u16 (Z.lor START_TOKEN_TIMEOUT (byteZ r1)), wellWrittenBlocks,
            mkBus cs w)
  | Some (true, w) =>
      (* Get the number of well written blocks (32-bit) *)
      let (b, w) := SD_ReceiveByteSPI w in
      let wellWrittenBlocks := byteZ b in
      let (b, w) := SD_ReceiveByteSPI w in
      let wellWrittenBlocks := shl8_or32 wellWrittenBlocks (byteZ b) in
      let (b, w) := SD_ReceiveByteSPI w in
      let wellWrittenBlocks := shl8_or32 wellWrittenBlocks (byteZ b) in
      let (b, w) := SD_ReceiveByteSPI w in
      let wellWrittenBlocks := shl8_or32 wellWrittenBlocks (byteZ b) in
      (* CRC bytes *)
      let w := after 1 w in
      let w := after 1 w in
      let cs := CS_HIGH in
      Some (u16 READ_SUCCESS, wellWrittenBlocks, mkBus cs w)
  end.

(** Prints the error code returned by a read function: the characters
    printed.  The cases of the [switch] are tried in the order written. *)
Definition SD_PrintReadError (err : Z) : list byte :=
  let sel := Z.land err 0xFF00 in
  if sel =? R1_ERROR then [x0a; x0d] ++ str " R1 ERROR"
  else if sel =? READ_SUCCESS then [x0a; x0d] ++ str " READ SUCCESS"
  else if sel =? START_TOKEN_TIMEOUT
  then [x0a; x0d] ++ str " START TOKEN TIMEOUT"
  else [x0a; x0d] ++ str " UNKNOWN RESPONSE".

End SdSpiWrite.

(* ================================================================= *)
(** ** The later revision: writing a single block *)

Section SdSpiRweWrite.
Context {Wire : Type} {SB : SpiBase Wire} {SF : SdFlags} {WF : SdWriteFlags}
        {RL : RweLimits}.

Definition sd_WriteSingleBlock (fuel : nat) (blckAddr : Z)
  (dataArr : list byte) (bus : Bus Wire) : option (Z * Bus Wire) :=
  let cs := CS_LOW in
  let w := SD_SendCommand WRITE_BLOCK blckAddr (wire bus) in   (* CMD24 *)
  let (r1, w) := SD_GetR1 w in
  if negb (byteZ r1 =? OUT_OF_IDLE) then
    let cs := CS_HIGH in
    Some (u16 (Z.lor R1_ERROR (byteZ r1)), mkBus cs w)
  else
    let timeout := 0 in
    (* send Start Block Token (0xFE) to initiate data transfer *)
    let w := SD_SendByteSPI xfe w in
    (* send data to write to SD card. *)
    let w := send_bytes (slice dataArr 0 BLOCK_LEN) w in
    (* Send 16-bit CRC. *)
    let w := SD_SendByteSPI xff w in
    let w := SD_SendByteSPI xff w in
    (* wait for valid data response token *)
    match poll_token TIMEOUT_LIMIT fuel timeout w with
    | None => None
    | Some (None, w) =>
        let cs := CS_HIGH in
        Some (u16 (Z.lor DATA_RESPONSE_TIMEOUT (byteZ r1)), mkBus cs w)
    | Some (Some dataRespTkn, w) =>
        (* Data Accepted --> Data Response Token = 0x05 *)
        if Z.land (byteZ dataRespTkn) 0x05 =? 0x05 then
          let timeout := 0 in
          match poll_while is_busy (4 * TIMEOUT_LIMIT) fuel timeout w with
          | None => None
          | Some (false, w) =>
              let cs := CS_HIGH in
              Some (u16 (Z.lor CARD_BUSY_TIMEOUT (byteZ r1)), mkBus cs w)
          | Some (true, w) =>
              let cs := CS_HIGH in
              Some (u16 (Z.lor DATA_ACCEPTED_TOKEN_RECEIVED (byteZ r1)),
                    mkBus cs w)
          end
        (* CRC Error --> Data Response Token = 0x0B *)
        else if Z.land (byteZ dataRespTkn) 0x0B =? 0x0B then
          let cs := CS_HIGH in
          Some (u16 (Z.lor CRC_ERROR_TOKEN_RECEIVED (byteZ r1)), mkBus cs w)
        (* Write Error --> Data Response Token = 0x0D *)
        else if Z.land (byteZ dataRespTkn) 0x0D =? 0x0D then
          let cs := CS_HIGH in
          Some (u16 (Z.lor WRITE_ERROR_TOKEN_RECEIVED (byteZ r1)), mkBus cs w)
        else
          Some (u16 (Z.lor INVALID_DATA_RESPONSE (byteZ r1)), mkBus cs w)
    end.

End SdSpiRweWrite.

Definition demo_write_flags : SdWriteFlags := {|
  DATA_ACCEPTED_TOKEN_RECEIVED := 0x0000;
  CRC_ERROR_TOKEN_RECEIVED := 0x0100;
  WRITE_ERROR_TOKEN_RECEIVED := 0x0200;
  INVALID_DATA_RESPONSE := 0x0400;
  DATA_RESPONSE_TIMEOUT := 0x0800;
  CARD_BUSY_TIMEOUT := 0x1000
|}.

(* ================================================================= *)
(** ** Words to state the behaviour of the write functions *)

(** The R1 response to a command with an argument, and the wire after it. *)
Definition cmd_r1 {Wire} {SB : SpiBase Wire} (cmd arg : Z) (w : Wire)
  : byte * Wire :=
  SD_GetR1 (SD_SendCommand cmd arg w).

(** The wire after a data frame has been sent: the start token, the first
    512 bytes of the array and two CRC bytes [0xFF]. *)
Definition write_frame {Wire} {SB : SpiBase Wire} (token : byte)
  (data : list byte) (w : Wire) : Wire :=
  SD_SendByteSPI xff
    (SD_SendByteSPI xff
       (fold_left (fun w b => SD_SendByteSPI b w) (slice data 0 BLOCK_LEN)
          (SD_SendByteSPI token w))).

(** Four bytes as a number, most significant byte first. *)
Definition be32 (bs : list byte) : Z :=
  16777216 * byteZ (nth 0 bs x00) + 65536 * byteZ (nth 1 bs x00)
  + 256 * byteZ (nth 2 bs x00) + byteZ (nth 3 bs x00).

(** A flag of the upper byte of a 16-bit code. *)
Definition upper_flag (f : Z) : Prop :=
  0 <= f < 65536 /\ f mod 256 = 0.

(** Concrete runs: a card that accepts a written block after one busy
    byte, one that answers a write with the write error token [0x0D], one
    that reports a CRC error on the first block of a multi-block write and
    one that stays busy after accepting it; and the answers to ACMD22 with
    the count [0x00010203]. *)
Definition card_accepts_write : list byte :=
  idle 6 ++ [x00] ++ idle 515 ++ [xff; xe5; x00; xff].
Definition card_write_error : list byte :=
  idle 6 ++ [x00] ++ idle 515 ++ [xed; xff].
Definition card_crc_error : list byte :=
  idle 6 ++ [x00] ++ idle 515 ++ [xeb] ++ [xff] ++ [x00; xff].
Definition card_busy_after_block : list byte :=
  idle 6 ++ [x00] ++ idle 515 ++ [xe5] ++ repeat x00 513.
Definition card_counts_blocks : list byte :=
  idle 6 ++ [x00] ++ idle 6 ++ [x00]
  ++ [xff; xfe; x00; x01; x02; x03; x12; x34].

(* ================================================================= *)
(** ** sd_spi_data_access.c: printing the codes of the write and erase
       functions *)

Section SdSpiPrintErrors.
Context {SF : SdFlags} {WF : SdWriteFlags}.

(** Prints the error code returned by a write function: the characters
    printed. *)
Definition SD_PrintWriteError (err : Z) : list byte :=
  let sel := Z.land err 0xFF00 in
  if sel =? DATA_ACCEPTED_TOKEN_RECEIVED
  then [x0a; x0d] ++ str " DATA_ACCEPTED_TOKEN_RECEIVED"
  else if sel =? CRC_ERROR_TOKEN_RECEIVED
  then [x0a; x0d] ++ str " CRC_ERROR_TOKEN_RECEIVED"
  else if sel =? WRITE_ERROR_TOKEN_RECEIVED
  then [x0a; x0d] ++ str " WRITE_ERROR_TOKEN_RECEIVED"
  else if sel =? INVALID_DATA_RESPONSE
  then [x0a; x0d] ++ str " INVALID_DATA_RESPONSE"
  else if sel =? DATA_RESPONSE_TIMEOUT
  then [x0a; x0d] ++ str " DATA_RESPONSE_TIMEOUT"
  else if sel =? CARD_BUSY_TIMEOUT
  then [x0a; x0d] ++ str " CARD_BUSY_TIMEOUT"
  else if sel =? R1_ERROR
  then [x0a; x0d] ++ str " R1_ERROR"
  else [x0a; x0d] ++ str " UNKNOWN RESPONSE".

(** Prints the error code returned by [SD_EraseBlocks]. *)
Definition SD_PrintEraseError (err : Z) : list byte :=
  let sel := Z.land err 0xFF00 in
  if sel =? ERASE_SUCCESSFUL
  then [x0a; x0d] ++ str " ERASE SUCCESSFUL"
  else if sel =? SET_ERASE_START_ADDR_ERROR
  then [x0a; x0d] ++ str " SET ERASE START ADDR ERROR"
  else if sel =? SET_ERASE_END_ADDR_ERROR
  then [x0a; x0d] ++ str " SET ERASE END ADDR ERROR"
  else if sel =? ERASE_ERROR
  then [x0a; x0d] ++ str " ERROR ERASE"
  else if sel =? ERASE_BUSY_TIMEOUT
  then [x0a; x0d] ++ str " ERASE_BUSY_TIMEOUT"
  else [x0a; x0d] ++ str " UNKNOWN RESPONSE".

End SdSpiPrintErrors.

(* ================================================================= *)
(** ** Words to state the behaviour of the long name reader *)





(* ================================================================= *)
(** ** Words to state what a search of a directory can find *)

(** The short name entry a search ends at lies in a sector read from the
    disk and has the directory bit of its attribute byte set. *)
Definition found_directory {D : FatToSd} (r : Search) : Prop :=
  match r with
  | Found sector pos =>
      (exists lba, sector = fat_ReadSingleSector lba) /\
      Z.land (at_ sector (pos + 11)) DIRECTORY_ENTRY_ATTR_FLAG <> 0
  | _ => True
  end.

(** The short name entry a search ends at lies in a sector read from the
    disk and is the entry of a file: neither the directory bit nor the
    four bits of a long name entry are all set in its attribute byte. *)
Definition found_file {D : FatToSd} (r : Search) : Prop :=
  match r with
  | Found sector pos =>
      (exists lba, sector = fat_ReadSingleSector lba) /\
      Z.land (at_ sector (pos + 11)) DIRECTORY_ENTRY_ATTR_FLAG = 0 /\
      Z.land (at_ sector (pos + 11)) LONG_NAME_ATTR_MASK <> LONG_NAME_ATTR_MASK
  | _ => True
  end.

(* ================================================================= *)
(** ** Words to state the searches of a directory without long names *)

(** The entry at [entry] is in use (its first byte is not 0) and is not
    taken for a long name entry by [FAT_SetCurrentDirectory], which takes
    an entry for one when the four low bits of its attribute byte are set
    and its first byte is not [0xE5]. *)
Definition cd_short_entry (sector : list byte) (entry : Z) : bool :=
  negb (at_ sector entry =? 0)
  && negb ((Z.land (at_ sector (entry + 11)) LONG_NAME_ATTR_MASK
            =? LONG_NAME_ATTR_MASK)
           && negb (at_ sector entry =? 0xE5)).

(** The short name entry at [entry] is one that [FAT_SetCurrentDirectory]
    enters for the name: the name has at most 8 characters, the entry is
    a directory, and the first characters of the entry are the name. *)
Definition cd_hit (newDirectoryStr : list byte) (sector : list byte)
  (entry : Z) : bool :=
  let newDirStrLen := u8 (strlen newDirectoryStr) in
  (newDirStrLen <? 9)
  && negb (Z.land (at_ sector (entry + 11)) DIRECTORY_ENTRY_ATTR_FLAG =? 0)
  && cd_short_name_match newDirectoryStr newDirStrLen sector entry.

(** The entry at [entry] is in use, not deleted and not a long name
    entry. *)
Definition cat_short_entry (sector : list byte) (entry : Z) : bool :=
  negb (at_ sector entry =? 0xE5)
  && negb (at_ sector entry =? 0)
  && negb (Z.land (at_ sector (entry + 11)) LONG_NAME_ATTR_MASK
           =? LONG_NAME_ATTR_MASK).


(* ================================================================= *)
(** ** FAT.c: listing the current directory *)

(** The print functions (prints.h) are external collaborators of FAT.c:
    [print_str] sends the characters of a string and [USART_Transmit] one
    character; what [print_dec] sends for a number is not part of the
    embedded files. *)
Class Prints : Type := {
  print_dec : Z -> list byte
}.

(** The flags of the entry filter are macros of fat.h, whose values are
    not part of the embedded files. *)
Class FatFilters : Type := {
  SHORT_NAME : Z;
  LONG_NAME : Z;
  HIDDEN : Z;
  CREATION : Z;
  LAST_ACCESS : Z;
  LAST_MODIFIED : Z
}.

(** Modelled from the spec: the hidden bit of the attribute byte
    (section 3). *)
Definition HIDDEN_ATTR_FLAG : Z := 0x02.

(** What a pass through the body of the loop over the entries of
    [FAT_PrintCurrentDirectory] ends with, and the characters it
    printed. *)
Inductive LsStep : Type :=
  | LsContinue (st : LnState) (entry : Z) (out : list byte)
  | LsBreak (st : LnState)
  | LsReturn (code : FatError) (out : list byte)
  | LsUndef.

(** What a loop over entries or sectors of the listing ends with, and the
    characters printed since the call began. *)
Inductive LsFlow : Type :=
  | LsGo (st : LnState) (out : list byte)
  | LsStop (code : FatError) (out : list byte)
  | LsUndefined.

Section PrintCurrentDirectory.
Context {D : FatToSd} {P : Prints} {FF : FatFilters}.

(** [if (x < 10) print_str ("0"); print_dec (x);] *)
Definition print_dec2 (x : Z) : list byte :=
  (if x <? 10 then str "0" else []) ++ print_dec x.

(** The month, the day and the year of a 16-bit date as
    [pvt_PrintEntryFields] prints them, three times over. *)
Definition print_date (date : Z) : list byte :=
  print_dec2 (Z.shiftr (Z.land date 0x01E0) 5)
  ++ str "/"
  ++ print_dec2 (Z.land date 0x001F)
  ++ str "/"
  ++ print_dec (1980 + Z.shiftr (Z.land date 0xFE00) 9).

(** The hours, minutes and seconds of a 16-bit time as
    [pvt_PrintEntryFields] prints them, twice over. *)
Definition print_time (time : Z) : list byte :=
  print_dec2 (Z.shiftr (Z.land time 0xF800) 11)
  ++ str ":"
  ++ print_dec2 (Z.shiftr (Z.land time 0x07E0) 5)
  ++ str ":"
  ++ print_dec2 (2 * Z.land time 0x001F).

(** The file size in thousands of bytes, right-aligned. *)
Definition print_size (fileSize : Z) : list byte :=
  let div := 1000 in
  str "     "
  ++ (if fileSize / div >=? 10000000 then str " "
      else if fileSize / div >=? 1000000 then str "  "
      else if fileSize / div >=? 100000 then str "   "
      else if fileSize / div >=? 10000 then str "    "
      else if fileSize / div >=? 1000 then str "     "
      else if fileSize / div >=? 100 then str "      "
      else if fileSize / div >=? 10 then str "       "
      else str "        ")
  ++ print_dec (fileSize / div)
  ++ str "kB".

(** Prints the non-name fields of a directory entry according to the
    entry filter.  [entry] is a [uint16_t]: the sums that index the
    sector wrap around at 16 bits. *)
Definition pvt_PrintEntryFields (sector : list byte) (entry : Z)
  (entryFilter : Z) : list byte :=
  let field k := at_ sector (u16 (entry + k)) in
  let creationTime := shl8_or16 (field 15) (field 14) in
  let creationDate := shl8_or16 (field 17) (field 16) in
  let lastAccessDate := shl8_or16 (field 19) (field 18) in
  let writeTime := shl8_or16 (field 23) (field 22) in
  let writeDate := shl8_or16 (field 25) (field 24) in
  let fileSize := field 31 in
  let fileSize := shl8_or32 fileSize (field 30) in
  let fileSize := shl8_or32 fileSize (field 29) in
  let fileSize := shl8_or32 fileSize (field 28) in
  [x0a; x0d]
  ++ (if negb (Z.land CREATION entryFilter =? 0)
      then str "    " ++ print_date creationDate
           ++ str "  " ++ print_time creationTime
      else [])
  ++ (if negb (Z.land LAST_ACCESS entryFilter =? 0)
      then str "     " ++ print_date lastAccessDate
      else [])
  ++ (if negb (Z.land LAST_MODIFIED entryFilter =? 0)
      then str "     " ++ print_date writeDate
           ++ str "  " ++ print_time writeTime
      else [])
  ++ print_size fileSize.

(** [sn[k] = sector[k + entry]; if (sn[k] == ' ') { sn[k] = '\0'; break; }]
    over the bytes of the name: the bytes before the first space. *)
Fixpoint until_space (bs : list byte) : list byte :=
  match bs with
  | [] => []
  | b :: tl => if byteZ b =? byteZ (chr " ") then [] else b :: until_space tl
  end.

(** Prints the short name of an entry and its type. *)
Definition pvt_PrintShortNameAndType (sector : list byte) (entry : Z)
  (attr : Z) : list byte :=
  let name := map (fun k => byte_at sector (u16 (entry + k)))
                  [0; 1; 2; 3; 4; 5; 6; 7] in
  if negb (Z.land attr 0x10 =? 0) then
    let sn := name in
    str "    <DIR>    " ++ c_str sn ++ str "    "
  else
    let ext := chr "." :: map (fun k => byte_at sector (u16 (entry + 7 + k)))
                              [1; 2; 3] in
    let sn := until_space name in
    str "   <FILE>    "
    ++ c_str sn
    ++ (if negb (strcmp_eq ext (str ".   ")) then c_str ext else [])
    ++ spaces (Z.to_nat (10 - (strlen sn + 2))).

(** The column headers, printed according to the entry filter. *)
Definition ls_header (entryFilter : Z) : list byte :=
  [x0a; x0a; x0d]
  ++ (if negb (Z.land CREATION entryFilter =? 0)
      then str " CREATION DATE & TIME," else [])
  ++ (if negb (Z.land LAST_ACCESS entryFilter =? 0)
      then str " LAST ACCESS DATE," else [])
  ++ (if negb (Z.land LAST_MODIFIED entryFilter =? 0)
      then str " LAST MODIFIED DATE & TIME," else [])
  ++ str " SIZE, TYPE, NAME"
  ++ [x0a; x0a; x0d].

(** "don't print if entry is marked hidden and the HIDDEN entry filter is
    not set" *)
Definition ls_hidden (attributeByte entryFilter : Z) : bool :=
  (Z.land attributeByte HIDDEN_ATTR_FLAG =? HIDDEN_ATTR_FLAG)
  && negb (Z.land entryFilter HIDDEN =? HIDDEN).

(** The type printed before a long name. *)
Definition ls_type (attributeByte : Z) : list byte :=
  if negb (Z.land attributeByte DIRECTORY_ENTRY_ATTR_FLAG =? 0)
  then str "    <DIR>    " else str "   <FILE>    ".

(** The body of the loop over the entries of a sector in
    [FAT_PrintCurrentDirectory].  As in the other walks the array that
    receives a long name is taken to be long enough for it. *)
Definition ls_entry_step (bpb : BiosParameterBlock) (entryFilter : Z)
  (cluster currentSectorNumberInCluster absoluteCurrentSectorNumber : Z)
  (currentSectorContents : list byte) (st : LnState) (entry : Z) : LsStep :=
  match adjust_entry st entry with
  | None => LsBreak st
  | Some (st, entry) =>
  (* this entry marked for deletion. Go to next entry. *)
  if at_ currentSectorContents entry =? 0xE5 then LsContinue st entry []
  (* all subsequent entries are empty. *)
  else if at_ currentSectorContents entry =? 0
  then LsReturn END_OF_DIRECTORY []
  else
  let attributeByte := at_ currentSectorContents (entry + 11) in
  (* long name? *)
  if Z.land LONG_NAME_ATTR_MASK attributeByte =? LONG_NAME_ATTR_MASK then
    (* confirm long name last entry flag is set *)
    if Z.land (at_ currentSectorContents entry) LONG_NAME_LAST_ENTRY_FLAG =? 0
    then LsReturn CORRUPT_FAT_ENTRY []
    else
    (* number of entries required by the long name *)
    let longNameOrder :=
      Z.land LONG_NAME_ORDINAL_MASK (at_ currentSectorContents entry) in
    let snCur := u16 (entry + ENTRY_LEN * longNameOrder) in
    (* short name in next sector? *)
    if snCur >=? bytesPerSector bpb then
      match (if snCur >? bytesPerSector bpb then Some (true, false)
             else if snCur =? bytesPerSector bpb then Some (false, true)
             else None) with
      | None => LsReturn CORRUPT_FAT_ENTRY []
      | Some (cross, last) =>
      (* get next sector's contents *)
      let absoluteNextSectorNumber :=
        ls_next_sector bpb cluster currentSectorNumberInCluster
                       absoluteCurrentSectorNumber in
      let nextSectorContents := fat_ReadSingleSector absoluteNextSectorNumber in
      (* short name position in the next sector *)
      let snNext := u16 (snCur - bytesPerSector bpb) in
      let st := mkLn snCur snNext true cross last in
      let attributeByte := at_ nextSectorContents (snNext + 11) in
      (* shortNamePositionInNextSector points to long name entry? *)
      if Z.land attributeByte LONG_NAME_ATTR_MASK =? LONG_NAME_ATTR_MASK
      then LsReturn CORRUPT_FAT_ENTRY []
      else if ls_hidden attributeByte entryFilter then LsContinue st entry []
      else
        let out :=
          if negb (Z.land entryFilter SHORT_NAME =? SHORT_NAME) then []
          else pvt_PrintEntryFields nextSectorContents snNext entryFilter
               ++ pvt_PrintShortNameAndType nextSectorContents snNext
                                            attributeByte in
        if negb (Z.land entryFilter LONG_NAME =? LONG_NAME)
        then LsContinue st entry out
        (* entries for long name cross sector boundary *)
        else if cross && negb last then
          (* Confirm entry preceding short name is first entry of a long
             name. *)
          if negb (Z.land (at_ nextSectorContents (u16 (snNext - ENTRY_LEN)))
                          LONG_NAME_ORDINAL_MASK =? 1)
          then LsReturn CORRUPT_FAT_ENTRY out
          else
          let out :=
            out ++ pvt_PrintEntryFields nextSectorContents snNext entryFilter
            ++ ls_type attributeByte in
          (* load long name entry into longNameStr[] *)
          let longNameStr :=
            long_name_inline (s16 (snNext - ENTRY_LEN)) 0 nextSectorContents [] in
          match long_name_loop_u 17 (SECTOR_LEN - ENTRY_LEN) entry
                  currentSectorContents longNameStr with
          | None => LsUndef
          | Some longNameStr => LsContinue st entry (out ++ longNameStr)
          end
        (* all entries for long name are in current sector but short name
           is in next sector *)
        else if negb cross && last then
          (* confirm last entry of current sector is the first entry of
             the long name *)
          if negb (Z.land (at_ currentSectorContents (SECTOR_LEN - ENTRY_LEN))
                          LONG_NAME_ORDINAL_MASK =? 1)
          then LsReturn CORRUPT_FAT_ENTRY out
          else
          let out :=
            out ++ pvt_PrintEntryFields nextSectorContents snNext entryFilter
            ++ ls_type attributeByte in
          (* load long name entry into longNameStr[] *)
          match long_name_loop_u 17 (SECTOR_LEN - ENTRY_LEN) entry
                  currentSectorContents [] with
          | None => LsUndef
          | Some longNameStr => LsContinue st entry (out ++ longNameStr)
          end
        else LsReturn CORRUPT_FAT_ENTRY out
      end
    else
      (* Long name exists and is entirely in current sector along with the
         short name *)
      let st := mkLn snCur (shortNamePositionInNextSector st) true
                     (longNameCrossSectorBoundaryFlag st)
                     (longNameLastSectorEntryFlag st) in
      let attributeByte := at_ currentSectorContents (snCur + 11) in
      (* shortNamePositionInCurrentSector points to long name entry *)
      if Z.land attributeByte LONG_NAME_ATTR_MASK =? LONG_NAME_ATTR_MASK
      then LsReturn CORRUPT_FAT_ENTRY []
      else if ls_hidden attributeByte entryFilter then LsContinue st entry []
      else
        let out :=
          if negb (Z.land entryFilter SHORT_NAME =? SHORT_NAME) then []
          else pvt_PrintEntryFields currentSectorContents snCur entryFilter
               ++ pvt_PrintShortNameAndType currentSectorContents snCur
                                            attributeByte in
        if negb (Z.land entryFilter LONG_NAME =? LONG_NAME)
        then LsContinue st entry out
        (* Confirm entry preceding short name is first entry of a long
           name. *)
        else if negb (Z.land (at_ currentSectorContents
                                  (u16 (snCur - ENTRY_LEN)))
                             LONG_NAME_ORDINAL_MASK =? 1)
        then LsReturn CORRUPT_FAT_ENTRY out
        else
          let out :=
            out ++ pvt_PrintEntryFields currentSectorContents snCur entryFilter
            ++ ls_type attributeByte in
          (* load long name entry into longNameStr[] *)
          let longNameStr :=
            long_name_inline (s16 (snCur - ENTRY_LEN)) (s16 entry)
                             currentSectorContents [] in
          LsContinue st entry (out ++ longNameStr)
  else
    (* Long Name Entry does not exist so use short name instead,
       regardless of SHORT_NAME entryFilter setting *)
    let attributeByte := at_ currentSectorContents (entry + 11) in
    if ls_hidden attributeByte entryFilter then LsContinue st entry []
    else
      LsContinue st entry
        (pvt_PrintEntryFields currentSectorContents entry entryFilter
         ++ pvt_PrintShortNameAndType currentSectorContents entry
                                      attributeByte)
  end.

(** [for (entry = 0; entry < bpb->bytesPerSector; entry = entry + ENTRY_LEN)],
    entered with the current value of [entry] and what was printed so
    far. *)
Fixpoint ls_entries (fuel : nat) (bpb : BiosParameterBlock) (entryFilter : Z)
  (cluster currentSectorNumberInCluster absoluteCurrentSectorNumber : Z)
  (currentSectorContents : list byte) (st : LnState) (entry : Z)
  (out : list byte) : LsFlow :=
  match fuel with
  | O => LsUndefined
  | S fuel' =>
      if entry <? bytesPerSector bpb then
        match ls_entry_step bpb entryFilter cluster
                currentSectorNumberInCluster absoluteCurrentSectorNumber
                currentSectorContents st entry with
        | LsContinue st' entry' printed =>
            ls_entries fuel' bpb entryFilter cluster
              currentSectorNumberInCluster absoluteCurrentSectorNumber
              currentSectorContents st' (u16 (entry' + ENTRY_LEN))
              (out ++ printed)
        | LsBreak st' => LsGo st' out
        | LsReturn code printed => LsStop code (out ++ printed)
        | LsUndef => LsUndefined
        end
      else LsGo st out
  end.

(** The loop through the sectors of the current cluster, with [n] sectors
    left. *)
Fixpoint ls_sectors (n fuel : nat) (bpb : BiosParameterBlock)
  (entryFilter : Z) (cluster currentSectorNumberInCluster : Z)
  (st : LnState) (out : list byte) : LsFlow :=
  match n with
  | O => LsGo st out
  | S n' =>
      (* read in next sector's contents into currentSectorContents[] *)
      let absoluteCurrentSectorNumber :=
        absolute_sector bpb cluster currentSectorNumberInCluster in
      let currentSectorContents :=
        fat_ReadSingleSector absoluteCurrentSectorNumber in
      match ls_entries fuel bpb entryFilter cluster
              currentSectorNumberInCluster absoluteCurrentSectorNumber
              currentSectorContents st 0 out with
      | LsGo st' out' =>
          ls_sectors n' fuel bpb entryFilter cluster
                     (currentSectorNumberInCluster + 1) st' out'
      | other => other
      end
  end.

(** The [do ... while] loop through the clusters of the directory. *)
Fixpoint ls_clusters (fuel0 fuel : nat) (bpb : BiosParameterBlock)
  (entryFilter : Z) (cluster : Z) (st : LnState) (out : list byte)
  : option (FatError * list byte) :=
  match fuel with
  | O => None
  | S fuel' =>
      match ls_sectors (Z.to_nat (sectorsPerCluster bpb)) fuel0 bpb
              entryFilter cluster 0 st out with
      | LsGo st' out' =>
          let cluster := pvt_GetNextCluster cluster bpb in
          if negb (cluster =? END_OF_CLUSTER)
          then ls_clusters fuel0 fuel' bpb entryFilter cluster st' out'
          else Some (END_OF_DIRECTORY, out')
      | LsStop code out' => Some (code, out')
      | LsUndefined => None
      end
  end.

(** Prints the entries of the current directory and their fields as the
    entry filter says: the returned flag and the characters printed.
    [fuel] bounds the number of clusters walked and the passes over one
    sector; [None]: the fuel ran out or the call has no defined result. *)
Definition FAT_PrintCurrentDirectory (fuel : nat)
  (currentDirectory : FatCurrentDirectory) (entryFilter : Z)
  (bpb : BiosParameterBlock) : option (FatError * list byte) :=
  let cluster := FATFirstCluster currentDirectory in
  ls_clusters fuel fuel bpb entryFilter cluster ln_init
              (ls_header entryFilter).

End PrintCurrentDirectory.

(* ================================================================= *)
(** ** Words and instances to state the behaviour of the listing *)

(** The line of the listing for the entry at [entry] when it has no long
    name: nothing for a deleted entry or for a hidden entry that the
    filter leaves out, and otherwise its fields, its type and its short
    name. *)
Definition ls_line {P : Prints} {FF : FatFilters} (sector : list byte)
  (entry entryFilter : Z) : list byte :=
  if at_ sector entry =? 0xE5 then []
  else if ls_hidden (at_ sector (entry + 11)) entryFilter then []
  else pvt_PrintEntryFields sector entry entryFilter
       ++ pvt_PrintShortNameAndType sector entry (at_ sector (entry + 11)).

(** Modelled from the spec: the bit-packed date and time of a directory
    entry (section 6): year since 1980 in bits 15..9, month in bits 8..5,
    day in bits 4..0; hour in bits 15..11, minute in bits 10..5, seconds
    divided by two in bits 4..0.  The text of a date as month, day and
    year, and of a time as hours, minutes and seconds, month, day, hours,
    minutes and seconds with two digits. *)
Definition date_text {P : Prints} (date : Z) : list byte :=
  let year := 1980 + date / 512 in
  let month := (date / 32) mod 16 in
  let day := date mod 32 in
  (if month <? 10 then str "0" else []) ++ print_dec month ++ str "/"
  ++ (if day <? 10 then str "0" else []) ++ print_dec day ++ str "/"
  ++ print_dec year.

Definition time_text {P : Prints} (time : Z) : list byte :=
  let hours := time / 2048 in
  let minutes := (time / 32) mod 64 in
  let seconds := 2 * (time mod 32) in
  (if hours <? 10 then str "0" else []) ++ print_dec hours ++ str ":"
  ++ (if minutes <? 10 then str "0" else []) ++ print_dec minutes ++ str ":"
  ++ (if seconds <? 10 then str "0" else []) ++ print_dec seconds.

(** A printer of decimal numbers and one assignment of distinct one-bit
    filter flags, for the concrete runs. *)
Fixpoint dec_digits (n : nat) (z : Z) : list byte :=
  match n with
  | O => []
  | S n' =>
      (if z <? 10 then [] else dec_digits n' (z / 10))
      ++ [byte_of_Z (48 + z mod 10)]
  end.

Definition demo_prints : Prints := {| print_dec := dec_digits 10 |}.

Definition demo_filters : FatFilters := {|
  SHORT_NAME := 0x01;
  LONG_NAME := 0x02;
  HIDDEN := 0x04;
  CREATION := 0x08;
  LAST_ACCESS := 0x10;
  LAST_MODIFIED := 0x20
|}.

(* ================================================================= *)
(** ** Words to state the searches of a directory with long names *)






(* ================================================================= *)
(** ** sd_spi_data_access.c: printing blocks *)

(** Modelled from the spec: the remaining command indices of section 6. *)
Definition READ_MULTIPLE_BLOCK : Z := 18.
Definition STOP_TRANSMISSION : Z := 12.

(** What [print_hex] of prints.h sends for a number is not part of the
    embedded files. *)
Class HexPrints : Type := {
  print_hex : Z -> list byte
}.

Section SdSpiPrintBlocks.
Context {Wire : Type} {SB : SpiBase Wire} {SF : SdFlags} {HP : HexPrints}.

(** The first inner loop of [SD_PrintSingleBlock],
    [for (offset = row * 16; offset < (row * 16) + 16; offset++)],
    entered with the current [offset] and [space]: the characters printed
    and the value of [offset] when the loop ends. *)
Fixpoint hex_cells (fuel : nat) (block : list byte) (row offset space : Z)
  : option (list byte * Z) :=
  if offset <? u16 (u16 (row * 16) + 16) then
    match fuel with
    | O => None
    | S fuel' =>
        (* every 4 bytes print an extra space. *)
        let out :=
          (if space mod 4 =? 0 then str " " else [])
          ++ str " " ++ print_hex (at_ block offset) in
        match hex_cells fuel' block row (u16 (offset + 1)) (u16 (space + 1)) with
        | Some (rest, offset') => Some (out ++ rest, offset')
        | None => None
        end
    end
  else Some ([], offset).

(** The second inner loop, which prints the characters of the row. *)
Fixpoint ascii_cells (fuel : nat) (block : list byte) (row offset : Z)
  : option (list byte * Z) :=
  if offset <? u16 (u16 (row * 16) + 16) then
    match fuel with
    | O => None
    | S fuel' =>
        let out :=
          if at_ block offset <? 32 then [chr " "]
          else if at_ block offset <? 128 then [byte_at block offset]
          else [chr "."] in
        match ascii_cells fuel' block row (u16 (offset + 1)) with
        | Some (rest, offset') => Some (out ++ rest, offset')
        | None => None
        end
    end
  else Some ([], offset).

(** [for (row = 0; row < BLOCK_LEN / 16; row++)], entered with the
    current [row] and [offset]. *)
Fixpoint block_rows (fuel : nat) (block : list byte) (row offset : Z)
  : option (list byte) :=
  if row <? Z.of_nat BLOCK_LEN / 16 then
    match fuel with
    | O => None
    | S fuel' =>
        let label :=
          if offset <? 0x100 then str "0x0" ++ print_hex offset
          else if offset <? 0x1000 then str "0x" ++ print_hex offset
          else [] in
        let space := 0 in
        match hex_cells 17 block row (u16 (row * 16)) space with
        | None => None
        | Some (cells, offset) =>
            let offset := u16 (offset - 16) in
            match ascii_cells 17 block row (u16 (row * 16)) with
            | None => None
            | Some (chars, offset) =>
                match block_rows fuel' block (u16 (row + 1)) offset with
                | Some rest =>
                    Some ([x0a; x0d] ++ str "   " ++ label
                          ++ [x09] ++ str " " ++ cells
                          ++ [x09; x09] ++ chars ++ rest)
                | None => None
                end
            end
        end
    end
  else Some [].

(** Print columnized (address) OFFSET | HEX | ASCII values of the array:
    the characters printed.  [None]: a loop ran out of fuel, which the
    bounds of the loops exclude. *)
Definition SD_PrintSingleBlock (block : list byte) : option (list byte) :=
  let offset := 0 in
  match block_rows 33 block 0 offset with
  | Some rows =>
      Some ([x0a; x0a; x0d] ++ str " BLOCK OFFSET"
            ++ [x09; x09; x09; x09] ++ str "   HEX"
            ++ [x09; x09; x09; x09; x09] ++ str "     ASCII" ++ [x0a; x0d]
            ++ rows ++ [x0a; x0a; x0d])
  | None => None
  end.

(** The wait for the Start Block Token in [SD_PrintMultipleBlocks]:
    [while (receive != 0xFE)
       { timeout++; if (timeout > 0x511) return timeout; }]
    with a [uint16_t timeout]. *)
Fixpoint wait_sbt16 (fuel : nat) (timeout : Z) (w : Wire)
  : option (bool * Wire) :=
  match fuel with
  | O => None
  | S fuel' =>
      let (b, w') := SD_ReceiveByteSPI w in
      if negb (byteZ b =? 0xFE) then
        let timeout' := u16 (timeout + 1) in
        if timeout' >? 0x511 then Some (false, w')
        else wait_sbt16 fuel' timeout' w'
      else Some (true, w')
  end.

(** What the loop over the blocks of [SD_PrintMultipleBlocks] ends
    with. *)
Inductive PrintBlocksOut : Type :=
  | PrintReturn (code : Z) (cs : bool) (out : list byte) (w : Wire)
  | PrintDone (out : list byte) (w : Wire)
  | PrintUndefined.

(** [for (int i = 0; i < numberOfBlocks; i++)] of
    [SD_PrintMultipleBlocks], entered with the current [i], the contents
    of the local array [block] and what was printed so far.  [i] is an
    [int]: its increment past 32767 is undefined. *)
Fixpoint print_blocks (fuel : nat) (i numberOfBlocks : Z) (r1 : byte)
  (cs : bool) (block : list byte) (out : list byte) (w : Wire)
  : PrintBlocksOut :=
  if i <? numberOfBlocks then
    match fuel with
    | O => PrintUndefined
    | S fuel' =>
        let timeout := 0 in
        (* wait for start block token. *)
        match wait_sbt16 (Z.to_nat 1299) timeout w with
        | None => PrintUndefined
        | Some (false, w) =>
            (* the return inside the wait: no CS_HIGH before it *)
            PrintReturn (u16 (Z.lor START_TOKEN_TIMEOUT (byteZ r1))) cs out w
        | Some (true, w) =>
            let (block, w) := load_block BLOCK_LEN 0 block w in
            let w := after 2 w in   (* CRC *)
            match SD_PrintSingleBlock block with
            | None => PrintUndefined
            | Some printed =>
                if i + 1 >? 32767 then PrintUndefined
                else print_blocks fuel' (i + 1) numberOfBlocks r1 cs block
                                  (out ++ printed) w
            end
        end
    end
  else PrintDone out w.

(** Print multiple data blocks to screen: the returned code, the
    characters printed and the bus on return.  The local array [block] is
    not initialised; the loop writes all of it before it is printed. *)
Definition SD_PrintMultipleBlocks (startBlockAddress numberOfBlocks : Z)
  (block : list byte) (bus : Bus Wire)
  : option (Z * list byte * Bus Wire) :=
  let cs := CS_LOW in
  let w := SD_SendCommand READ_MULTIPLE_BLOCK startBlockAddress (wire bus) in
  let (r1, w) := SD_GetR1 w in   (* CMD18 *)
  if byteZ r1 >? 0 then
    let cs := CS_HIGH in
    Some (u16 (Z.lor R1_ERROR (byteZ r1)), [], mkBus cs w)
  else if byteZ r1 =? 0 then
    match print_blocks (Z.to_nat 32768) 0 numberOfBlocks r1 cs block [] w with
    | PrintUndefined => None
    | PrintReturn code cs out w => Some (code, out, mkBus cs w)
    | PrintDone out w =>
        let w := SD_SendCommand STOP_TRANSMISSION 0 w in
        let w := after 1 w in   (* R1b response. Don't care. *)
        let cs := CS_HIGH in
        Some (u16 READ_SUCCESS, out, mkBus cs w)
    end
  else
    let cs := CS_HIGH in
    Some (u16 READ_SUCCESS, [], mkBus cs w).

End SdSpiPrintBlocks.

(** A printer of two hexadecimal digits at least, for the concrete
    runs. *)
Definition hex_digit (z : Z) : byte :=
  if z <? 10 then byte_of_Z (48 + z) else byte_of_Z (55 + z).

Fixpoint hex_digits (n : nat) (z : Z) : list byte :=
  match n with
  | O => []
  | S n' =>
      (if z <? 16 then [] else hex_digits n' (z / 16))
      ++ [hex_digit (z mod 16)]
  end.

Definition demo_hex : HexPrints := {| print_hex := hex_digits 8 |}.

(* ================================================================= *)
(** ** Words to state the behaviour of the printing of blocks *)

(** The row [row] of the print of a block: its offset, sixteen bytes in
    hexadecimal in groups of four, and the sixteen characters, a space
    for a byte below 32 and a full stop for a byte above 127. *)
Definition block_row {HP : HexPrints} (block : list byte) (row : Z)
  : list byte :=
  let base := 16 * row in
  [x0a; x0d] ++ str "   "
  ++ (if base <? 0x100 then str "0x0" else str "0x") ++ print_hex base
  ++ [x09] ++ str " "
  ++ flat_map (fun i => (if i mod 4 =? 0 then str " " else [])
                        ++ str " " ++ print_hex (at_ block (base + i)))
              [0; 1; 2; 3; 4; 5; 6; 7; 8; 9; 10; 11; 12; 13; 14; 15]
  ++ [x09; x09]
  ++ map (fun i => if at_ block (base + i) <? 32 then chr " "
                   else if at_ block (base + i) <? 128
                        then byte_at block (base + i)
                        else chr ".")
         [0; 1; 2; 3; 4; 5; 6; 7; 8; 9; 10; 11; 12; 13; 14; 15].

(** The blocks a card sends in answer to CMD18: each one after a Start
    Block Token that comes within the 1298 bytes of the wait, and followed
    by two CRC bytes.  [None]: a token does not come. *)
Fixpoint blocks_sent {Wire} {SB : SpiBase Wire} (n : nat) (w : Wire)
  : option (list (list byte) * Wire) :=
  match n with
  | O => Some ([], w)
  | S n' =>
      match find_token (rx 1298 w) with
      | None => None
      | Some k =>
          let w1 := after (S k) w in
          match blocks_sent n' (after 2 (after BLOCK_LEN w1)) with
          | Some (blocks, w') => Some (rx BLOCK_LEN w1 :: blocks, w')
          | None => None
          end
      end
  end.

(** What [SD_PrintSingleBlock] prints for a block: the column titles, the
    32 rows and a closing line break. *)
Definition block_text {HP : HexPrints} (block : list byte) : list byte :=
  [x0a; x0a; x0d] ++ str " BLOCK OFFSET"
  ++ [x09; x09; x09; x09] ++ str "   HEX"
  ++ [x09; x09; x09; x09; x09] ++ str "     ASCII" ++ [x0a; x0d]
  ++ flat_map (fun r => block_row block (Z.of_nat r)) (seq 0 32)
  ++ [x0a; x0a; x0d].

(** Concrete run: a card that answers CMD18 with one block of [0x41]
    and then sends no further token. *)
Definition card_one_block : list byte :=
  idle 6 ++ [x00] ++ [xff; xfe] ++ card_block ++ [x12; x34]
  ++ repeat xff 1298.

(* ================================================================= *)
(** ** The later revision: printing a block *)

Section SdSpiPrintBlockRwe.
Context {HP : HexPrints}.

(** The loop of [sd_PrintSingleBlock] that prints the hexadecimal values
    of a row,
    [for (offset = row * radix; offset < row * radix + radix; offset++)],
    entered with the current [offset]: the characters printed and the
    value of [offset] when the loop ends. *)
Fixpoint sd_hex_cells (fuel : nat) (blckArr : list byte) (row offset : Z)
  : option (list byte * Z) :=
  let radix := 16 in
  if offset <? u16 (u16 (row * radix) + radix) then
    match fuel with
    | O => None
    | S fuel' =>
        let out :=
          (* every 4 bytes print an extra space. *)
          (if offset mod 4 =? 0 then str " " else [])
          ++ str " "
          (* if value is not two hex digits, then first print a 0. *)
          ++ (if at_ blckArr offset <? 0x10 then [chr "0"] else [])
          (* print value in hex. *)
          ++ print_hex (at_ blckArr offset) in
        match sd_hex_cells fuel' blckArr row (u16 (offset + 1)) with
        | Some (rest, offset') => Some (out ++ rest, offset')
        | None => None
        end
    end
  else Some ([], offset).

(** [for (row = 0; row < BLOCK_LEN / radix; row++)], entered with the
    current [row] and [offset].  The loop that prints the characters of
    the row is the one of the earlier revision. *)
Fixpoint sd_block_rows (fuel : nat) (blckArr : list byte) (row offset : Z)
  : option (list byte) :=
  let radix := 16 in
  if row <? Z.of_nat BLOCK_LEN / radix then
    match fuel with
    | O => None
    | S fuel' =>
        (* Print row offset address. *)
        let label :=
          if offset <? 0x10 then str "0x00" ++ print_hex offset
          else if offset <? 0x100 then str "0x0" ++ print_hex offset
          else if offset <? 0x1000 then str "0x" ++ print_hex offset
          else [] in
        match sd_hex_cells 17 blckArr row (u16 (row * radix)) with
        | None => None
        | Some (cells, offset) =>
            match ascii_cells 17 blckArr row (u16 (row * radix)) with
            | None => None
            | Some (chars, offset) =>
                match sd_block_rows fuel' blckArr (u16 (row + 1)) offset with
                | Some rest =>
                    Some ([x0a; x0d] ++ str "   " ++ label
                          ++ [x09] ++ str " " ++ cells
                          ++ [x09; x09] ++ chars ++ rest)
                | None => None
                end
            end
        end
    end
  else Some [].

(** Prints the contents of a single SD card data block in rows of 16
    bytes, columnized as (Addr)OFFSET | HEX | ASCII: the characters
    printed.  [None]: a loop ran out of fuel, which the bounds of the
    loops exclude. *)
Definition sd_PrintSingleBlock (blckArr : list byte) : option (list byte) :=
  let offset := 0 in   (* block address offset *)
  match sd_block_rows 33 blckArr 0 offset with
  | Some rows =>
      Some ([x0a; x0a; x0d] ++ str " BLOCK OFFSET"
            ++ [x09; x09; x09; x09] ++ str "   HEX"
            ++ [x09; x09; x09; x09; x09] ++ str "     ASCII" ++ [x0a; x0d]
            ++ rows ++ [x0a; x0a; x0d])
  | None => None
  end.

End SdSpiPrintBlockRwe.

(** The printer that puts a [0] before a value of one hexadecimal
    digit. *)
Definition zero_padded (HP : HexPrints) : HexPrints :=
  {| print_hex z :=
       (if z <? 0x10 then [chr "0"] else []) ++ print_hex (HexPrints := HP) z |}.

(* ################################################################# *)
(** * Part II: lemmas and theorems *)

(* ================================================================= *)
(** ** Bytes and arrays *)

Lemma byteZ_range (b : byte) : 0 <= byteZ b < 256.
Proof.
  unfold byteZ. pose proof (Byte.to_N_bounded b). lia.
Qed.

Lemma byteZ_inj (a b : byte) : byteZ a = byteZ b -> a = b.
Proof.
  unfold byteZ. intros E. apply N2Z.inj in E.
  pose proof (Byte.of_to_N a) as Ha. pose proof (Byte.of_to_N b) as Hb.
  rewrite E in Ha. congruence.
Qed.

Lemma store_length {A} (i : nat) (b : A) (l : list A) :
  length (store i b l) = length l.
Proof.
  revert i. induction l as [|a l IH]; intros [|i]; simpl; auto.
Qed.

Lemma store_firstn {A} (i : nat) (b : A) (l : list A) :
  (i < length l)%nat -> firstn (S i) (store i b l) = firstn i l ++ [b].
Proof.
  revert i. induction l as [|a l IH]; intros [|i] Hi; simpl in *; try lia.
  - reflexivity.
  - f_equal. apply IH. lia.
Qed.

Lemma store_skipn {A} (i k : nat) (b : A) (l : list A) :
  (i < k)%nat -> skipn k (store i b l) = skipn k l.
Proof.
  revert i k. induction l as [|a l IH]; intros [|i] [|k] Hk; simpl; try lia; auto.
  apply IH. lia.
Qed.

(* ================================================================= *)
(** ** The byte stream of the card *)

Section Stream.
Context {Wire : Type} {SB : SpiBase Wire}.

Lemma rx_S (n : nat) (w : Wire) :
  rx (S n) w = fst (SD_ReceiveByteSPI w) :: rx n (snd (SD_ReceiveByteSPI w)).
Proof.
  unfold rx. simpl. destruct (SD_ReceiveByteSPI w) as [b w'].
  simpl. destruct (recv_n n w'). reflexivity.
Qed.

Lemma after_S (n : nat) (w : Wire) :
  after (S n) w = after n (snd (SD_ReceiveByteSPI w)).
Proof.
  unfold after. simpl. destruct (SD_ReceiveByteSPI w) as [b w'].
  simpl. destruct (recv_n n w'). reflexivity.
Qed.

Lemma after_0 (w : Wire) : after 0 w = w.
Proof. reflexivity. Qed.

Lemma rx_length (n : nat) (w : Wire) : length (rx n w) = n.
Proof.
  revert w. induction n as [|n IH]; intros w; [reflexivity|].
  rewrite rx_S. simpl. now rewrite IH.
Qed.

Lemma after_add (n m : nat) (w : Wire) :
  after (n + m) w = after m (after n w).
Proof.
  revert w. induction n as [|n IH]; intros w; [reflexivity|].
  simpl. rewrite !after_S. apply IH.
Qed.

Lemma rx_add (n m : nat) (w : Wire) :
  rx (n + m) w = rx n w ++ rx m (after n w).
Proof.
  revert w. induction n as [|n IH]; intros w; [reflexivity|].
  simpl. rewrite !rx_S, after_S, IH. reflexivity.
Qed.

Lemma find_token_bound (bs : list byte) (k : nat) :
  find_token bs = Some k -> (k < length bs)%nat.
Proof.
  revert k. induction bs as [|b bs IH]; intros k; simpl; [discriminate|].
  destruct (byteZ b =? 0xFE); [intros [= <-]; lia|].
  destruct (find_token bs) as [j|]; simpl; [|discriminate].
  intros [= <-]. specialize (IH j eq_refl). lia.
Qed.

Lemma find_token_hit (bs : list byte) (k : nat) :
  find_token bs = Some k ->
  nth k bs x00 = xfe /\ forall j, (j < k)%nat -> nth j bs x00 <> xfe.
Proof.
  revert k. induction bs as [|b bs IH]; intros k; simpl; [discriminate|].
  destruct (byteZ b =? 0xFE) eqn:E.
  - intros [= <-]. split; [|intros j Hj; lia].
    apply byteZ_inj. apply Z.eqb_eq in E. rewrite E. reflexivity.
  - destruct (find_token bs) as [j|]; simpl; [|discriminate].
    intros [= <-]. destruct (IH j eq_refl) as [Hn Hlt]. split; [exact Hn|].
    intros [|i] Hi.
    + intros ->. discriminate E.
    + apply Hlt. lia.
Qed.

Lemma find_token_miss (bs : list byte) :
  find_token bs = None <-> Forall (fun b => b <> xfe) bs.
Proof.
  induction bs as [|b bs IH]; simpl.
  - split; [constructor|reflexivity].
  - destruct (byteZ b =? 0xFE) eqn:E.
    + split; [discriminate|]. intros F. inversion F as [|? ? Hb _]; subst.
      exfalso. apply Hb. apply byteZ_inj. apply Z.eqb_eq in E.
      rewrite E. reflexivity.
    + destruct (find_token bs) as [j|]; simpl.
      * split; [discriminate|]. intros F. inversion F as [|? ? _ Hbs]; subst.
        apply IH in Hbs. discriminate.
      * split; [|reflexivity]. intros _. constructor.
        -- intros ->. discriminate E.
        -- apply IH. reflexivity.
Qed.

(** The loop that fills the array stores the next [n] bytes of the card
    at the indices [i .. i+n-1]. *)
Lemma load_block_spec (n i : nat) (block : list byte) (w : Wire) :
  (i + n <= length block)%nat ->
  load_block n i block w =
    (firstn i block ++ rx n w ++ skipn (i + n) block, after n w).
Proof.
  revert i block w. induction n as [|n IH]; intros i block w Hlen.
  - simpl. rewrite Nat.add_0_r, firstn_skipn. reflexivity.
  - simpl. rewrite rx_S, after_S.
    destruct (SD_ReceiveByteSPI w) as [b w']. simpl.
    rewrite IH by (rewrite store_length; lia).
    rewrite store_firstn by lia.
    rewrite store_skipn by lia.
    replace (S i + n)%nat with (i + S n)%nat by lia.
    rewrite <- app_assoc. reflexivity.
Qed.

Lemma load_block_whole (block : list byte) (w : Wire) :
  length block = BLOCK_LEN ->
  load_block BLOCK_LEN 0 block w = (rx BLOCK_LEN w, after BLOCK_LEN w).
Proof.
  intros Hlen. rewrite load_block_spec by lia.
  simpl firstn. rewrite skipn_all2 by (simpl; lia).
  rewrite app_nil_r. reflexivity.
Qed.

End Stream.

(* ================================================================= *)
(** ** Reading a single block *)

Section ReadSingleBlock.
Context {Wire : Type} {SB : SpiBase Wire} {SF : SdFlags}.

(** The token wait of [SD_ReadSingleBlock], started with [timeout = t],
    looks at [sbt] and at the next [254 - t] bytes. *)
Lemma wait_sbt_spec (n : nat) :
  forall (fuel : nat) (sbt : byte) (t : Z) (w : Wire),
  t = 254 - Z.of_nat n -> 0 <= t -> (n < fuel)%nat ->
  wait_sbt fuel sbt t w =
    Some match find_token (sbt :: rx n w) with
         | Some k => (true, after k w)
         | None => (false, after (S n) w)
         end.
Proof.
  induction n as [|n IH]; intros fuel sbt t w Ht Ht0 Hf;
    (destruct fuel as [|fuel]; [lia|]);
    cbn [wait_sbt find_token];
    destruct (byteZ sbt =? 254); cbn [negb]; try reflexivity;
    assert (Hu : u8 (t + 1) = t + 1) by (unfold u8; apply Z.mod_small; lia);
    rewrite Hu, after_S.
  - destruct (SD_ReceiveByteSPI w) as [b w']; cbn [fst snd].
    destruct (Z.gtb_spec (t + 1) 254); [|lia]. reflexivity.
  - rewrite rx_S.
    destruct (SD_ReceiveByteSPI w) as [b w'] eqn:E; cbn [fst snd].
    destruct (Z.gtb_spec (t + 1) 254); [lia|].
    rewrite (IH fuel b (t + 1) w') by lia.
    destruct (find_token (b :: rx n w')) as [k|]; cbn [option_map];
      rewrite ?after_S, ?E; reflexivity.
Qed.

(** The wire after the loop that fills the array, whatever the array. *)
Lemma load_block_wire (n i : nat) (block : list byte) (w : Wire) :
  snd (load_block n i block w) = after n w.
Proof.
  revert i block w. induction n as [|n IH]; intros i block w; [reflexivity|].
  simpl. rewrite after_S. destruct (SD_ReceiveByteSPI w) as [b w'].
  apply IH.
Qed.

(** [SD_ReadSingleBlock] as one equation: what it returns for every R1
    response and every byte stream of the card. *)
Lemma SD_ReadSingleBlock_eq (lba : Z) (block : list byte) (bus : Bus Wire) :
  SD_ReadSingleBlock lba block bus =
    let r1 := fst (cmd17 lba bus) in
    let w1 := snd (cmd17 lba bus) in
    Some (if byteZ r1 =? 0 then
            match find_token (rx 255 w1) with
            | None =>
                (u16 (Z.lor START_TOKEN_TIMEOUT (byteZ r1)), block,
                 mkBus true (after 256 w1))
            | Some k =>
                (u16 (Z.lor READ_SUCCESS (byteZ r1)),
                 fst (load_block BLOCK_LEN 0 block (after (S k) w1)),
                 mkBus true (after 3 (after BLOCK_LEN (after (S k) w1))))
            end
          else (u16 (Z.lor R1_ERROR (byteZ r1)), block, mkBus true w1)).
Proof.
  unfold SD_ReadSingleBlock, cmd17.
  destruct (SD_GetR1 _) as [r1 w1]. cbn [fst snd].
  pose proof (byteZ_range r1) as Hr.
  destruct (Z.gtb_spec (byteZ r1) 0) as [Hpos|Hz].
  - destruct (Z.eqb_spec (byteZ r1) 0); [lia|]. reflexivity.
  - destruct (Z.eqb_spec (byteZ r1) 0); [|lia].
    rewrite (rx_S 254 w1), (after_S 255 w1).
    destruct (SD_ReceiveByteSPI w1) as [sbt w2] eqn:E2. cbn [fst snd].
    rewrite (wait_sbt_spec 254) by (try reflexivity; lia).
    destruct (find_token (sbt :: rx 254 w2)) as [k|]; [|reflexivity].
    rewrite (after_S k w1), E2. cbn [snd].
    pose proof (load_block_wire BLOCK_LEN 0 block (after k w2)) as Hw.
    destruct (load_block BLOCK_LEN 0 block (after k w2)) as [blk w3].
    cbn [fst snd] in *. subst w3.
    rewrite <- (after_add 2 1). reflexivity.
Qed.

Context {RL : RweLimits}.

(** The token wait of [sd_ReadSingleBlock], started with [timeout = t],
    looks at the next [TIMEOUT_LIMIT + 1 - t] bytes. *)
Lemma sd_wait_sbt_spec (m : nat) :
  forall (fuel : nat) (t : Z) (w : Wire),
  TIMEOUT_LIMIT <= 254 ->
  t = TIMEOUT_LIMIT - Z.of_nat m -> 0 <= t -> (m < fuel)%nat ->
  sd_wait_sbt fuel t w =
    Some match find_token (rx (S m) w) with
         | Some k => (true, after (S k) w)
         | None => (false, after (S m) w)
         end.
Proof.
  induction m as [|m IH]; intros fuel t w HL Ht Ht0 Hf;
    (destruct fuel as [|fuel]; [lia|]);
    cbn [sd_wait_sbt]; rewrite (rx_S _ w), !after_S;
    destruct (SD_ReceiveByteSPI w) as [b w'] eqn:E; cbn [fst snd find_token];
    (destruct (byteZ b =? 254); cbn [negb];
      [rewrite after_S, E; reflexivity|]);
    assert (Hu : u8 (t + 1) = t + 1) by (unfold u8; apply Z.mod_small; lia);
    rewrite Hu.
  - destruct (Z.gtb_spec (t + 1) TIMEOUT_LIMIT); [|lia]. reflexivity.
  - destruct (Z.gtb_spec (t + 1) TIMEOUT_LIMIT); [lia|].
    rewrite (IH fuel (t + 1) w') by lia.
    destruct (find_token (rx (S m) w')) as [k|]; cbn [option_map];
      rewrite ?after_S, ?E; reflexivity.
Qed.

(** [sd_ReadSingleBlock] as one equation, when [OUT_OF_IDLE] is the R1
    response [0] and the poll bound fits the [uint8_t] counter. *)
Lemma sd_ReadSingleBlock_eq (fuel : nat) (lba : Z) (block : list byte)
  (bus : Bus Wire) :
  OUT_OF_IDLE = 0 -> 0 <= TIMEOUT_LIMIT <= 254 ->
  (Z.to_nat TIMEOUT_LIMIT < fuel)%nat ->
  sd_ReadSingleBlock fuel lba block bus =
    let r1 := fst (cmd17 lba bus) in
    let w1 := snd (cmd17 lba bus) in
    let polls := S (Z.to_nat TIMEOUT_LIMIT) in
    Some (if byteZ r1 =? 0 then
            match find_token (rx polls w1) with
            | None =>
                (u16 (Z.lor START_TOKEN_TIMEOUT (byteZ r1)), block,
                 mkBus true (after polls w1))
            | Some k =>
                (u16 (Z.lor READ_SUCCESS (byteZ r1)),
                 fst (load_block BLOCK_LEN 0 block (after (S k) w1)),
                 mkBus true (after 3 (after BLOCK_LEN (after (S k) w1))))
            end
          else (u16 (Z.lor R1_ERROR (byteZ r1)), block, mkBus true w1)).
Proof.
  intros Hidle HL Hf. unfold sd_ReadSingleBlock, cmd17.
  destruct (SD_GetR1 _) as [r1 w1]. cbn [fst snd]. rewrite Hidle.
  destruct (Z.eqb_spec (byteZ r1) 0); cbn [negb]; [|reflexivity].
  rewrite (sd_wait_sbt_spec (Z.to_nat TIMEOUT_LIMIT)) by lia.
  destruct (find_token (rx (S (Z.to_nat TIMEOUT_LIMIT)) w1)) as [k|];
    [|reflexivity].
  pose proof (load_block_wire BLOCK_LEN 0 block (after (S k) w1)) as Hw.
  destruct (load_block BLOCK_LEN 0 block (after (S k) w1)) as [blk w3].
  cbn [fst snd] in *. subst w3.
  rewrite <- (after_add 1 1). change (1 + 1)%nat with 2%nat.
  rewrite <- (after_add 1 2). reflexivity.
Qed.

(** C7 (ReadSingleBlock, in both revisions of the block layer): the
    function issues CMD17; a non-zero R1 gives [R1_ERROR | r1]; otherwise,
    when no Start Block Token [0xFE] is among the bytes of the bounded poll,
    it gives [START_TOKEN_TIMEOUT | r1]; otherwise the array holds exactly
    the 512 bytes that follow the token, three more bytes (two CRC bytes and
    one drain byte) are taken from the card, and the code is
    [READ_SUCCESS | r1].  Chip select is high in every case. *)
Theorem ReadSingleBlock_contract (fuel : nat) (lba : Z) (block : list byte)
  (bus : Bus Wire) :
  length block = BLOCK_LEN ->
  OUT_OF_IDLE = 0 -> 0 <= TIMEOUT_LIMIT <= 254 ->
  (Z.to_nat TIMEOUT_LIMIT < fuel)%nat ->
  let r1 := fst (cmd17 lba bus) in
  let w1 := snd (cmd17 lba bus) in
  let outcome (polls drained : nat) :=
    if byteZ r1 =? 0 then
      match find_token (rx polls w1) with
      | None =>
          (u16 (Z.lor START_TOKEN_TIMEOUT (byteZ r1)), block,
           mkBus true (after drained w1))
      | Some k =>
          (u16 (Z.lor READ_SUCCESS (byteZ r1)),
           rx BLOCK_LEN (after (S k) w1),
           mkBus true (after 3 (after BLOCK_LEN (after (S k) w1))))
      end
    else (u16 (Z.lor R1_ERROR (byteZ r1)), block, mkBus true w1) in
  SD_ReadSingleBlock lba block bus = Some (outcome 255%nat 256%nat) /\
  sd_ReadSingleBlock fuel lba block bus =
    Some (outcome (S (Z.to_nat TIMEOUT_LIMIT)) (S (Z.to_nat TIMEOUT_LIMIT))).
Proof.
  intros Hlen Hidle HL Hf r1 w1 outcome. subst outcome.
  rewrite SD_ReadSingleBlock_eq, (sd_ReadSingleBlock_eq fuel) by assumption.
  cbv zeta. fold r1 w1.
  destruct (byteZ r1 =? 0); [|split; reflexivity].
  split.
  - destruct (find_token (rx 255 w1)) as [k|]; [|reflexivity].
    rewrite load_block_whole by exact Hlen. reflexivity.
  - destruct (find_token (rx (S (Z.to_nat TIMEOUT_LIMIT)) w1)) as [k|];
      [|reflexivity].
    rewrite load_block_whole by exact Hlen. reflexivity.
Qed.

(** C10 (ReadSingleBlock, in both revisions): every call returns on one of
    three paths, decided by the R1 response and by the bytes of the bounded
    poll.  On the two error paths ([R1_ERROR | r1] and
    [START_TOKEN_TIMEOUT | r1]) the array returned is the caller's array,
    unmodified; only the path that returns [READ_SUCCESS | r1] stores into
    it. *)
Theorem ReadSingleBlock_error_keeps_array (fuel : nat) (lba : Z)
  (block : list byte) (bus : Bus Wire) :
  OUT_OF_IDLE = 0 -> 0 <= TIMEOUT_LIMIT <= 254 ->
  (Z.to_nat TIMEOUT_LIMIT < fuel)%nat ->
  let r1 := fst (cmd17 lba bus) in
  let w1 := snd (cmd17 lba bus) in
  let paths (polls : nat) (res : option (Z * list byte * Bus Wire)) :=
    exists code block' bus',
      res = Some (code, block', bus') /\
      ((byteZ r1 <> 0 /\
        code = u16 (Z.lor R1_ERROR (byteZ r1)) /\ block' = block) \/
       (byteZ r1 = 0 /\ find_token (rx polls w1) = None /\
        code = u16 (Z.lor START_TOKEN_TIMEOUT (byteZ r1)) /\ block' = block) \/
       (byteZ r1 = 0 /\ find_token (rx polls w1) <> None /\
        code = u16 (Z.lor READ_SUCCESS (byteZ r1)))) in
  paths 255%nat (SD_ReadSingleBlock lba block bus) /\
  paths (S (Z.to_nat TIMEOUT_LIMIT)) (sd_ReadSingleBlock fuel lba block bus).
Proof.
  intros Hidle HL Hf r1 w1 paths. subst paths.
  rewrite SD_ReadSingleBlock_eq, (sd_ReadSingleBlock_eq fuel) by assumption.
  cbv zeta. fold r1 w1.
  destruct (Z.eqb_spec (byteZ r1) 0) as [Hz|Hnz].
  - split.
    + destruct (find_token (rx 255 w1)) as [k|] eqn:E;
        do 3 eexists; (split; [reflexivity|]).
      * right; right. repeat split; auto; discriminate.
      * right; left. repeat split; auto.
    + destruct (find_token (rx (S (Z.to_nat TIMEOUT_LIMIT)) w1)) as [k|] eqn:E;
        do 3 eexists; (split; [reflexivity|]).
      * right; right. repeat split; auto; discriminate.
      * right; left. repeat split; auto.
  - split; do 3 eexists; (split; [reflexivity|]); left; repeat split; auto.
Qed.

End ReadSingleBlock.

(** A run of C7 on the scripted card: the token comes as the second byte
    after R1, and the array ends up holding the block of the card. *)
Lemma ReadSingleBlock_contract_witness :
  SD_ReadSingleBlock (SB := ScriptedCard) (SF := demo_flags)
    7 host_array (mkBus true card_reads)
  = Some (0, card_block, mkBus true []) /\
  sd_ReadSingleBlock (SB := ScriptedCard) (SF := demo_flags)
    (RL := demo_limits) 300 7 host_array (mkBus true card_reads)
  = Some (0, card_block, mkBus true []).
Proof.
  pose proof (ReadSingleBlock_contract (SB := ScriptedCard)
                (SF := demo_flags) (RL := demo_limits)
                300 7 host_array (mkBus true card_reads)) as W.
  destruct W as [W1 W2];
    [reflexivity | reflexivity | cbn; lia | cbn; lia | ].
  rewrite W1, W2. vm_compute. split; reflexivity.
Defined.

(** Runs of C10 on the scripted card: a rejected command and a missing
    token both hand the caller's array back as it was. *)
Lemma ReadSingleBlock_error_keeps_array_witness :
  (exists code bus',
     SD_ReadSingleBlock (SB := ScriptedCard) (SF := demo_flags)
       7 host_array (mkBus true card_rejects)
     = Some (code, host_array, bus')) /\
  (exists code bus',
     sd_ReadSingleBlock (SB := ScriptedCard) (SF := demo_flags)
       (RL := demo_limits) 300 7 host_array (mkBus true card_silent)
     = Some (code, host_array, bus')).
Proof.
  split.
  - pose proof (ReadSingleBlock_error_keeps_array (SB := ScriptedCard)
                  (SF := demo_flags) (RL := demo_limits)
                  300 7 host_array (mkBus true card_rejects)) as W.
    destruct W as [(code & block' & bus' & E & P) _];
      [reflexivity | cbn; lia | cbn; lia | ].
    exists code, bus'. rewrite E.
    destruct P as [(_ & _ & ->) | [(_ & _ & _ & ->) | (A & _)]];
      [reflexivity | reflexivity | vm_compute in A; discriminate A].
  - pose proof (ReadSingleBlock_error_keeps_array (SB := ScriptedCard)
                  (SF := demo_flags) (RL := demo_limits)
                  300 7 host_array (mkBus true card_silent)) as W.
    destruct W as [_ (code & block' & bus' & E & P)];
      [reflexivity | cbn; lia | cbn; lia | ].
    exists code, bus'. rewrite E.
    destruct P as [(_ & _ & ->) | [(_ & _ & _ & ->) | (_ & A & _)]];
      [reflexivity | reflexivity | exfalso; apply A; vm_compute; reflexivity].
Defined.

(* ================================================================= *)
(** ** Erasing blocks *)

Lemma find_ready_all_busy (n : nat) : find_ready (repeat x00 n) = None.
Proof.
  induction n as [|n IH]; [reflexivity|]. simpl. rewrite IH. reflexivity.
Qed.

Section EraseBlocks.
Context {Wire : Type} {SB : SpiBase Wire} {SF : SdFlags} {RL : RweLimits}.

(** Both busy waits have one shape: with the counter at [t] and [S n] polls
    left before the bound is passed, the wait ends at the first byte that
    is not [0x00], or times out after [S n] busy bytes. *)
Ltac busy_wait n IH :=
  induction n as [|n IH]; intros fuel t w;
  intros;
  (destruct fuel as [|fuel]; [lia|]);
  cbn [wait_erase sd_wait_erase]; rewrite (rx_S _ w), !after_S;
  destruct (SD_ReceiveByteSPI w) as [b w'] eqn:E; cbn [fst snd find_ready];
  (destruct (byteZ b =? 0); [|rewrite after_S, E; reflexivity]);
  [ match goal with
    | |- context [?a >? ?c] => destruct (Z.gtb_spec a c); [|lia]
    end; reflexivity
  | match goal with
    | |- context [?a >? ?c] => destruct (Z.gtb_spec a c); [lia|]
    end;
    replace (u16 (t + 1)) with (t + 1)
      by (unfold u16; symmetry; apply Z.mod_small; lia);
    rewrite IH by lia;
    match goal with
    | |- context [find_ready ?l] => destruct (find_ready l) as [k|]
    end; cbn [option_map]; rewrite ?after_S, ?E; reflexivity ].

Lemma wait_erase_spec (n : nat) :
  forall (fuel : nat) (t : Z) (w : Wire),
  t = 65535 - Z.of_nat n -> 0 <= t -> (n < fuel)%nat ->
  wait_erase fuel t w =
    Some match find_ready (rx (S n) w) with
         | Some k => (true, after (S k) w)
         | None => (false, after (S n) w)
         end.
Proof. busy_wait n IH. Qed.

Lemma sd_wait_erase_spec (n : nat) :
  forall (fuel : nat) (t : Z) (w : Wire),
  4 * TIMEOUT_LIMIT <= 65534 ->
  t = 4 * TIMEOUT_LIMIT + 1 - Z.of_nat n -> 0 <= t -> (n < fuel)%nat ->
  sd_wait_erase fuel t w =
    Some match find_ready (rx (S n) w) with
         | Some k => (true, after (S k) w)
         | None => (false, after (S n) w)
         end.
Proof. busy_wait n IH. Qed.

(** C1, at the input where it fails (both revisions of [EraseBlocks]): when
    CMD32, CMD33 and CMD38 are all accepted and the card then stays busy for
    the whole bounded wait, the function returns [ERASE_BUSY_TIMEOUT | r1]
    with chip select still asserted (low). *)
Theorem EraseBlocks_busy_timeout_leaves_cs_low (fuel : nat) (s e : Z)
  (bus : Bus Wire) (r32 r33 r38 : byte) (w3 : Wire) :
  OUT_OF_IDLE = 0 -> 0 <= TIMEOUT_LIMIT <= 16383 ->
  (Z.to_nat (4 * TIMEOUT_LIMIT + 1) < fuel)%nat ->
  erase_cmds s e bus = (r32, r33, r38, w3) ->
  byteZ r32 = 0 -> byteZ r33 = 0 -> byteZ r38 = 0 ->
  (find_ready (rx (Z.to_nat 65536) w3) = None ->
   SD_EraseBlocks s e bus =
     Some (u16 (Z.lor ERASE_BUSY_TIMEOUT (byteZ r38)),
           mkBus false (after (Z.to_nat 65536) w3))) /\
  (find_ready (rx (Z.to_nat (4 * TIMEOUT_LIMIT + 2)) w3) = None ->
   sd_EraseBlocks fuel s e bus =
     Some (u16 (Z.lor ERASE_BUSY_TIMEOUT (byteZ r38)),
           mkBus false (after (Z.to_nat (4 * TIMEOUT_LIMIT + 2)) w3))).
Proof.
  intros Hidle HL Hf Hc H32 H33 H38.
  unfold erase_cmds in Hc.
  unfold SD_EraseBlocks, sd_EraseBlocks.
  destruct (SD_GetR1 (SD_SendCommand ERASE_WR_BLK_START_ADDR s (wire bus)))
    as [a wa].
  destruct (SD_GetR1 (SD_SendCommand ERASE_WR_BLK_END_ADDR e wa)) as [b wb].
  destruct (SD_GetR1 (SD_SendCommand ERASE 0 wb)) as [c wc].
  injection Hc as -> -> -> ->.
  rewrite Hidle, H32, H33, H38. cbn [Z.gtb Z.compare Z.eqb negb].
  split; intros Hbusy.
  - rewrite (wait_erase_spec (Z.to_nat 65535)) by lia.
    replace (S (Z.to_nat 65535)) with (Z.to_nat 65536) by lia.
    rewrite Hbusy. reflexivity.
  - rewrite (sd_wait_erase_spec (Z.to_nat (4 * TIMEOUT_LIMIT + 1))) by lia.
    replace (S (Z.to_nat (4 * TIMEOUT_LIMIT + 1)))
      with (Z.to_nat (4 * TIMEOUT_LIMIT + 2)) by lia.
    rewrite Hbusy. reflexivity.
Qed.

End EraseBlocks.

(** The failing run of C1 on the scripted card: the three commands are
    accepted, then the card answers [0x00] to 65536 polls. *)
Lemma EraseBlocks_busy_timeout_leaves_cs_low_witness :
  option_map (fun r => cs_high (snd r))
    (SD_EraseBlocks (SB := ScriptedCard) (SF := demo_flags)
       0 9 (mkBus true card_stays_busy)) = Some false /\
  option_map (fun r => cs_high (snd r))
    (sd_EraseBlocks (SB := ScriptedCard) (SF := demo_flags)
       (RL := demo_limits) 2000 0 9 (mkBus true card_stays_busy))
  = Some false.
Proof.
  pose proof (EraseBlocks_busy_timeout_leaves_cs_low (SB := ScriptedCard)
                (SF := demo_flags) (RL := demo_limits)
                2000 0 9 (mkBus true card_stays_busy) x00 x00 x00
                (repeat x00 (Z.to_nat 65536))) as W.
  destruct W as [W1 W2];
    [ reflexivity | cbn; lia | cbn; lia | reflexivity
    | reflexivity | reflexivity | reflexivity | ].
  rewrite W1, W2; [split; reflexivity | | ].
  - vm_compute. reflexivity.
  - vm_compute. reflexivity.
Defined.

(* ================================================================= *)
(** ** Assembling little-endian fields *)

Lemma at_range (arr : list byte) (i : Z) : 0 <= at_ arr i < 256.
Proof. apply byteZ_range. Qed.

(** Or-ing a byte under a value shifted left by 8 adds it. *)
Lemma lor_shl8 (x b : Z) :
  0 <= x -> 0 <= b < 256 -> Z.lor (Z.shiftl x 8) b = x * 256 + b.
Proof.
  intros Hx Hb. rewrite Z.shiftl_mul_pow2 by lia. change (2 ^ 8) with 256.
  rewrite <- Z.lxor_lor, <- Z.add_nocarry_lxor; try reflexivity;
    apply Z.bits_inj'; intros n Hn; rewrite Z.land_spec, Z.bits_0;
    (destruct (Z.ltb_spec n 8) as [Hlt|Hge];
     [ change 256 with (2 ^ 8); rewrite Z.mul_pow2_bits_low by lia; reflexivity
     | replace (Z.testbit b n) with false;
       [ apply andb_false_r
       | symmetry; destruct (Z.eq_dec b 0) as [->|Hnz];
         [ apply Z.bits_0
         | apply Z.bits_above_log2; [lia|];
           apply Z.log2_lt_pow2; [lia|];
           apply Z.lt_le_trans with (2 ^ 8); [simpl; lia|];
           apply Z.pow_le_mono_r; lia ] ] ]).
Qed.

Lemma shl8_or16_bytes (a b : Z) :
  0 <= a < 256 -> 0 <= b < 256 -> shl8_or16 a b = b + 256 * a.
Proof.
  intros Ha Hb. unfold shl8_or16, u16.
  rewrite Z.shiftl_mul_pow2 by lia. rewrite Z.mod_small by lia.
  rewrite <- Z.shiftl_mul_pow2 by lia. rewrite lor_shl8 by lia. lia.
Qed.

Lemma shl8_or32_small (x b : Z) :
  0 <= x < 2 ^ 24 -> 0 <= b < 256 -> shl8_or32 x b = x * 256 + b.
Proof.
  intros Hx Hb. unfold shl8_or32, u32.
  rewrite Z.shiftl_mul_pow2 by lia. rewrite Z.mod_small by lia.
  rewrite <- Z.shiftl_mul_pow2 by lia. apply lor_shl8; lia.
Qed.

(** The four-step assembly of a 32-bit field, most significant byte
    first, gives its little-endian value. *)
Lemma assemble32 (b3 b2 b1 b0 : Z) :
  0 <= b3 < 256 -> 0 <= b2 < 256 -> 0 <= b1 < 256 -> 0 <= b0 < 256 ->
  shl8_or32 (shl8_or32 (shl8_or32 b3 b2) b1) b0
  = b0 + 256 * b1 + 65536 * b2 + 16777216 * b3.
Proof.
  intros H3 H2 H1 H0.
  rewrite (shl8_or32_small b3 b2) by lia.
  rewrite (shl8_or32_small (b3 * 256 + b2) b1) by lia.
  rewrite shl8_or32_small by lia. lia.
Qed.

Lemma le16_range (s : list byte) (off : Z) : 0 <= le16 s off < 2 ^ 16.
Proof.
  unfold le16. pose proof (at_range s off). pose proof (at_range s (off + 1)).
  lia.
Qed.

Lemma le32_range (s : list byte) (off : Z) : 0 <= le32 s off < 2 ^ 32.
Proof.
  unfold le32. pose proof (at_range s off). pose proof (at_range s (off + 1)).
  pose proof (at_range s (off + 2)). pose proof (at_range s (off + 3)).
  lia.
Qed.

(* ================================================================= *)
(** ** Mounting *)

Section Mount.
Context {D : FatToSd}.

(** C6 (FAT_GetBiosParameterBlock): the code returned in each of the
    five cases, tested in this order, and the geometry record of the
    valid case, whose [dataRegionFirstSector] is
    [bootSectorAddress + reservedSectorCount + numberOfFats * fatSize32]
    in 32-bit arithmetic (exactly that sum when it fits 32 bits). *)
Theorem GetBiosParameterBlock_contract (bpb0 : BiosParameterBlock) :
  let boot := fat_FindBootSector in
  let bs := fat_ReadSingleSector boot in
  let code := fst (FAT_GetBiosParameterBlock bpb0) in
  let bpb := snd (FAT_GetBiosParameterBlock bpb0) in
  let signed := at_ bs 510 = 0x55 /\ at_ bs 511 = 0xAA in
  let spc_ok := In (at_ bs 13) [1; 2; 4; 8; 16; 32; 64; 128] in
  (boot = 0xFFFFFFFF -> code = BOOT_SECTOR_NOT_FOUND) /\
  (boot <> 0xFFFFFFFF -> ~ signed -> code = NOT_BOOT_SECTOR) /\
  (boot <> 0xFFFFFFFF -> signed -> le16 bs 11 <> 512 ->
   code = INVALID_BYTES_PER_SECTOR) /\
  (boot <> 0xFFFFFFFF -> signed -> le16 bs 11 = 512 -> ~ spc_ok ->
   code = INVALID_SECTORS_PER_CLUSTER) /\
  (boot <> 0xFFFFFFFF -> signed -> le16 bs 11 = 512 -> spc_ok ->
   code = BOOT_SECTOR_VALID /\
   bpb = {| bytesPerSector := 512;
            sectorsPerCluster := at_ bs 13;
            reservedSectorCount := le16 bs 14;
            numberOfFats := at_ bs 16;
            fatSize32 := le32 bs 36;
            rootCluster := le32 bs 44;
            bootSectorAddress := boot;
            dataRegionFirstSector :=
              u32 (boot + le16 bs 14 + at_ bs 16 * le32 bs 36) |} /\
   (0 <= boot -> boot + le16 bs 14 + at_ bs 16 * le32 bs 36 < 2 ^ 32 ->
    dataRegionFirstSector bpb
    = bootSectorAddress bpb + reservedSectorCount bpb
      + numberOfFats bpb * fatSize32 bpb)).
Proof.
  intros boot bs code bpb signed spc_ok.
  subst code bpb. unfold FAT_GetBiosParameterBlock. fold boot. fold bs.
  change (SECTOR_LEN - 2) with 510. change (SECTOR_LEN - 1) with 511.
  change SECTOR_LEN with 512.
  rewrite (shl8_or16_bytes (at_ bs 12) (at_ bs 11)) by apply at_range.
  change (at_ bs 11 + 256 * at_ bs 12) with (le16 bs 11).
  destruct (Z.eqb_spec boot 0xFFFFFFFF) as [Hb|Hb]; cbn [negb].
  { repeat split; intros; try contradiction; reflexivity. }
  destruct (Z.eqb_spec (at_ bs 510) 0x55) as [H1|H1]; cbn [andb].
  2:{ subst signed. repeat split; intros; try reflexivity; try tauto. }
  destruct (Z.eqb_spec (at_ bs 511) 0xAA) as [H2|H2].
  2:{ subst signed. repeat split; intros; try reflexivity; try tauto. }
  assert (Hs : signed) by (split; assumption).
  destruct (Z.eqb_spec (le16 bs 11) 512) as [H3|H3]; cbn [negb].
  2:{ repeat split; intros; try reflexivity; try tauto. }
  assert (Hspc :
    (negb (at_ bs 13 =? 1) && negb (at_ bs 13 =? 2) && negb (at_ bs 13 =? 4)
     && negb (at_ bs 13 =? 8) && negb (at_ bs 13 =? 16)
     && negb (at_ bs 13 =? 32) && negb (at_ bs 13 =? 64)
     && negb (at_ bs 13 =? 128)) = true <-> ~ spc_ok).
  { subst spc_ok. cbn [In].
    repeat rewrite andb_true_iff. repeat rewrite negb_true_iff.
    repeat rewrite Z.eqb_neq. intuition lia. }
  match goal with
  | |- context [if ?c then (INVALID_SECTORS_PER_CLUSTER, _) else _] =>
      destruct c eqn:E
  end.
  { assert (Hn : ~ spc_ok) by (apply Hspc; reflexivity).
    repeat split; intros; try reflexivity; try tauto. }
  assert (Hok : spc_ok).
  { destruct (In_dec Z.eq_dec (at_ bs 13) [1; 2; 4; 8; 16; 32; 64; 128])
      as [i|n]; [exact i|]. apply Hspc in n. discriminate n. }
  rewrite (shl8_or16_bytes (at_ bs 15) (at_ bs 14)) by apply at_range.
  rewrite !assemble32 by apply at_range.
  change (at_ bs 14 + 256 * at_ bs 15) with (le16 bs 14).
  change (at_ bs 36 + 256 * at_ bs 37 + 65536 * at_ bs 38
          + 16777216 * at_ bs 39) with (le32 bs 36).
  change (at_ bs 44 + 256 * at_ bs 45 + 65536 * at_ bs 46
          + 16777216 * at_ bs 47) with (le32 bs 44).
  assert (Hsum : u32 (u32 (boot + le16 bs 14) + u32 (at_ bs 16 * le32 bs 36))
                 = u32 (boot + le16 bs 14 + at_ bs 16 * le32 bs 36)).
  { unfold u32. rewrite <- Z.add_mod by lia. reflexivity. }
  rewrite Hsum, H3. cbn [fst snd].
  repeat split; intros; try reflexivity; try tauto.
  cbn [dataRegionFirstSector bootSectorAddress reservedSectorCount
       numberOfFats fatSize32].
  unfold u32. apply Z.mod_small.
  pose proof (le16_range bs 14). pose proof (at_range bs 16).
  pose proof (le32_range bs 36). nia.
Qed.

End Mount.

(** C6 on the small volume: the boot sector at LBA 0 is valid and the data
    region starts at [0 + 32 + 2 * 1024 = 2080]. *)
Lemma GetBiosParameterBlock_contract_witness :
  FAT_GetBiosParameterBlock (D := DemoDisk) blank_bpb
  = (BOOT_SECTOR_VALID, demo_bpb).
Proof.
  pose proof (GetBiosParameterBlock_contract (D := DemoDisk) blank_bpb) as W.
  cbv zeta in W. destruct W as (_ & _ & _ & _ & W).
  destruct W as (Hc & Hb & _).
  - vm_compute. discriminate.
  - vm_compute. split; reflexivity.
  - vm_compute. reflexivity.
  - vm_compute. tauto.
  - destruct (FAT_GetBiosParameterBlock blank_bpb) as [c b].
    cbn [fst snd] in Hc, Hb. rewrite Hc, Hb. vm_compute. reflexivity.
Defined.

(* ================================================================= *)
(** ** C strings *)

Lemma byte_eqb_eq (a b : byte) : byte_eqb a b = true <-> a = b.
Proof.
  unfold byte_eqb. rewrite Z.eqb_eq. split; [apply byteZ_inj | now intros ->].
Qed.

Lemma byte_eqb_refl (a : byte) : byte_eqb a a = true.
Proof. apply byte_eqb_eq. reflexivity. Qed.

Lemma bytes_eqb_eq (a b : list byte) : bytes_eqb a b = true <-> a = b.
Proof.
  revert b. induction a as [|x a IH]; intros [|y b]; simpl;
    try (split; [discriminate|discriminate]); [tauto|].
  rewrite andb_true_iff, byte_eqb_eq, IH.
  split; [intros [-> ->]; reflexivity | intros [= -> ->]; auto].
Qed.

Lemma bytes_eqb_refl (a : list byte) : bytes_eqb a a = true.
Proof. apply bytes_eqb_eq. reflexivity. Qed.

Lemma c_str_clean (s : list byte) : clean s = true -> c_str s = s.
Proof.
  induction s as [|b s IH]; simpl; [reflexivity|].
  rewrite andb_true_iff, negb_true_iff. intros [Hb Hs].
  rewrite Hb, IH by assumption. reflexivity.
Qed.

Lemma clean_c_str (s : list byte) : clean (c_str s) = true.
Proof.
  induction s as [|b s IH]; simpl; [reflexivity|].
  destruct (byteZ b =? 0) eqn:E; simpl; [reflexivity|].
  rewrite E, IH. reflexivity.
Qed.

Lemma c_str_idem (s : list byte) : c_str (c_str s) = c_str s.
Proof. apply c_str_clean, clean_c_str. Qed.

Lemma clean_app (a b : list byte) :
  clean (a ++ b) = clean a && clean b.
Proof. apply forallb_app. Qed.

Lemma strlen_clean (s : list byte) :
  clean s = true -> strlen s = Z.of_nat (length s).
Proof. intros H. unfold strlen. rewrite c_str_clean by exact H. reflexivity. Qed.

(** The last slash of a path that ends with a name free of slashes. *)
Lemma strrchr_last_slash (p s : list byte) :
  has_slash s = false ->
  strrchr (p ++ chr "/" :: s) (chr "/") = Some (length p).
Proof.
  intros Hs.
  assert (Hnone : strrchr s (chr "/") = None).
  { unfold has_slash in Hs.
    induction s as [|b s IH]; cbn [strrchr existsb] in *; [reflexivity|].
    apply orb_false_iff in Hs as [Hb Hs]. rewrite IH, Hb by exact Hs.
    reflexivity. }
  induction p as [|a p IH]; cbn [strrchr app length].
  - rewrite Hnone. rewrite byte_eqb_refl. reflexivity.
  - rewrite IH. reflexivity.
Qed.

Lemma ends_with_slash_split (p : list byte) :
  ends_with_slash p = true -> exists q, p = q ++ [chr "/"].
Proof.
  unfold ends_with_slash. intros H.
  destruct (rev p) as [|b r] eqn:E; [discriminate|].
  apply byte_eqb_eq in H. subst b. exists (rev r).
  rewrite <- (rev_involutive p), E. reflexivity.
Qed.

Lemma first_not_slash (s : list byte) :
  clean s = true -> has_slash s = false ->
  negb (at_ s 0 =? byteZ (chr "/")) = true.
Proof.
  intros _ Hs. destruct s as [|b s]; [reflexivity|].
  simpl in Hs. apply orb_false_iff in Hs as [Hb _].
  unfold at_, byte_at. simpl. unfold byte_eqb in Hb. rewrite Hb. reflexivity.
Qed.

(* ================================================================= *)
(** ** Changing directory *)

Section ChangeDirectory.
Context {D : FatToSd}.

Lemma check_dotdot : pvt_CheckIllegalName (str "..") = Some 0.
Proof. reflexivity. Qed.

(** C9: at the root ([FATFirstCluster] equal to [rootCluster]), setting the
    current directory to ".." returns [SUCCESS] and leaves the cursor, all
    five fields, as it was. *)
Theorem cd_dotdot_at_root_is_noop (fuel : nat) (dir : FatCurrentDirectory)
  (bpb : BiosParameterBlock) :
  FATFirstCluster dir = rootCluster bpb ->
  FAT_SetCurrentDirectory fuel dir (str "..") bpb = Some (SUCCESS, dir).
Proof.
  intros Hroot. unfold FAT_SetCurrentDirectory. rewrite check_dotdot.
  change (negb (0 =? 0)) with false.
  change (strcmp_eq (str "..") (str ".")) with false.
  change (strcmp_eq (str "..") (str "..")) with true. cbv iota.
  unfold pvt_SetCurrentDirectoryToParent.
  rewrite Hroot, Z.eqb_refl. reflexivity.
Qed.

(** Every [SUCCESS] of a name other than "." and ".." comes from a short
    name entry found by the walk. *)
Lemma cd_success_is_child (fuel : nat) (dir dir' : FatCurrentDirectory)
  (name : list byte) (bpb : BiosParameterBlock) :
  strcmp_eq name (str ".") = false ->
  strcmp_eq name (str "..") = false ->
  FAT_SetCurrentDirectory fuel dir name bpb = Some (SUCCESS, dir') ->
  exists sector pos,
    dir' = pvt_SetCurrentDirectoryToChild dir sector pos name bpb.
Proof.
  intros Hdot Hdd. unfold FAT_SetCurrentDirectory.
  destruct (pvt_CheckIllegalName name) as [ill|]; [|discriminate].
  destruct (negb (ill =? 0)); [discriminate|].
  rewrite Hdot, Hdd.
  destruct (cd_clusters _ _ _ _ _ _ _) as [[sector pos| |]|];
    try discriminate.
  intros [= <-]. exists sector, pos. reflexivity.
Qed.

(** One parent path of a directory entered from a directory below the
    root, as [pvt_SetCurrentDirectoryToParent] takes it apart: [q ++ "/"]
    was the parent path of the directory left and [s] its name. *)
Lemma up_path (q s : list byte) :
  clean q = true -> clean s = true -> has_slash s = false ->
  (length ((q ++ [chr "/"]) ++ s) < 64)%nat ->
  let path := ((q ++ [chr "/"]) ++ s) ++ [chr "/"] in
  let tmp := strlcpy [] path (strlen path) in
  (64 <? strlen path) = false /\
  (strlen path =? 0) = false /\
  strrchr tmp (chr "/") = Some (length q) /\
  skipn (length q + 1) tmp = s /\
  strlcpy path tmp (Z.of_nat (length q) + 2) = q ++ [chr "/"].
Proof.
  intros Hq Hs Hns Hlen path tmp.
  assert (Hc : clean path = true).
  { subst path. rewrite !clean_app, Hq, Hs. reflexivity. }
  assert (Hl : strlen path = Z.of_nat (length q + 1 + length s + 1)).
  { rewrite strlen_clean by exact Hc. subst path.
    rewrite !length_app. reflexivity. }
  rewrite !length_app in Hlen. cbn [length] in Hlen.
  assert (Ht : tmp = q ++ chr "/" :: s).
  { subst tmp. unfold strlcpy. rewrite Hl.
    destruct (Z.eqb_spec (Z.of_nat (length q + 1 + length s + 1)) 0); [lia|].
    rewrite c_str_clean by exact Hc. subst path.
    replace (Z.to_nat (Z.of_nat (length q + 1 + length s + 1) - 1))
      with (length ((q ++ [chr "/"]) ++ s))
      by (rewrite !length_app; cbn [length]; lia).
    rewrite firstn_app, Nat.sub_diag, firstn_all. cbn [firstn].
    rewrite app_nil_r, <- app_assoc. reflexivity. }
  assert (Hct : clean (q ++ chr "/" :: s) = true).
  { rewrite clean_app. cbn [clean forallb]. fold (clean s).
    rewrite Hq, Hs. reflexivity. }
  rewrite Hl, Ht. repeat split.
  - apply Z.ltb_ge. lia.
  - apply Z.eqb_neq. lia.
  - apply strrchr_last_slash. exact Hns.
  - replace (q ++ chr "/" :: s) with ((q ++ [chr "/"]) ++ s)
      by (rewrite <- app_assoc; reflexivity).
    replace (length q + 1)%nat with (length (q ++ [chr "/"]))
      by (rewrite length_app; reflexivity).
    rewrite skipn_app, skipn_all, Nat.sub_diag. reflexivity.
  - unfold strlcpy.
    destruct (Z.eqb_spec (Z.of_nat (length q) + 2) 0); [lia|].
    rewrite c_str_clean by exact Hct.
    replace (q ++ chr "/" :: s) with ((q ++ [chr "/"]) ++ s)
      by (rewrite <- app_assoc; reflexivity).
    replace (Z.to_nat (Z.of_nat (length q) + 2 - 1))
      with (length (q ++ [chr "/"]))
      by (rewrite length_app; cbn [length]; lia).
    rewrite firstn_app, Nat.sub_diag, firstn_all. cbn [firstn].
    apply app_nil_r.
Qed.

(** Going up from a directory entered from [dir] gives [dir] back, when
    the directory entered records [dir] as its parent. *)
Lemma parent_of_child (dir : FatCurrentDirectory) (sector : list byte)
  (pos : Z) (name : list byte) (bpb : BiosParameterBlock) :
  let child := pvt_SetCurrentDirectoryToChild dir sector pos name bpb in
  wf_cursor bpb dir = true ->
  FATFirstCluster child <> rootCluster bpb ->
  parent_recorded bpb child
  = (if FATFirstCluster dir =? rootCluster bpb then 0
     else FATFirstCluster dir) ->
  pvt_SetCurrentDirectoryToParent child bpb = Some dir.
Proof.
  intros child Hwf Hnr Hrec.
  unfold pvt_SetCurrentDirectoryToParent.
  fold (parent_recorded bpb child). rewrite Hrec.
  destruct (Z.eqb_spec (FATFirstCluster child) (rootCluster bpb)) as [|_];
    [contradiction|].
  unfold wf_cursor in Hwf. apply andb_true_iff in Hwf as [Hc2 Hwf].
  apply Z.leb_le in Hc2.
  destruct dir as [ln lp sn sp fc]. cbn [FATFirstCluster longName
    longParentPath shortName shortParentPath] in *.
  destruct (Z.eqb_spec fc (rootCluster bpb)) as [Hroot|Hroot].
  - (* the directory left is the root *)
    rewrite Z.eqb_refl.
    repeat (apply andb_true_iff in Hwf as [Hwf ?]).
    repeat match goal with
           | H : bytes_eqb _ _ = true |- _ => apply bytes_eqb_eq in H
           end.
    subst. reflexivity.
  - (* the directory left is below the root *)
    destruct (Z.eqb_spec fc 0) as [|_]; [lia|].
    repeat (apply andb_true_iff in Hwf as [Hwf ?]).
    repeat match goal with
           | H : negb _ = true |- _ => apply negb_true_iff in H
           | H : (_ <? _)%nat = true |- _ => apply Nat.ltb_lt in H
           end.
    match goal with
    | H : ends_with_slash lp = true |- _ =>
        apply ends_with_slash_split in H as [lq ->]
    end.
    match goal with
    | H : ends_with_slash sp = true |- _ =>
        apply ends_with_slash_split in H as [sq ->]
    end.
    assert (Hlq : clean lq = true).
    { match goal with
      | H : clean (lq ++ _) = true |- _ =>
          rewrite clean_app in H; apply andb_true_iff in H as [H _]; exact H
      end. }
    assert (Hsq : clean sq = true).
    { match goal with
      | H : clean (sq ++ _) = true |- _ =>
          rewrite clean_app in H; apply andb_true_iff in H as [H _]; exact H
      end. }
    subst child. unfold pvt_SetCurrentDirectoryToChild.
    cbn [FATFirstCluster longName longParentPath shortName shortParentPath].
    rewrite !first_not_slash by assumption.
    change (str "/") with [chr "/"].
    destruct (up_path lq ln) as (L1 & L2 & L3 & L4 & L5); try assumption.
    destruct (up_path sq sn) as (S1 & S2 & S3 & S4 & S5); try assumption.
    rewrite L1, L2, L3, S1, S2, S3. cbn [orb].
    rewrite L4, L5, S4, S5. reflexivity.
Qed.

(** C8, amended: for every well-formed cursor and every name other than
    "." and ".." for which cd succeeds, on a volume where the directory
    entered is not the root cluster and its ".." entry records the first
    cluster of the directory left (0 when that is the root), cd to the name
    followed by cd to ".." restores the cursor: all five fields are as
    before the first cd. *)
Theorem cd_child_then_parent_restores (fuel fuel' : nat)
  (dir dir' : FatCurrentDirectory) (name : list byte)
  (bpb : BiosParameterBlock) :
  wf_cursor bpb dir = true ->
  strcmp_eq name (str ".") = false ->
  strcmp_eq name (str "..") = false ->
  FAT_SetCurrentDirectory fuel dir name bpb = Some (SUCCESS, dir') ->
  FATFirstCluster dir' <> rootCluster bpb ->
  parent_recorded bpb dir'
  = (if FATFirstCluster dir =? rootCluster bpb then 0
     else FATFirstCluster dir) ->
  FAT_SetCurrentDirectory fuel' dir' (str "..") bpb = Some (SUCCESS, dir).
Proof.
  intros Hwf Hdot Hdd Hcd Hnr Hrec.
  destruct (cd_success_is_child fuel dir dir' name bpb Hdot Hdd Hcd)
    as (sector & pos & ->).
  unfold FAT_SetCurrentDirectory. rewrite check_dotdot.
  change (negb (0 =? 0)) with false.
  change (strcmp_eq (str "..") (str ".")) with false.
  change (strcmp_eq (str "..") (str "..")) with true. cbv iota.
  rewrite parent_of_child by assumption. reflexivity.
Qed.

End ChangeDirectory.

(** C9 on the small volume: ".." at the root. *)
Lemma cd_dotdot_at_root_is_noop_witness :
  FAT_SetCurrentDirectory (D := DemoDisk) 40 root_dir (str "..") demo_bpb
  = Some (SUCCESS, root_dir).
Proof.
  apply (cd_dotdot_at_root_is_noop (D := DemoDisk) 40 root_dir demo_bpb).
  reflexivity.
Defined.

(** C8 as stated fails for the name ".": cd to "." succeeds and changes
    nothing, and the cd to ".." that follows moves the cursor from FOOBAR
    up to the root. *)
Lemma cd_dot_then_dotdot_moves_up :
  FAT_SetCurrentDirectory (D := DemoDisk) 40 foobar_dir (str ".") demo_bpb
  = Some (SUCCESS, foobar_dir) /\
  FAT_SetCurrentDirectory (D := DemoDisk) 40 foobar_dir (str "..") demo_bpb
  = Some (SUCCESS, root_dir) /\
  root_dir <> foobar_dir.
Proof.
  split; [vm_compute; reflexivity|].
  split; [vm_compute; reflexivity|].
  discriminate.
Qed.

(** The amended C8 on the small volume: from the root into FOOBAR and
    back. *)
Lemma cd_child_then_parent_restores_witness :
  FAT_SetCurrentDirectory (D := DemoDisk) 40 root_dir (str "FOOBAR") demo_bpb
  = Some (SUCCESS, foobar_dir) /\
  FAT_SetCurrentDirectory (D := DemoDisk) 40 foobar_dir (str "..") demo_bpb
  = Some (SUCCESS, root_dir).
Proof.
  assert (E : FAT_SetCurrentDirectory (D := DemoDisk) 40 root_dir
                (str "FOOBAR") demo_bpb = Some (SUCCESS, foobar_dir))
    by (vm_compute; reflexivity).
  split; [exact E|].
  apply (cd_child_then_parent_restores (D := DemoDisk) 40 40
           root_dir foobar_dir (str "FOOBAR") demo_bpb).
  - reflexivity.
  - reflexivity.
  - reflexivity.
  - exact E.
  - vm_compute. discriminate.
  - vm_compute. reflexivity.
Defined.

(* ================================================================= *)
(** ** Name matching and the next sector in cd *)

(** C4, at the input where it fails: the root of the small volume holds
    the directory whose short name is "FOOBAR  "; cd to "FOO", a strict
    prefix, matches that entry and enters the directory (cluster 3). *)
Theorem cd_matches_prefix_of_short_name :
  slice demo_root_sector1 0 8 = str "FOOBAR  " /\
  cd_short_name_match (str "FOO") 3 demo_root_sector1 0 = true /\
  FAT_SetCurrentDirectory (D := DemoDisk) 40 root_dir (str "FOO") demo_bpb
  = Some (SUCCESS,
          {| longName := str "FOO"; longParentPath := str "/";
             shortName := str "FOO"; shortParentPath := str "/";
             FATFirstCluster := 3 |}).
Proof.
  split; [vm_compute; reflexivity|].
  split; vm_compute; reflexivity.
Qed.

Section NextSector.
Context {D : FatToSd}.

(** On a mounted volume (512 bytes per sector) the next sector taken by cd
    is always the current one plus one: the index of a sector within its
    cluster never reaches 511. *)
Lemma cd_next_sector_never_follows_chain (bpb : BiosParameterBlock)
  (cluster s abs : Z) :
  bytesPerSector bpb = 512 -> sectorsPerCluster bpb <= 255 ->
  s < sectorsPerCluster bpb ->
  cd_next_sector bpb cluster s abs = u32 (1 + abs).
Proof.
  intros Hb Hs Hlt. unfold cd_next_sector. rewrite Hb.
  change (u16 (512 - 1)) with 511.
  destruct (Z.geb_spec s 511); [lia|]. reflexivity.
Qed.

(** The next sector taken by ls and cat follows the claim. *)
Lemma ls_next_sector_follows_chain (bpb : BiosParameterBlock)
  (cluster s abs : Z) :
  1 <= sectorsPerCluster bpb <= 255 -> 0 <= s < sectorsPerCluster bpb ->
  ls_next_sector bpb cluster s abs
  = if s =? sectorsPerCluster bpb - 1
    then u32 (dataRegionFirstSector bpb
              + (pvt_GetNextCluster cluster bpb - 2) * sectorsPerCluster bpb)
    else u32 (1 + abs).
Proof.
  intros Hs Hlt. unfold ls_next_sector.
  replace (u32 (sectorsPerCluster bpb - 1)) with (sectorsPerCluster bpb - 1)
    by (unfold u32; symmetry; apply Z.mod_small; lia).
  destruct (Z.geb_spec s (sectorsPerCluster bpb - 1));
    destruct (Z.eqb_spec s (sectorsPerCluster bpb - 1)); try lia; reflexivity.
Qed.

End NextSector.

(** C3, at the input where it fails: in the small volume the long name
    entry "longdir" fills the last slot of the only sector of cluster 2,
    and the chain goes on to cluster 11 (sector 2089), where the short name
    entry records cluster 12.  ls and cat fetch sector 2089; cd fetches
    sector 2081, takes the entry it finds there for the short name entry,
    and enters cluster 3. *)
Theorem cd_next_sector_skips_chain :
  pvt_GetNextCluster (D := DemoDisk) 2 demo_bpb = 11 /\
  cluster_sector demo_bpb 11 = 2089 /\
  entry_first_cluster (demo_read 2089) 0 = 12 /\
  ls_next_sector (D := DemoDisk) demo_bpb 2 0 2080 = 2089 /\
  cat_next_sector (D := DemoDisk) demo_bpb 2 0 2080 = 2089 /\
  cd_next_sector (D := DemoDisk) demo_bpb 2 0 2080 = 2081 /\
  option_map (fun r => (fst r, FATFirstCluster (snd r)))
    (FAT_SetCurrentDirectory (D := DemoDisk) 40 root_dir (str "longdir")
       demo_bpb)
  = Some (SUCCESS, 3).
Proof.
  repeat split; vm_compute; reflexivity.
Qed.

(* ================================================================= *)
(** ** Printing a file *)

Section PrintFileFacts.
Context {D : FatToSd}.

(** C5, at the inputs where it fails: a name that is not empty, does not
    begin with a space and holds one of the nine illegal characters is
    rejected before the directory is read, but with the flag
    [INVALID_DIR_NAME], not [INVALID_FILE_NAME]. *)
Theorem PrintFile_illegal_character_flag (fuel : nat)
  (dir : FatCurrentDirectory) (name : list byte) (bpb : BiosParameterBlock) :
  clean name = true -> name <> [] -> at_ name 0 <> byteZ (chr " ") ->
  (length name < 256)%nat -> existsb is_illegal name = true ->
  FAT_PrintFile fuel dir name bpb = Some (INVALID_DIR_NAME, []).
Proof.
  intros Hc Hne Hsp Hlen Hill.
  unfold FAT_PrintFile, file_name_check, strcmp_eq.
  rewrite strlen_clean, c_str_clean by exact Hc.
  destruct name as [|b name]; [contradiction|].
  cbn [c_str bytes_eqb].
  destruct (Z.eqb_spec (at_ (b :: name) 0) (byteZ (chr " "))); [contradiction|].
  replace (u8 (Z.of_nat (length (b :: name))))
    with (Z.of_nat (length (b :: name)))
    by (unfold u8; symmetry; apply Z.mod_small; lia).
  rewrite Nat2Z.id, firstn_all, Hill. reflexivity.
Qed.

(** The loop of [pvt_PrintFatFile] prints every cluster of a chain. *)
Lemma print_chain_spec (bpb : BiosParameterBlock) (rest : list Z) :
  forall (fuel : nat) (cluster : Z),
  is_chain bpb cluster rest -> (length rest < fuel)%nat ->
  print_chain fuel bpb cluster
  = Some (flat_map (cluster_out bpb) (cluster :: rest)).
Proof.
  induction rest as [|c rest IH]; intros fuel cluster Hch Hf;
    (destruct fuel as [|fuel]; [simpl in Hf; lia|]);
    cbn [print_chain is_chain flat_map] in *.
  - rewrite Hch, Z.eqb_refl. cbn [negb]. rewrite app_nil_r. reflexivity.
  - destruct Hch as (-> & Hne & Hch).
    destruct (Z.eqb_spec c END_OF_CLUSTER); [contradiction|]. cbn [negb].
    rewrite (IH fuel c Hch) by (simpl in Hf; lia). reflexivity.
Qed.

(** C2, amended: when PrintFile finds the name at a short name entry, it
    streams every cluster of the file's chain, whatever the length of the
    chain; the streaming has no cap of 5 clusters. *)
Theorem PrintFile_streams_whole_chain (fuel : nat) (dir : FatCurrentDirectory)
  (name : list byte) (bpb : BiosParameterBlock) (sector : list byte)
  (pos : Z) (rest : list Z) :
  file_name_check name = None ->
  cat_clusters fuel fuel bpb (c_str name) (u8 (strlen name))
    (FATFirstCluster dir) 0 ln_init = Some (Found sector pos) ->
  is_chain bpb (entry_first_cluster sector pos) rest ->
  (length rest < fuel)%nat ->
  FAT_PrintFile fuel dir name bpb
  = Some (SUCCESS,
          flat_map (cluster_out bpb) (entry_first_cluster sector pos :: rest)).
Proof.
  intros Hname Hfound Hch Hf. unfold FAT_PrintFile.
  rewrite Hname, Hfound. unfold pvt_PrintFatFile.
  rewrite (print_chain_spec bpb rest) by assumption. reflexivity.
Qed.

End PrintFileFacts.

(** C5 on the name "a/b". *)
Lemma PrintFile_illegal_character_flag_witness :
  FAT_PrintFile (D := DemoDisk) 40 root_dir (str "a/b") demo_bpb
  = Some (INVALID_DIR_NAME, []).
Proof.
  apply (PrintFile_illegal_character_flag (D := DemoDisk) 40 root_dir
           (str "a/b") demo_bpb).
  - reflexivity.
  - discriminate.
  - vm_compute. discriminate.
  - vm_compute. lia.
  - reflexivity.
Defined.

(** C2 as stated fails on the small volume: F.TXT has a chain of six
    clusters, and PrintFile streams all six: its output is not the output
    of the first five. *)
Lemma PrintFile_streams_sixth_cluster :
  is_chain (D := DemoDisk) demo_bpb 4 [5; 6; 7; 8; 9] /\
  FAT_PrintFile (D := DemoDisk) 40 root_dir (str "F.TXT") demo_bpb
  = Some (SUCCESS,
          flat_map (cluster_out (D := DemoDisk) demo_bpb) [4; 5; 6; 7; 8; 9]) /\
  flat_map (cluster_out (D := DemoDisk) demo_bpb) [4; 5; 6; 7; 8; 9]
  <> flat_map (cluster_out (D := DemoDisk) demo_bpb) [4; 5; 6; 7; 8].
Proof.
  split; [vm_compute; repeat split; discriminate|].
  split; [vm_compute; reflexivity|].
  vm_compute. discriminate.
Qed.

(** The amended C2 on the same file. *)
Lemma PrintFile_streams_whole_chain_witness :
  FAT_PrintFile (D := DemoDisk) 40 root_dir (str "F.TXT") demo_bpb
  = Some (SUCCESS,
          flat_map (cluster_out (D := DemoDisk) demo_bpb) [4; 5; 6; 7; 8; 9]).
Proof.
  apply (PrintFile_streams_whole_chain (D := DemoDisk) 40 root_dir
           (str "F.TXT") demo_bpb demo_root_sector1 32 [5; 6; 7; 8; 9]).
  - reflexivity.
  - vm_compute. reflexivity.
  - vm_compute. repeat split; discriminate.
  - simpl. lia.
Defined.

(* ################################################################# *)
(** * Part III: further properties of the embedded code *)

(* ================================================================= *)
(** ** The bounded waits of the write functions *)

Lemma find_ready_first (bs : list byte) :
  find_ready bs = find_first (fun b => negb (is_busy b)) bs.
Proof.
  induction bs as [|b bs IH]; [reflexivity|]. cbn [find_ready find_first].
  unfold is_busy at 1. rewrite IH. destruct (byteZ b =? 0); reflexivity.
Qed.

Lemma find_token_first (bs : list byte) :
  find_token bs = find_first (fun b => negb (not_token b)) bs.
Proof.
  induction bs as [|b bs IH]; [reflexivity|]. cbn [find_token find_first].
  unfold not_token at 1. rewrite IH, negb_involutive. reflexivity.
Qed.

Lemma find_first_bound (p : byte -> bool) (bs : list byte) (k : nat) :
  find_first p bs = Some k -> (k < length bs)%nat /\ p (nth k bs x00) = true.
Proof.
  revert k. induction bs as [|b bs IH]; intros k; cbn [find_first];
    [discriminate|].
  destruct (p b) eqn:E.
  - intros [= <-]. split; [simpl; lia | exact E].
  - destruct (find_first p bs) as [j|]; cbn [option_map]; [|discriminate].
    intros [= <-]. destruct (IH j eq_refl). split; [simpl; lia | assumption].
Qed.

(** The dispatch on a valid data response token: the test for "accepted"
    also holds for the write error token, so that the two later tests
    only ever see the CRC error token. *)
Lemma response_dispatch (tok : byte) :
  valid_response tok = true ->
  (Z.land (byteZ tok) 0x05 =? 5) = negb (Z.land 0x1F (byteZ tok) =? 0x0B) /\
  (Z.land 0x1F (byteZ tok) =? 0x0B) = (Z.land (byteZ tok) 0x0B =? 0x0B).
Proof.
  destruct tok; vm_compute; intros H; try discriminate H; split; reflexivity.
Qed.

Section Waits.
Context {Wire : Type} {SB : SpiBase Wire}.

(** A [while] wait started with the counter at [t] ends at the first byte
    that fails the condition among the next [limit + 2 - t], or takes the
    return inside the loop after that many bytes. *)
Lemma poll_while_spec (cond : byte -> bool) (limit : Z) (n : nat) :
  forall (fuel : nat) (t : Z) (w : Wire),
  limit <= 65534 -> t = limit + 1 - Z.of_nat n -> 0 <= t -> (n < fuel)%nat ->
  poll_while cond limit fuel t w =
    Some match find_first (fun b => negb (cond b)) (rx (S n) w) with
         | Some k => (true, after (S k) w)
         | None => (false, after (S n) w)
         end.
Proof.
  induction n as [|n IH]; intros fuel t w HL Ht Ht0 Hf;
    (destruct fuel as [|fuel]; [lia|]);
    cbn [poll_while]; rewrite (rx_S _ w), !after_S;
    destruct (SD_ReceiveByteSPI w) as [b w'] eqn:E; cbn [fst snd find_first];
    (destruct (cond b); cbn [negb]; [|rewrite after_S, E; reflexivity]).
  - destruct (Z.gtb_spec t limit); [|lia]. reflexivity.
  - destruct (Z.gtb_spec t limit); [lia|].
    replace (u16 (t + 1)) with (t + 1)
      by (unfold u16; symmetry; apply Z.mod_small; lia).
    rewrite (IH fuel (t + 1) w') by lia.
    destruct (find_first _ (rx (S n) w')) as [k|]; cbn [option_map];
      rewrite ?after_S, ?E; reflexivity.
Qed.

(** The [do ... while] wait for a data response token started with the
    counter at [t] accepts a valid token among the next [limit + 1 - t]
    bytes; failing that it takes one more byte and returns. *)
Lemma poll_token_spec (limit : Z) (m : nat) :
  forall (fuel : nat) (t : Z) (w : Wire),
  limit <= 65534 -> t = limit + 1 - Z.of_nat m -> 0 <= t -> (m < fuel)%nat ->
  poll_token limit fuel t w =
    Some match find_first valid_response (rx m w) with
         | Some k => (Some (nth k (rx m w) x00), after (S k) w)
         | None => (None, after (S m) w)
         end.
Proof.
  induction m as [|m IH]; intros fuel t w HL Ht Ht0 Hf;
    (destruct fuel as [|fuel]; [lia|]); cbn [poll_token].
  - rewrite after_S. destruct (SD_ReceiveByteSPI w) as [b w'].
    destruct (Z.gtb_spec t limit); [|lia]. reflexivity.
  - rewrite (rx_S m w), (after_S (S m) w).
    destruct (SD_ReceiveByteSPI w) as [b w'] eqn:E.
    cbn [fst snd find_first nth].
    destruct (Z.gtb_spec t limit); [lia|].
    replace (u16 (t + 1)) with (t + 1)
      by (unfold u16; symmetry; apply Z.mod_small; lia).
    destruct (valid_response b); cbn [negb].
    + rewrite after_S, E. reflexivity.
    + rewrite (IH fuel (t + 1) w') by lia.
      destruct (find_first valid_response (rx m w')) as [k|];
        cbn [option_map nth]; rewrite ?after_S, ?E; reflexivity.
Qed.

End Waits.

(* ================================================================= *)
(** ** Writing a single block *)

Section WriteSingleBlock.
Context {Wire : Type} {SB : SpiBase Wire} {SF : SdFlags} {WF : SdWriteFlags}
        {RL : RweLimits}.

Lemma send_bytes_frame (token : byte) (data : list byte) (w : Wire) :
  SD_SendByteSPI xff
    (SD_SendByteSPI xff
       (send_bytes (slice data 0 BLOCK_LEN) (SD_SendByteSPI token w)))
  = write_frame token data w.
Proof. reflexivity. Qed.

(** X1 (WriteSingleBlock, both revisions): what the function returns for
    every R1 response and every byte stream of the card.  A non-zero R1
    gives [R1_ERROR | r1]; no valid data response token within the bounded
    poll gives [DATA_RESPONSE_TIMEOUT | r1]; a token with low five bits
    [0x0B] gives [CRC_ERROR_TOKEN_RECEIVED | r1]; every other valid token,
    the write error token [0x0D] as well as [0x05], is followed by the busy
    wait and gives [DATA_ACCEPTED_TOKEN_RECEIVED | r1] or
    [CARD_BUSY_TIMEOUT | r1].  Chip select is high on every return: the
    closing return of [INVALID_DATA_RESPONSE], which has no CS_HIGH, and
    the return of [WRITE_ERROR_TOKEN_RECEIVED] are never reached. *)
Theorem WriteSingleBlock_paths (fuel : nat) (addr : Z) (data : list byte)
  (bus : Bus Wire) :
  OUT_OF_IDLE = 0 -> 0 <= TIMEOUT_LIMIT <= 16383 ->
  (Z.to_nat (4 * TIMEOUT_LIMIT + 2) < fuel)%nat ->
  let r1 := fst (cmd_r1 WRITE_BLOCK addr (wire bus)) in
  let w1 := snd (cmd_r1 WRITE_BLOCK addr (wire bus)) in
  let w2 := write_frame xfe data w1 in
  let outcome (polls busy : nat) :=
    if byteZ r1 =? 0 then
      match find_first valid_response (rx polls w2) with
      | None =>
          (u16 (Z.lor DATA_RESPONSE_TIMEOUT (byteZ r1)),
           mkBus true (after (S polls) w2))
      | Some k =>
          let token := nth k (rx polls w2) x00 in
          let w3 := after (S k) w2 in
          if Z.land 0x1F (byteZ token) =? 0x0B then
            (u16 (Z.lor CRC_ERROR_TOKEN_RECEIVED (byteZ r1)), mkBus true w3)
          else
            match find_ready (rx busy w3) with
            | Some j =>
                (u16 (Z.lor DATA_ACCEPTED_TOKEN_RECEIVED (byteZ r1)),
                 mkBus true (after (S j) w3))
            | None =>
                (u16 (Z.lor CARD_BUSY_TIMEOUT (byteZ r1)),
                 mkBus true (after busy w3))
            end
      end
    else (u16 (Z.lor R1_ERROR (byteZ r1)), mkBus true w1) in
  SD_WriteSingleBlock addr data bus = Some (outcome 255%nat 513%nat) /\
  sd_WriteSingleBlock fuel addr data bus =
    Some (outcome (Z.to_nat (TIMEOUT_LIMIT + 1))
                  (Z.to_nat (4 * TIMEOUT_LIMIT + 2))).
Proof.
  intros Hidle HL Hf r1 w1 w2 outcome. subst outcome r1 w1 w2.
  unfold SD_WriteSingleBlock, sd_WriteSingleBlock, cmd_r1.
  destruct (SD_GetR1 _) as [r1 w1]. cbn [fst snd]. rewrite Hidle.
  pose proof (byteZ_range r1) as Hr.
  rewrite !send_bytes_frame. set (w2 := write_frame xfe data w1).
  destruct (Z.eqb_spec (byteZ r1) 0) as [Hz|Hnz]; cbn [negb].
  2:{ destruct (Z.gtb_spec (byteZ r1) 0); [|lia]. split; reflexivity. }
  destruct (Z.gtb_spec (byteZ r1) 0); [lia|].
  split.
  - rewrite (poll_token_spec 0xFE 255) by lia.
    destruct (find_first valid_response (rx 255 w2)) as [k|] eqn:Ek;
      [|reflexivity].
    destruct (find_first_bound _ _ _ Ek) as [_ Hv].
    destruct (response_dispatch _ Hv) as [Ha Hc]. rewrite Ha, <- Hc.
    destruct (Z.land 31 (byteZ (nth k (rx 255 w2) x00)) =? 11);
      cbn [negb]; [reflexivity|].
    rewrite (poll_while_spec is_busy 0x1FF 512) by lia.
    rewrite <- find_ready_first.
    destruct (find_ready _) as [j|]; reflexivity.
  - rewrite (poll_token_spec TIMEOUT_LIMIT (Z.to_nat (TIMEOUT_LIMIT + 1)))
      by lia.
    destruct (find_first valid_response _) as [k|] eqn:Ek.
    2:{ reflexivity. }
    destruct (find_first_bound _ _ _ Ek) as [_ Hv].
    destruct (response_dispatch _ Hv) as [Ha Hc]. rewrite Ha, <- Hc.
    destruct (Z.land 31 (byteZ (nth k _ x00)) =? 11);
      cbn [negb]; [reflexivity|].
    rewrite (poll_while_spec is_busy (4 * TIMEOUT_LIMIT)
               (Z.to_nat (4 * TIMEOUT_LIMIT + 1))) by lia.
    rewrite <- find_ready_first.
    replace (S (Z.to_nat (4 * TIMEOUT_LIMIT + 1)))
      with (Z.to_nat (4 * TIMEOUT_LIMIT + 2)) by lia.
    destruct (find_ready _) as [j|]; reflexivity.
Qed.

End WriteSingleBlock.

(** X1 on the scripted card: a block accepted after one busy byte, and a
    write error token that is reported as data accepted. *)
Lemma WriteSingleBlock_paths_witness :
  SD_WriteSingleBlock (SB := ScriptedCard) (SF := demo_flags)
    (WF := demo_write_flags) 7 host_array (mkBus true card_accepts_write)
  = Some (DATA_ACCEPTED_TOKEN_RECEIVED (SdWriteFlags := demo_write_flags),
          mkBus true []) /\
  sd_WriteSingleBlock (SB := ScriptedCard) (SF := demo_flags)
    (WF := demo_write_flags) (RL := demo_limits) 2000 7 host_array
    (mkBus true card_write_error)
  = Some (DATA_ACCEPTED_TOKEN_RECEIVED (SdWriteFlags := demo_write_flags),
          mkBus true []).
Proof.
  split.
  - pose proof (WriteSingleBlock_paths (SB := ScriptedCard)
                  (SF := demo_flags) (WF := demo_write_flags)
                  (RL := demo_limits) 2000 7 host_array
                  (mkBus true card_accepts_write)) as W.
    destruct W as [W _]; [reflexivity | cbn; lia | cbn; lia | ].
    rewrite W. vm_compute. reflexivity.
  - pose proof (WriteSingleBlock_paths (SB := ScriptedCard)
                  (SF := demo_flags) (WF := demo_write_flags)
                  (RL := demo_limits) 2000 7 host_array
                  (mkBus true card_write_error)) as W.
    destruct W as [_ W]; [reflexivity | cbn; lia | cbn; lia | ].
    rewrite W. vm_compute. reflexivity.
Defined.

(* ================================================================= *)
(** ** The count of well written blocks *)

Section WellWrittenBlocks.
Context {Wire : Type} {SB : SpiBase Wire} {SF : SdFlags} {WF : SdWriteFlags}.

(** X2 (SD_GetNumberOfWellWrittenBlocks): a non-zero R1 to CMD55 or to
    ACMD22 gives [R1_ERROR | r1] (ACMD22 is not sent after a rejected
    CMD55); when no Start Block Token is among the first 1299 bytes the
    code is [START_TOKEN_TIMEOUT | r1]; in these cases the count is left
    as it was.  Otherwise the count is the value of the four bytes after
    the token, most significant byte first, two more bytes are taken, and
    the code is [READ_SUCCESS].  Chip select is high on every return. *)
Theorem GetNumberOfWellWrittenBlocks_paths (count0 : Z) (bus : Bus Wire) :
  let r55 := fst (cmd_r1 APP_CMD 0 (wire bus)) in
  let wa := snd (cmd_r1 APP_CMD 0 (wire bus)) in
  let r22 := fst (cmd_r1 SEND_NUM_WR_BLOCKS 0 wa) in
  let wb := snd (cmd_r1 SEND_NUM_WR_BLOCKS 0 wa) in
  SD_GetNumberOfWellWrittenBlocks count0 bus =
    Some (if byteZ r55 =? 0 then
            if byteZ r22 =? 0 then
              match find_token (rx 1299 wb) with
              | None =>
                  (u16 (Z.lor START_TOKEN_TIMEOUT (byteZ r22)), count0,
                   mkBus true (after 1299 wb))
              | Some k =>
                  (u16 READ_SUCCESS, be32 (rx 4 (after (S k) wb)),
                   mkBus true (after 6 (after (S k) wb)))
              end
            else (u16 (Z.lor R1_ERROR (byteZ r22)), count0, mkBus true wb)
          else (u16 (Z.lor R1_ERROR (byteZ r55)), count0, mkBus true wa)).
Proof.
  intros r55 wa r22 wb. subst r55 wa r22 wb.
  unfold SD_GetNumberOfWellWrittenBlocks, cmd_r1.
  destruct (SD_GetR1 (SD_SendCommand APP_CMD 0 (wire bus))) as [r55 wa].
  cbn [fst snd]. pose proof (byteZ_range r55).
  destruct (Z.eqb_spec (byteZ r55) 0);
    (destruct (Z.gtb_spec (byteZ r55) 0); try lia); [|reflexivity].
  destruct (SD_GetR1 (SD_SendCommand SEND_NUM_WR_BLOCKS 0 wa)) as [r22 wb].
  cbn [fst snd]. pose proof (byteZ_range r22).
  destruct (Z.eqb_spec (byteZ r22) 0);
    (destruct (Z.gtb_spec (byteZ r22) 0); try lia); [|reflexivity].
  rewrite (poll_while_spec not_token 0x511 1298) by lia.
  rewrite <- find_token_first.
  destruct (find_token (rx 1299 wb)) as [k|]; [|reflexivity].
  set (w3 := after (S k) wb).
  unfold be32. rewrite !rx_S, !after_S. cbn [nth fst snd].
  destruct (SD_ReceiveByteSPI w3) as [b0 w4]. cbn [fst snd].
  destruct (SD_ReceiveByteSPI w4) as [b1 w5]. cbn [fst snd].
  destruct (SD_ReceiveByteSPI w5) as [b2 w6]. cbn [fst snd].
  destruct (SD_ReceiveByteSPI w6) as [b3 w7]. cbn [fst snd].
  rewrite assemble32 by apply byteZ_range.
  rewrite !after_S. unfold after. cbn [recv_n snd].
  destruct (SD_ReceiveByteSPI w7) as [b4 w8]. cbn [fst snd].
  destruct (SD_ReceiveByteSPI w8) as [b5 w9]. cbn [fst snd].
  do 2 f_equal. f_equal. lia.
Qed.

End WellWrittenBlocks.

(* ================================================================= *)
(** ** Writing multiple blocks *)

Section WriteMultipleBlocks.
Context {Wire : Type} {SB : SpiBase Wire} {SF : SdFlags} {WF : SdWriteFlags}.

(** The first pass of the loop over the blocks, up to the data response
    token. *)
Lemma write_blocks_first (n : Z) (data : list byte) (r1 : byte) (w1 : Wire) :
  1 <= n ->
  write_blocks (Z.to_nat 32768) 0 n data r1 CS_LOW None w1 =
    let w2 := write_frame xfc data w1 in
    match find_first valid_response (rx 256 w2) with
    | None =>
        BlocksReturn (u16 (Z.lor DATA_RESPONSE_TIMEOUT (byteZ r1))) CS_HIGH
                     (after 257 w2)
    | Some k =>
        let token := nth k (rx 256 w2) x00 in
        let w3 := after (S k) w2 in
        if Z.land 0x1F (byteZ token) =? 0x0B
        then BlocksDone (Some CRC_ERROR_TOKEN_RECEIVED) w3
        else
          match find_ready (rx 513 w3) with
          | None =>
              BlocksReturn (u16 (Z.lor CARD_BUSY_TIMEOUT (byteZ r1))) CS_LOW
                           (after 513 w3)
          | Some j =>
              write_blocks (Z.to_nat 32767) 1 n data r1 CS_LOW
                (Some DATA_ACCEPTED_TOKEN_RECEIVED) (after (S j) w3)
          end
    end.
Proof.
  intros Hn. replace (Z.to_nat 32768) with (S (Z.to_nat 32767)) by lia.
  cbn [write_blocks]. destruct (Z.ltb_spec 0 n); [|lia].
  rewrite send_bytes_frame. cbv zeta. set (w2 := write_frame xfc data w1).
  rewrite (poll_token_spec 0xFF 256) by lia.
  destruct (find_first valid_response (rx 256 w2)) as [k|] eqn:Ek;
    [|reflexivity].
  destruct (find_first_bound _ _ _ Ek) as [_ Hv].
  destruct (response_dispatch _ Hv) as [Ha Hc]. rewrite Ha, <- Hc.
  destruct (Z.land 31 (byteZ (nth k (rx 256 w2) x00)) =? 11);
    cbn [negb]; [reflexivity|].
  rewrite (poll_while_spec is_busy 511 512) by lia.
  rewrite <- find_ready_first.
  destruct (find_ready _) as [j|]; reflexivity.
Qed.

(** X3 (SD_WriteMultipleBlocks): when the card accepts the first block and
    then stays busy for the 513 polls of the wait inside the loop, the
    function returns [CARD_BUSY_TIMEOUT | r1] with chip select still
    asserted (low). *)
Theorem WriteMultipleBlocks_busy_timeout_leaves_cs_low (addr n : Z)
  (data : list byte) (bus : Bus Wire) (k : nat) :
  let r1 := fst (cmd_r1 WRITE_MULTIPLE_BLOCK addr (wire bus)) in
  let w1 := snd (cmd_r1 WRITE_MULTIPLE_BLOCK addr (wire bus)) in
  let w2 := write_frame xfc data w1 in
  byteZ r1 = 0 -> 1 <= n ->
  find_first valid_response (rx 256 w2) = Some k ->
  Z.land 0x1F (byteZ (nth k (rx 256 w2) x00)) <> 0x0B ->
  find_ready (rx 513 (after (S k) w2)) = None ->
  SD_WriteMultipleBlocks addr n data bus =
    Some (u16 (Z.lor CARD_BUSY_TIMEOUT (byteZ r1)),
          mkBus false (after 513 (after (S k) w2))).
Proof.
  intros r1 w1 w2 Hr Hn Hk Htok Hbusy. subst r1 w1 w2.
  unfold SD_WriteMultipleBlocks, cmd_r1 in *.
  destruct (SD_GetR1 _) as [r1 w1]. cbn [fst snd] in *.
  rewrite Hr. cbn [Z.gtb Z.compare Z.eqb].
  rewrite write_blocks_first by exact Hn. cbv zeta.
  rewrite Hk. apply Z.eqb_neq in Htok. rewrite Htok, Hbusy, ?Hr.
  reflexivity.
Qed.

(** X4 (SD_WriteMultipleBlocks): a CRC error token in answer to the first
    block ends the loop whatever the number of blocks; the Stop
    Transmission Token [0xFD] is sent, the card is waited for, and the code
    returned is [CRC_ERROR_TOKEN_RECEIVED] alone (the R1 response is not
    or-ed in), with chip select high. *)
Theorem WriteMultipleBlocks_crc_error_stops (addr n : Z) (data : list byte)
  (bus : Bus Wire) (k j : nat) :
  let r1 := fst (cmd_r1 WRITE_MULTIPLE_BLOCK addr (wire bus)) in
  let w1 := snd (cmd_r1 WRITE_MULTIPLE_BLOCK addr (wire bus)) in
  let w2 := write_frame xfc data w1 in
  let w4 := SD_SendByteSPI xfd (after (S k) w2) in
  byteZ r1 = 0 -> 1 <= n ->
  find_first valid_response (rx 256 w2) = Some k ->
  Z.land 0x1F (byteZ (nth k (rx 256 w2) x00)) = 0x0B ->
  find_ready (rx 513 w4) = Some j ->
  SD_WriteMultipleBlocks addr n data bus =
    Some (u16 CRC_ERROR_TOKEN_RECEIVED, mkBus true (after (S j) w4)).
Proof.
  intros r1 w1 w2 w4 Hr Hn Hk Htok Hready. subst r1 w1 w2 w4.
  unfold SD_WriteMultipleBlocks, cmd_r1 in *.
  destruct (SD_GetR1 _) as [r1 w1]. cbn [fst snd] in *.
  rewrite Hr. cbn [Z.gtb Z.compare Z.eqb].
  rewrite write_blocks_first by exact Hn. cbv zeta.
  rewrite Hk, Htok. cbn [Z.eqb Pos.eqb].
  rewrite (poll_while_spec is_busy 511 512) by lia.
  rewrite <- find_ready_first, Hready. reflexivity.
Qed.

End WriteMultipleBlocks.

(** X3 on the scripted card. *)
Lemma WriteMultipleBlocks_busy_timeout_leaves_cs_low_witness :
  SD_WriteMultipleBlocks (SB := ScriptedCard) (SF := demo_flags)
    (WF := demo_write_flags) 0 3 host_array (mkBus true card_busy_after_block)
  = Some (CARD_BUSY_TIMEOUT (SdWriteFlags := demo_write_flags),
          mkBus false []).
Proof.
  pose proof (WriteMultipleBlocks_busy_timeout_leaves_cs_low
                (SB := ScriptedCard) (SF := demo_flags)
                (WF := demo_write_flags) 0 3 host_array
                (mkBus true card_busy_after_block) 0) as W.
  rewrite W.
  - vm_compute. reflexivity.
  - reflexivity.
  - lia.
  - vm_compute. reflexivity.
  - vm_compute. discriminate.
  - vm_compute. reflexivity.
Defined.

(** X4 on the scripted card: three blocks were asked for, one was sent. *)
Lemma WriteMultipleBlocks_crc_error_stops_witness :
  SD_WriteMultipleBlocks (SB := ScriptedCard) (SF := demo_flags)
    (WF := demo_write_flags) 0 3 host_array (mkBus true card_crc_error)
  = Some (CRC_ERROR_TOKEN_RECEIVED (SdWriteFlags := demo_write_flags),
          mkBus true []).
Proof.
  pose proof (WriteMultipleBlocks_crc_error_stops
                (SB := ScriptedCard) (SF := demo_flags)
                (WF := demo_write_flags) 0 3 host_array
                (mkBus true card_crc_error) 0 1) as W.
  rewrite W.
  - vm_compute. reflexivity.
  - reflexivity.
  - lia.
  - vm_compute. reflexivity.
  - vm_compute. reflexivity.
  - vm_compute. reflexivity.
Defined.

(* ================================================================= *)
(** ** The upper byte of the returned codes *)

Lemma upper_flag_shift (f : Z) :
  upper_flag f -> exists q, 0 <= q < 256 /\ f = Z.shiftl q 8.
Proof.
  intros [Hr Hm]. exists (f / 256). split.
  - split; [apply Z.div_pos; lia | apply Z.div_lt_upper_bound; lia].
  - rewrite Z.shiftl_mul_pow2 by lia. change (2 ^ 8) with 256.
    pose proof (Z_div_exact_2 f 256 ltac:(lia) Hm). lia.
Qed.

Lemma low_byte_land (r : Z) : 0 <= r < 256 -> Z.land r 255 = r.
Proof.
  intros Hr. change 255 with (Z.ones 8). rewrite Z.land_ones by lia.
  apply Z.mod_small. exact Hr.
Qed.

Lemma upper_flag_lor (f g : Z) :
  upper_flag f -> upper_flag g -> upper_flag (Z.lor f g).
Proof.
  intros Hf Hg.
  destruct (upper_flag_shift f Hf) as (x & Hx & ->).
  destruct (upper_flag_shift g Hg) as (y & Hy & ->).
  rewrite <- Z.shiftl_lor.
  assert (Hxy : 0 <= Z.lor x y < 256).
  { rewrite <- (low_byte_land x Hx), <- (low_byte_land y Hy).
    rewrite <- Z.land_lor_distr_l. change 255 with (Z.ones 8).
    rewrite Z.land_ones by lia. apply Z.mod_pos_bound. lia. }
  rewrite Z.shiftl_mul_pow2 by lia. change (2 ^ 8) with 256.
  split; [lia|]. apply Z.mod_mul. lia.
Qed.

(** Masking a returned code with [0xFF00] gives back the flag that was
    or-ed with the R1 response. *)
Lemma code_upper_byte (f r : Z) :
  upper_flag f -> 0 <= r < 256 -> Z.land (u16 (Z.lor f r)) 0xFF00 = f.
Proof.
  intros Hf Hr. destruct (upper_flag_shift f Hf) as (q & Hq & ->).
  rewrite lor_shl8 by lia.
  unfold u16. rewrite Z.mod_small by lia.
  rewrite <- lor_shl8 by lia.
  rewrite Z.land_lor_distr_l.
  change 65280 with (Z.shiftl 255 8). rewrite <- Z.shiftl_land.
  rewrite (low_byte_land q Hq).
  rewrite <- (low_byte_land r Hr), <- Z.land_assoc.
  change (Z.land 255 (Z.shiftl 255 8)) with 0.
  rewrite Z.land_0_r. apply Z.lor_0_r.
Qed.

Lemma code_upper_byte_flag (f : Z) :
  upper_flag f -> Z.land (u16 f) 0xFF00 = f.
Proof.
  intros Hf. rewrite <- (Z.lor_0_r f) at 1. apply code_upper_byte; [exact Hf|lia].
Qed.

(* ================================================================= *)
(** ** Reading a block and printing its code *)

Section ReadAndPrint.
Context {Wire : Type} {SB : SpiBase Wire} {SF : SdFlags} {WF : SdWriteFlags}
        {RL : RweLimits}.

(** X5 (SD_ReadSingleBlock with SD_PrintReadError): when the three flags
    of the read codes are distinct values of the upper byte, the text
    printed for the code of a read names the path the read took:
    R1 ERROR when the card rejected CMD17, START TOKEN TIMEOUT when no
    Start Block Token came within the 255 polls, READ SUCCESS otherwise.
    The R1 response in the lower byte never changes the text. *)
Theorem PrintReadError_names_read_path (lba : Z) (block : list byte)
  (bus : Bus Wire) :
  upper_flag R1_ERROR -> upper_flag READ_SUCCESS ->
  upper_flag START_TOKEN_TIMEOUT ->
  R1_ERROR <> READ_SUCCESS -> R1_ERROR <> START_TOKEN_TIMEOUT ->
  READ_SUCCESS <> START_TOKEN_TIMEOUT ->
  let r1 := fst (cmd17 lba bus) in
  let w1 := snd (cmd17 lba bus) in
  option_map (fun r => SD_PrintReadError (fst (fst r)))
    (SD_ReadSingleBlock lba block bus) =
  Some ([x0a; x0d] ++
        (if byteZ r1 =? 0 then
           match find_token (rx 255 w1) with
           | None => str " START TOKEN TIMEOUT"
           | Some _ => str " READ SUCCESS"
           end
         else str " R1 ERROR")).
Proof.
  intros HR HS HT Hrs Hrt Hst r1 w1.
  rewrite SD_ReadSingleBlock_eq. cbv zeta. fold r1 w1. cbn [option_map].
  f_equal. pose proof (byteZ_range r1) as Hr.
  unfold SD_PrintReadError.
  destruct (byteZ r1 =? 0).
  - destruct (find_token (rx 255 w1)) as [k|]; cbn [fst];
      rewrite code_upper_byte by assumption.
    + destruct (Z.eqb_spec READ_SUCCESS R1_ERROR); [congruence|].
      rewrite Z.eqb_refl. reflexivity.
    + destruct (Z.eqb_spec START_TOKEN_TIMEOUT R1_ERROR); [congruence|].
      destruct (Z.eqb_spec START_TOKEN_TIMEOUT READ_SUCCESS); [congruence|].
      rewrite Z.eqb_refl. reflexivity.
  - cbn [fst]. rewrite code_upper_byte by assumption.
    rewrite Z.eqb_refl. reflexivity.
Qed.

(** X7 (the two revisions of ReadSingleBlock): with [OUT_OF_IDLE = 0] and
    [TIMEOUT_LIMIT = 0xFE] the later revision returns the same code and
    the same array as the earlier one, for every R1 response and every
    byte stream of the card. *)
Theorem ReadSingleBlock_revisions_agree (fuel : nat) (lba : Z)
  (block : list byte) (bus : Bus Wire) :
  OUT_OF_IDLE = 0 -> TIMEOUT_LIMIT = 0xFE -> (254 < fuel)%nat ->
  option_map fst (sd_ReadSingleBlock fuel lba block bus) =
  option_map fst (SD_ReadSingleBlock lba block bus).
Proof.
  intros Hidle HL Hf.
  rewrite SD_ReadSingleBlock_eq, (sd_ReadSingleBlock_eq fuel)
    by (rewrite ?HL; try assumption; lia).
  cbv zeta. rewrite HL. change (S (Z.to_nat 254)) with 255%nat.
  destruct (byteZ (fst (cmd17 lba bus)) =? 0); [|reflexivity].
  destruct (find_token (rx 255 (snd (cmd17 lba bus))));
    cbn [option_map fst]; reflexivity.
Qed.

End ReadAndPrint.

(** X5 on the scripted card: a rejected command. *)
Lemma PrintReadError_names_read_path_witness :
  option_map (fun r => SD_PrintReadError (SF := demo_flags) (fst (fst r)))
    (SD_ReadSingleBlock (SB := ScriptedCard) (SF := demo_flags)
       7 host_array (mkBus true card_rejects))
  = Some ([x0a; x0d] ++ str " R1 ERROR").
Proof.
  pose proof (PrintReadError_names_read_path (SB := ScriptedCard)
                (SF := demo_flags) 7 host_array
                (mkBus true card_rejects)) as W.
  rewrite W.
  - vm_compute. reflexivity.
  - split; [cbn; lia | reflexivity].
  - split; [cbn; lia | reflexivity].
  - split; [cbn; lia | reflexivity].
  - cbn; lia.
  - cbn; lia.
  - cbn; lia.
Defined.

(** X7 on the scripted card. *)
Lemma ReadSingleBlock_revisions_agree_witness :
  option_map fst
    (sd_ReadSingleBlock (SB := ScriptedCard) (SF := demo_flags)
       (RL := demo_limits) 300 7 host_array (mkBus true card_reads))
  = Some (0, card_block).
Proof.
  pose proof (ReadSingleBlock_revisions_agree (SB := ScriptedCard)
                (SF := demo_flags) (RL := demo_limits)
                300 7 host_array (mkBus true card_reads)) as W.
  rewrite W.
  - vm_compute. reflexivity.
  - reflexivity.
  - reflexivity.
  - lia.
Defined.

(* ================================================================= *)
(** ** Erasing blocks: every path, and the text printed for its code *)

Section EraseAndPrint.
Context {Wire : Type} {SB : SpiBase Wire} {SF : SdFlags} {WF : SdWriteFlags}
        {RL : RweLimits}.

(** X6 (EraseBlocks, both revisions): the commands CMD32, CMD33 and CMD38
    are issued in this order and a command is only issued when the ones
    before it were accepted; the first rejected command ends the call with
    its own flag or-ed with [R1_ERROR] and its R1 response, chip select
    high.  When all three are accepted the card is polled: the first byte
    that is not [0x00] ends the call with [ERASE_SUCCESSFUL], chip select
    high, and nothing more is read; a card that stays busy for all the
    polls gives [ERASE_BUSY_TIMEOUT | r1]. *)
Theorem EraseBlocks_paths (fuel : nat) (s e : Z) (bus : Bus Wire) :
  OUT_OF_IDLE = 0 -> 0 <= TIMEOUT_LIMIT <= 16383 ->
  (Z.to_nat (4 * TIMEOUT_LIMIT + 1) < fuel)%nat ->
  let r32 := fst (cmd_r1 ERASE_WR_BLK_START_ADDR s (wire bus)) in
  let wa := snd (cmd_r1 ERASE_WR_BLK_START_ADDR s (wire bus)) in
  let r33 := fst (cmd_r1 ERASE_WR_BLK_END_ADDR e wa) in
  let wb := snd (cmd_r1 ERASE_WR_BLK_END_ADDR e wa) in
  let r38 := fst (cmd_r1 ERASE 0 wb) in
  let wc := snd (cmd_r1 ERASE 0 wb) in
  let outcome (polls : nat) :=
    if negb (byteZ r32 =? 0) then
      (u16 (Z.lor (Z.lor SET_ERASE_START_ADDR_ERROR R1_ERROR) (byteZ r32)),
       mkBus true wa)
    else if negb (byteZ r33 =? 0) then
      (u16 (Z.lor (Z.lor SET_ERASE_END_ADDR_ERROR R1_ERROR) (byteZ r33)),
       mkBus true wb)
    else if negb (byteZ r38 =? 0) then
      (u16 (Z.lor (Z.lor ERASE_ERROR R1_ERROR) (byteZ r38)), mkBus true wc)
    else
      match find_ready (rx polls wc) with
      | Some j => (u16 ERASE_SUCCESSFUL, mkBus true (after (S j) wc))
      | None =>
          (u16 (Z.lor ERASE_BUSY_TIMEOUT (byteZ r38)),
           mkBus false (after polls wc))
      end in
  SD_EraseBlocks s e bus = Some (outcome (Z.to_nat 65536)) /\
  sd_EraseBlocks fuel s e bus =
    Some (outcome (Z.to_nat (4 * TIMEOUT_LIMIT + 2))).
Proof.
  intros Hidle HL Hf r32 wa r33 wb r38 wc outcome.
  subst outcome r32 wa r33 wb r38 wc.
  unfold SD_EraseBlocks, sd_EraseBlocks, cmd_r1. rewrite Hidle.
  destruct (SD_GetR1 (SD_SendCommand ERASE_WR_BLK_START_ADDR s (wire bus)))
    as [a wa]. cbn [fst snd]. pose proof (byteZ_range a).
  destruct (Z.eqb_spec (byteZ a) 0); cbn [negb];
    (destruct (Z.gtb_spec (byteZ a) 0); try lia); [|split; reflexivity].
  destruct (SD_GetR1 (SD_SendCommand ERASE_WR_BLK_END_ADDR e wa)) as [b wb].
  cbn [fst snd]. pose proof (byteZ_range b).
  destruct (Z.eqb_spec (byteZ b) 0); cbn [negb];
    (destruct (Z.gtb_spec (byteZ b) 0); try lia); [|split; reflexivity].
  destruct (SD_GetR1 (SD_SendCommand ERASE 0 wb)) as [c wc].
  cbn [fst snd]. pose proof (byteZ_range c).
  destruct (Z.eqb_spec (byteZ c) 0); cbn [negb];
    (destruct (Z.gtb_spec (byteZ c) 0); try lia); [|split; reflexivity].
  split.
  - rewrite (wait_erase_spec (Z.to_nat 65535)) by lia.
    replace (S (Z.to_nat 65535)) with (Z.to_nat 65536) by lia.
    destruct (find_ready _); reflexivity.
  - rewrite (sd_wait_erase_spec (Z.to_nat (4 * TIMEOUT_LIMIT + 1))) by lia.
    replace (S (Z.to_nat (4 * TIMEOUT_LIMIT + 1)))
      with (Z.to_nat (4 * TIMEOUT_LIMIT + 2)) by lia.
    destruct (find_ready _); reflexivity.
Qed.

(** X8 (SD_EraseBlocks with SD_PrintEraseError): when [R1_ERROR] is a
    non-zero flag of the upper byte that shares no bit with the five flags
    of the erase codes, the code returned for a rejected CMD32, CMD33 or
    CMD38 carries two flags, so that [SD_PrintEraseError] prints
    UNKNOWN RESPONSE for it: the command that failed is never named. *)
Theorem PrintEraseError_rejected_command_unknown (s e : Z) (bus : Bus Wire) :
  upper_flag R1_ERROR -> R1_ERROR <> 0 ->
  upper_flag SET_ERASE_START_ADDR_ERROR ->
  upper_flag SET_ERASE_END_ADDR_ERROR -> upper_flag ERASE_ERROR ->
  Z.land ERASE_SUCCESSFUL R1_ERROR = 0 ->
  Z.land SET_ERASE_START_ADDR_ERROR R1_ERROR = 0 ->
  Z.land SET_ERASE_END_ADDR_ERROR R1_ERROR = 0 ->
  Z.land ERASE_ERROR R1_ERROR = 0 ->
  Z.land ERASE_BUSY_TIMEOUT R1_ERROR = 0 ->
  let r32 := fst (cmd_r1 ERASE_WR_BLK_START_ADDR s (wire bus)) in
  let wa := snd (cmd_r1 ERASE_WR_BLK_START_ADDR s (wire bus)) in
  let r33 := fst (cmd_r1 ERASE_WR_BLK_END_ADDR e wa) in
  let wb := snd (cmd_r1 ERASE_WR_BLK_END_ADDR e wa) in
  let r38 := fst (cmd_r1 ERASE 0 wb) in
  byteZ r32 <> 0 \/ byteZ r33 <> 0 \/ byteZ r38 <> 0 ->
  option_map (fun r => SD_PrintEraseError (fst r)) (SD_EraseBlocks s e bus)
  = Some ([x0a; x0d] ++ str " UNKNOWN RESPONSE").
Proof.
  intros HR HR0 HS HE HX D0 D1 D2 D3 D4 r32 wa r33 wb r38 Hrej.
  assert (Hsel : forall f r, upper_flag f -> 0 <= r < 256 ->
            SD_PrintEraseError (u16 (Z.lor (Z.lor f R1_ERROR) r))
            = [x0a; x0d] ++ str " UNKNOWN RESPONSE").
  { intros f r Hf Hr. unfold SD_PrintEraseError.
    rewrite code_upper_byte by (try apply upper_flag_lor; assumption).
    assert (Hne : forall g, Z.land g R1_ERROR = 0 -> Z.lor f R1_ERROR <> g).
    { intros g Hg Heq. rewrite <- Heq in Hg.
      rewrite Z.land_comm, Z.lor_comm, Z.land_lor_distr_r in Hg.
      rewrite Z.land_diag in Hg.
      apply Z.lor_eq_0_iff in Hg. tauto. }
    repeat match goal with
    | |- context [Z.lor f R1_ERROR =? ?g] =>
        destruct (Z.eqb_spec (Z.lor f R1_ERROR) g) as [Heq|_];
          [exfalso; revert Heq; apply Hne; assumption|]
    end. reflexivity. }
  unfold SD_EraseBlocks. subst r32 wa r33 wb r38. unfold cmd_r1 in Hrej.
  destruct (SD_GetR1 (SD_SendCommand ERASE_WR_BLK_START_ADDR s (wire bus)))
    as [a wa]. cbn [fst snd] in Hrej. pose proof (byteZ_range a).
  destruct (Z.gtb_spec (byteZ a) 0);
    [cbn [option_map fst]; rewrite Hsel by assumption; reflexivity|].
  destruct (SD_GetR1 (SD_SendCommand ERASE_WR_BLK_END_ADDR e wa)) as [b wb].
  cbn [fst snd] in Hrej. pose proof (byteZ_range b).
  destruct (Z.gtb_spec (byteZ b) 0);
    [cbn [option_map fst]; rewrite Hsel by assumption; reflexivity|].
  destruct (SD_GetR1 (SD_SendCommand ERASE 0 wb)) as [c wc].
  cbn [fst snd] in Hrej. pose proof (byteZ_range c).
  destruct (Z.gtb_spec (byteZ c) 0);
    [cbn [option_map fst]; rewrite Hsel by assumption; reflexivity|].
  lia.
Qed.

End EraseAndPrint.

(** X6 on the scripted card: CMD32 is rejected with R1 [0x04]; nothing
    after the response is taken from the card. *)
Lemma EraseBlocks_paths_witness :
  SD_EraseBlocks (SB := ScriptedCard) (SF := demo_flags)
    0 9 (mkBus true (card_rejects ++ [x00; x00]))
  = Some (0x8104, mkBus true [x00; x00]).
Proof.
  pose proof (EraseBlocks_paths (SB := ScriptedCard) (SF := demo_flags)
                (RL := demo_limits) 2000 0 9
                (mkBus true (card_rejects ++ [x00; x00]))) as W.
  destruct W as [W _]; [reflexivity | cbn; lia | cbn; lia | ].
  rewrite W. vm_compute. reflexivity.
Defined.

(** X8 on the scripted card, with the flags [0x8000] and [0x0100]. *)
Lemma PrintEraseError_rejected_command_unknown_witness :
  option_map (fun r => SD_PrintEraseError (SF := demo_flags) (fst r))
    (SD_EraseBlocks (SB := ScriptedCard) (SF := demo_flags)
       0 9 (mkBus true card_rejects))
  = Some ([x0a; x0d] ++ str " UNKNOWN RESPONSE").
Proof.
  apply (PrintEraseError_rejected_command_unknown (SB := ScriptedCard)
           (SF := demo_flags) 0 9 (mkBus true card_rejects)).
  - split; [cbn; lia | reflexivity].
  - cbn; lia.
  - split; [cbn; lia | reflexivity].
  - split; [cbn; lia | reflexivity].
  - split; [cbn; lia | reflexivity].
  - reflexivity.
  - reflexivity.
  - reflexivity.
  - reflexivity.
  - reflexivity.
  - left. vm_compute. discriminate.
Defined.

(* ================================================================= *)
(** ** The FAT lookup *)

Section NextCluster.
Context {D : FatToSd}.

(** X9 (pvt_GetNextCluster): with 512-byte sectors the value returned for
    a cluster index is the 32-bit little-endian number stored at byte
    [4 * (index mod 128)] of sector [index / 128 + reservedSectorCount].
    All 32 bits are returned, and the sector number is counted from the
    reserved sector count alone. *)
Theorem GetNextCluster_reads_fat_entry (currentCluster : Z)
  (bpb : BiosParameterBlock) :
  bytesPerSector bpb = 512 ->
  pvt_GetNextCluster currentCluster bpb =
    le32 (fat_ReadSingleSector
            (u32 (currentCluster / 128 + reservedSectorCount bpb)))
         (4 * (currentCluster mod 128)).
Proof.
  intros Hbps. unfold pvt_GetNextCluster, le32. rewrite Hbps.
  change (u16 (512 / 4)) with 128.
  assert (Hm : 0 <= currentCluster mod 128 < 128)
    by (apply Z.mod_pos_bound; lia).
  replace (u32 (4 * (currentCluster mod 128)))
    with (4 * (currentCluster mod 128))
    by (unfold u32; symmetry; apply Z.mod_small; lia).
  cbv zeta. rewrite assemble32 by apply at_range.
  replace (4 * (currentCluster mod 128) + 1 + 1)
    with (4 * (currentCluster mod 128) + 2) by lia.
  reflexivity.
Qed.

End NextCluster.

(** X9 on the demo volume: cluster 2 of the root directory is followed by
    cluster 11. *)
Lemma GetNextCluster_reads_fat_entry_witness :
  pvt_GetNextCluster (D := DemoDisk) 2 demo_bpb = 11.
Proof.
  rewrite (GetNextCluster_reads_fat_entry (D := DemoDisk) 2 demo_bpb).
  - vm_compute. reflexivity.
  - reflexivity.
Defined.

(* ================================================================= *)
(** ** Reading a long name *)







Section LongNames.
Context {D : FatToSd}.



End LongNames.


(* ================================================================= *)
(** ** What the searches of a directory can end with *)

Section Searches.
Context {D : FatToSd}.

(** Takes the body of a loop over entries apart, one test at a time. *)
Ltac split_step H :=
  cbv zeta in H;
  repeat match type of H with
         | context [match ?c with _ => _ end] =>
             lazymatch c with
             | context [match _ with _ => _ end] => fail
             | _ => destruct c eqn:?
             end
         end.

Lemma cd_entry_step_found (bpb : BiosParameterBlock) (name : list byte)
  (len cluster n abs : Z) (cur : list byte) (st : LnState) (entry : Z)
  (r : Search) :
  (exists lba, cur = fat_ReadSingleSector lba) ->
  cd_entry_step bpb name len cluster n abs cur st entry = Return r ->
  found_directory r.
Proof.
  intros Hcur H. unfold cd_entry_step in H.
  split_step H; try discriminate H; injection H as <-;
    cbn [found_directory]; try exact I;
    (split; [try exact Hcur; eexists; reflexivity|]);
    repeat match goal with
           | E : _ && _ = true |- _ => apply andb_true_iff in E as [? ?]
           | E : negb _ = true |- _ => apply negb_true_iff in E
           | E : (_ =? _) = false |- _ => apply Z.eqb_neq in E
           end; assumption.
Qed.

Lemma cd_entries_found (fuel : nat) (bpb : BiosParameterBlock)
  (name : list byte) (len cluster n abs : Z) (cur : list byte) :
  (exists lba, cur = fat_ReadSingleSector lba) ->
  forall (st : LnState) (entry : Z) (r : Search),
  cd_entries fuel bpb name len cluster n abs cur st entry = Stop r ->
  found_directory r.
Proof.
  intros Hcur. induction fuel as [|fuel IH]; intros st entry r H;
    cbn [cd_entries] in H; [discriminate|].
  destruct (entry <? SECTOR_LEN); [|discriminate].
  destruct (cd_entry_step _ _ _ _ _ _ _ _ _) as [st' e'|st'|r'|] eqn:E;
    try discriminate.
  - exact (IH _ _ _ H).
  - injection H as <-. exact (cd_entry_step_found _ _ _ _ _ _ _ _ _ _ Hcur E).
Qed.

Lemma cd_sectors_found (k fuel : nat) (bpb : BiosParameterBlock)
  (name : list byte) (len cluster : Z) :
  forall (n : Z) (st : LnState) (r : Search),
  cd_sectors k fuel bpb name len cluster n st = Stop r -> found_directory r.
Proof.
  induction k as [|k IH]; intros n st r H; cbn [cd_sectors] in H;
    [discriminate|].
  destruct (cd_entries _ _ _ _ _ _ _ _ _ _) as [st'|r'|] eqn:E;
    try discriminate.
  - exact (IH _ _ _ H).
  - injection H as <-.
    apply (cd_entries_found _ _ _ _ _ _ _ _ (ex_intro _ _ eq_refl) _ _ _ E).
Qed.

Lemma cd_clusters_found (fuel0 fuel : nat) (bpb : BiosParameterBlock)
  (name : list byte) (len : Z) :
  forall (cluster : Z) (st : LnState) (r : Search),
  cd_clusters fuel0 fuel bpb name len cluster st = Some r -> found_directory r.
Proof.
  induction fuel as [|fuel IH]; intros cluster st r H; cbn [cd_clusters] in H;
    [discriminate|].
  destruct (cd_sectors _ _ _ _ _ _ _ _) as [st'|r'|] eqn:E;
    try discriminate.
  - destruct (negb _); [exact (IH _ _ _ H)|].
    injection H as <-. exact I.
  - injection H as <-. exact (cd_sectors_found _ _ _ _ _ _ _ _ _ E).
Qed.

(** X11 (FAT_SetCurrentDirectory): whenever the call returns, either the
    code is [SUCCESS] and the new cursor is the old one (for "."), the
    parent (for ".."), or the child described by a short name entry that
    was read from the disk and has its directory bit set, so that cd never
    enters a file; or the code is one of [INVALID_DIR_NAME],
    [CORRUPT_FAT_ENTRY] and [END_OF_DIRECTORY] and the cursor is as it
    was.  [DIR_NOT_FOUND] is never returned. *)
Theorem cd_outcomes (fuel : nat) (dir dir' : FatCurrentDirectory)
  (name : list byte) (bpb : BiosParameterBlock) (code : FatError) :
  FAT_SetCurrentDirectory fuel dir name bpb = Some (code, dir') ->
  (code = SUCCESS /\
   ((strcmp_eq name (str ".") = true /\ dir' = dir) \/
    (strcmp_eq name (str "..") = true /\
     pvt_SetCurrentDirectoryToParent dir bpb = Some dir') \/
    (exists lba pos,
       Z.land (at_ (fat_ReadSingleSector lba) (pos + 11))
              DIRECTORY_ENTRY_ATTR_FLAG <> 0 /\
       dir' = pvt_SetCurrentDirectoryToChild dir (fat_ReadSingleSector lba)
                pos name bpb))) \/
  (dir' = dir /\
   (code = INVALID_DIR_NAME \/ code = CORRUPT_FAT_ENTRY \/
    code = END_OF_DIRECTORY)).
Proof.
  unfold FAT_SetCurrentDirectory.
  destruct (pvt_CheckIllegalName name) as [ill|]; [|discriminate].
  destruct (negb (ill =? 0)); [intros [= <- <-]; right; auto|].
  destruct (strcmp_eq name (str ".")) eqn:Hdot;
    [intros [= <- <-]; left; auto|].
  destruct (strcmp_eq name (str "..")) eqn:Hdd.
  - destruct (pvt_SetCurrentDirectoryToParent dir bpb) as [parent|];
      [|discriminate].
    intros [= <- <-]. left. auto.
  - destruct (cd_clusters _ _ _ _ _ _ _) as [[sector pos| |]|] eqn:E;
      try discriminate; intros [= <- <-]; [|right; auto|right; auto].
    apply cd_clusters_found in E. destruct E as [[lba ->] Hattr].
    left. split; [reflexivity|]. right; right. exists lba, pos. auto.
Qed.

Lemma cat_entry_step_found (bpb : BiosParameterBlock) (name : list byte)
  (len cluster n abs : Z) (cur : list byte) (st : LnState) (entry : Z)
  (r : Search) :
  (exists lba, cur = fat_ReadSingleSector lba) ->
  cat_entry_step bpb name len cluster n abs cur st entry = Return r ->
  found_file r.
Proof.
  intros Hcur H. unfold cat_entry_step in H.
  split_step H; try discriminate H; injection H as <-;
    cbn [found_file]; try exact I;
    (split; [try exact Hcur; eexists; reflexivity|]);
    repeat match goal with
           | E : _ && _ = true |- _ => apply andb_true_iff in E as [? ?]
           | E : negb _ = true |- _ => apply negb_true_iff in E
           | E : negb _ = false |- _ => apply negb_false_iff in E
           | E : (_ =? _) = false |- _ => apply Z.eqb_neq in E
           | E : (_ =? _) = true |- _ => apply Z.eqb_eq in E
           end; split; assumption.
Qed.

Lemma cat_entries_found (fuel : nat) (bpb : BiosParameterBlock)
  (name : list byte) (len cluster n abs : Z) (cur : list byte) :
  (exists lba, cur = fat_ReadSingleSector lba) ->
  forall (st : LnState) (entry : Z) (r : Search),
  cat_entries fuel bpb name len cluster n abs cur st entry = Stop r ->
  found_file r.
Proof.
  intros Hcur. induction fuel as [|fuel IH]; intros st entry r H;
    cbn [cat_entries] in H; [discriminate|].
  destruct (entry <? bytesPerSector bpb); [|discriminate].
  destruct (cat_entry_step _ _ _ _ _ _ _ _ _) as [st' e'|st'|r'|] eqn:E;
    try discriminate.
  - exact (IH _ _ _ H).
  - injection H as <-. exact (cat_entry_step_found _ _ _ _ _ _ _ _ _ _ Hcur E).
Qed.

Lemma cat_sectors_found (k fuel : nat) (bpb : BiosParameterBlock)
  (name : list byte) (len cluster : Z) :
  forall (n : Z) (st : LnState) (r : Search),
  cat_sectors k fuel bpb name len cluster n st = Stop r -> found_file r.
Proof.
  induction k as [|k IH]; intros n st r H; cbn [cat_sectors] in H;
    [discriminate|].
  destruct (cat_entries _ _ _ _ _ _ _ _ _ _) as [st'|r'|] eqn:E;
    try discriminate.
  - exact (IH _ _ _ H).
  - injection H as <-.
    apply (cat_entries_found _ _ _ _ _ _ _ _ (ex_intro _ _ eq_refl) _ _ _ E).
Qed.

Lemma cat_clusters_found (fuel0 fuel : nat) (bpb : BiosParameterBlock)
  (name : list byte) (len : Z) :
  forall (cluster cnt : Z) (st : LnState) (r : Search),
  cat_clusters fuel0 fuel bpb name len cluster cnt st = Some r ->
  found_file r.
Proof.
  induction fuel as [|fuel IH]; intros cluster cnt st r H;
    cbn [cat_clusters] in H; [discriminate|].
  destruct (cat_sectors _ _ _ _ _ _ _ _) as [st'|r'|] eqn:E;
    try discriminate.
  - destruct (_ && _); [exact (IH _ _ _ _ H)|].
    injection H as <-. exact I.
  - injection H as <-. exact (cat_sectors_found _ _ _ _ _ _ _ _ _ E).
Qed.

(** X12 (FAT_PrintFile): whenever the call returns, either the code is
    [SUCCESS] and what was printed is the cluster chain of a short name
    entry that was read from the disk and is the entry of a file (its
    attribute byte has neither the directory bit nor the four long name
    bits set), so that a directory is never printed; or nothing was
    printed and the code is one of [INVALID_FILE_NAME],
    [INVALID_DIR_NAME], [CORRUPT_FAT_ENTRY] and [FILE_NOT_FOUND].
    [END_OF_FILE] is never returned. *)
Theorem PrintFile_outcomes (fuel : nat) (dir : FatCurrentDirectory)
  (name : list byte) (bpb : BiosParameterBlock) (code : FatError)
  (out : list byte) :
  FAT_PrintFile fuel dir name bpb = Some (code, out) ->
  (code = SUCCESS /\
   exists lba pos,
     Z.land (at_ (fat_ReadSingleSector lba) (pos + 11))
            DIRECTORY_ENTRY_ATTR_FLAG = 0 /\
     Z.land (at_ (fat_ReadSingleSector lba) (pos + 11)) LONG_NAME_ATTR_MASK
       <> LONG_NAME_ATTR_MASK /\
     pvt_PrintFatFile fuel pos (fat_ReadSingleSector lba) bpb = Some out) \/
  (out = [] /\
   (code = INVALID_FILE_NAME \/ code = INVALID_DIR_NAME \/
    code = CORRUPT_FAT_ENTRY \/ code = FILE_NOT_FOUND)).
Proof.
  unfold FAT_PrintFile.
  destruct (file_name_check name) as [flag|] eqn:Hc.
  - intros [= <- <-]. right. split; [reflexivity|].
    unfold file_name_check in Hc.
    repeat match type of Hc with
           | context [if ?c then _ else _] => destruct c
           end; try discriminate Hc; injection Hc as <-; auto.
  - destruct (cat_clusters _ _ _ _ _ _ _ _) as [[sector pos| |]|] eqn:E;
      try discriminate.
    + destruct (pvt_PrintFatFile fuel pos sector bpb) as [o|] eqn:P;
        [|discriminate].
      intros [= <- <-]. apply cat_clusters_found in E.
      destruct E as ([lba ->] & Hd & Hl).
      left. split; [reflexivity|]. exists lba, pos. auto.
    + intros [= <- <-]. right. auto.
    + intros [= <- <-]. right. auto.
Qed.

End Searches.

(** X11 on the demo volume: cd to FOOBAR enters a directory entry. *)
Lemma cd_outcomes_witness :
  exists lba pos,
    Z.land (at_ (demo_read lba) (pos + 11)) DIRECTORY_ENTRY_ATTR_FLAG <> 0 /\
    foobar_dir = pvt_SetCurrentDirectoryToChild root_dir (demo_read lba) pos
                   (str "FOOBAR") demo_bpb.
Proof.
  destruct (cd_outcomes (D := DemoDisk) 40 root_dir foobar_dir
              (str "FOOBAR") demo_bpb SUCCESS)
    as [(_ & [(A & _) | [(A & _) | W]]) | (A & _)].
  - vm_compute. reflexivity.
  - vm_compute in A. discriminate A.
  - vm_compute in A. discriminate A.
  - exact W.
  - vm_compute in A. discriminate A.
Defined.

(** X12 on the demo volume: the entry printed for F.TXT is that of a
    file. *)
Lemma PrintFile_outcomes_witness :
  exists out lba pos,
    Z.land (at_ (demo_read lba) (pos + 11)) DIRECTORY_ENTRY_ATTR_FLAG = 0 /\
    pvt_PrintFatFile (D := DemoDisk) 40 pos (demo_read lba) demo_bpb
    = Some out.
Proof.
  assert (E : {out | FAT_PrintFile (D := DemoDisk) 40 root_dir (str "F.TXT")
                       demo_bpb = Some (SUCCESS, out)})
    by (eexists; vm_compute; reflexivity).
  destruct E as [out E]. exists out.
  destruct (PrintFile_outcomes (D := DemoDisk) 40 root_dir (str "F.TXT")
              demo_bpb SUCCESS out E)
    as [(_ & lba & pos & A & _ & P) | (_ & [A | [A | [A | A]]])];
    try discriminate A.
  exists lba, pos. split; assumption.
Defined.

(* ================================================================= *)
(** ** The bound on the clusters searched by FAT_PrintFile *)

Section SearchBound.
Context {D : FatToSd}.

Lemma cat_clusters_passes (fuel0 : nat) (bpb : BiosParameterBlock)
  (name : list byte) (len : Z) (k : nat) :
  forall (fuel : nat) (cluster cnt : Z) (st : LnState),
  cnt = 4 - Z.of_nat k -> (k < fuel)%nat ->
  cat_clusters fuel0 fuel bpb name len cluster cnt st
  = cat_clusters fuel0 (S k) bpb name len cluster cnt st.
Proof.
  induction k as [|k IH]; intros fuel cluster cnt st Hc Hf;
    (destruct fuel as [|fuel]; [lia|]); cbn [cat_clusters];
    destruct (cat_sectors _ _ _ _ _ _ _ _) as [st'|r|]; try reflexivity.
  - destruct (Z.ltb_spec (cnt + 1) 5); [lia|].
    rewrite andb_false_r. reflexivity.
  - destruct (_ && _); [|reflexivity].
    apply IH; lia.
Qed.

(** X13 (FAT_PrintFile): the loop over the clusters of the directory that
    is searched makes at most five passes, whatever the chain in the FAT:
    allowing it more passes than five never changes what it ends with.
    An entry in a sixth or later cluster of a directory is not reached. *)
Theorem PrintFile_search_stops_after_five_clusters (fuel0 fuel : nat)
  (bpb : BiosParameterBlock) (name : list byte) (len cluster : Z)
  (st : LnState) :
  (5 <= fuel)%nat ->
  cat_clusters fuel0 fuel bpb name len cluster 0 st
  = cat_clusters fuel0 5 bpb name len cluster 0 st.
Proof.
  intros Hf. apply (cat_clusters_passes fuel0 bpb name len 4); lia.
Qed.

End SearchBound.

(** X13 on the demo volume. *)
Lemma PrintFile_search_stops_after_five_clusters_witness :
  cat_clusters (D := DemoDisk) 40 9 demo_bpb (str "NONE.TXT") 8 2 0 ln_init
  = Some NotFound.
Proof.
  rewrite (PrintFile_search_stops_after_five_clusters (D := DemoDisk)
             40 9 demo_bpb (str "NONE.TXT") 8 2 ln_init).
  - vm_compute. reflexivity.
  - lia.
Defined.

(* ================================================================= *)
(** ** What FAT_PrintFile puts on the screen *)

Section PrintedBytes.
Context {D : FatToSd}.

Lemma print_sector_clean (bpb : BiosParameterBlock) (s : list byte) :
  clean (print_sector bpb s) = true.
Proof.
  unfold print_sector.
  induction (slice s 0 (Z.to_nat (bytesPerSector bpb))) as [|b l IH];
    [reflexivity|].
  cbn [flat_map]. rewrite clean_app, IH, andb_true_r.
  unfold print_byte.
  destruct (byteZ b =? 10); [reflexivity|].
  destruct (byteZ b =? 0) eqn:E; [reflexivity|].
  cbn [clean forallb]. rewrite E. reflexivity.
Qed.

Lemma print_cluster_clean (n : nat) (bpb : BiosParameterBlock) (c : Z) :
  forall (k : Z), clean (print_cluster n bpb c k) = true.
Proof.
  induction n as [|n IH]; intros k; [reflexivity|].
  cbn [print_cluster]. rewrite clean_app, print_sector_clean, IH.
  reflexivity.
Qed.

Lemma print_chain_clean (fuel : nat) (bpb : BiosParameterBlock) :
  forall (c : Z) (out : list byte),
  print_chain fuel bpb c = Some out -> clean out = true.
Proof.
  induction fuel as [|fuel IH]; intros c out H; cbn [print_chain] in H;
    [discriminate|].
  pose proof (print_cluster_clean (Z.to_nat (sectorsPerCluster bpb)) bpb c 0)
    as Hc.
  destruct (negb _).
  - destruct (print_chain fuel bpb _) as [rest|] eqn:E; [|discriminate].
    injection H as <-. apply IH in E. unfold clean in *.
    cbn [forallb negb Z.eqb byteZ Byte.to_N Z.of_N].
    rewrite forallb_app, Hc, E. reflexivity.
  - injection H as <-. unfold clean in *.
    cbn [forallb negb Z.eqb byteZ Byte.to_N Z.of_N app]. exact Hc.
Qed.

(** X14 (FAT_PrintFile, pvt_PrintFatFile): no NUL byte is ever sent to the
    screen, whatever the file holds: a byte [0x00] of the file is left
    out of the output, so that the output of a file is not always the
    file. *)
Theorem PrintFile_never_prints_nul (fuel : nat) (dir : FatCurrentDirectory)
  (name : list byte) (bpb : BiosParameterBlock) (code : FatError)
  (out : list byte) :
  FAT_PrintFile fuel dir name bpb = Some (code, out) -> clean out = true.
Proof.
  unfold FAT_PrintFile.
  destruct (file_name_check name); [intros [= <- <-]; reflexivity|].
  destruct (cat_clusters _ _ _ _ _ _ _ _) as [[sector pos| |]|];
    try discriminate; try (intros [= <- <-]; reflexivity).
  destruct (pvt_PrintFatFile fuel pos sector bpb) as [o|] eqn:P;
    [|discriminate].
  intros [= <- <-]. exact (print_chain_clean _ _ _ _ P).
Qed.

End PrintedBytes.

(** X14 on the demo volume: the sectors of F.TXT are one letter followed
    by 511 NUL bytes each; only the letters are printed. *)
Lemma PrintFile_never_prints_nul_witness :
  exists out,
    FAT_PrintFile (D := DemoDisk) 40 root_dir (str "F.TXT") demo_bpb
    = Some (SUCCESS, out) /\ clean out = true /\ length out = 24%nat.
Proof.
  assert (E : {out | FAT_PrintFile (D := DemoDisk) 40 root_dir (str "F.TXT")
                       demo_bpb = Some (SUCCESS, out)
                     /\ length out = 24%nat})
    by (eexists; vm_compute; split; reflexivity).
  destruct E as [out [E L]]. exists out.
  split; [exact E|]. split; [|exact L].
  exact (PrintFile_never_prints_nul (D := DemoDisk) 40 root_dir
           (str "F.TXT") demo_bpb SUCCESS out E).
Defined.

(* ================================================================= *)
(** ** Short names in FAT_PrintFile *)

Lemma find_pt_no_dot (name : list byte) (len : Z) (n : nat) :
  forall (k : Z),
  1 <= k -> len < 256 ->
  (forall j, 1 <= j -> j + 1 < len -> at_ name j <> byteZ (chr ".")) ->
  find_pt n k name len = None.
Proof.
  induction n as [|n IH]; intros k Hk Hlen Hdots; [reflexivity|].
  cbn [find_pt].
  destruct (Z.ltb_spec k len); [|reflexivity].
  destruct (Z.geb_spec (k + 1) len); [reflexivity|].
  destruct (Z.eqb_spec (at_ name k) (byteZ (chr "."))) as [E|_];
    [exfalso; exact (Hdots k Hk ltac:(lia) E)|].
  replace (u8 (k + 1)) with (k + 1)
    by (unfold u8; symmetry; apply Z.mod_small; lia).
  apply IH; [lia | exact Hlen | exact Hdots].
Qed.

(** X15 (FAT_PrintFile, the test of a short name entry): a name with no
    ['.'] between its second and its last but one character never matches
    a short name entry, whatever the entry holds, because the flag that
    says that the entry has an extension is set for every entry.  A file
    without an extension is not found by its short name. *)
Theorem PrintFile_short_name_needs_extension (fileNameStr : list byte)
  (fileNameStrLen : Z) (currentSectorContents : list byte) (entry : Z) :
  fileNameStrLen < 256 ->
  (forall j, 1 <= j -> j + 1 < fileNameStrLen ->
             at_ fileNameStr j <> byteZ (chr ".")) ->
  cat_short_name_match fileNameStr fileNameStrLen currentSectorContents entry
  <> Some true.
Proof.
  intros Hlen Hdots. unfold cat_short_name_match.
  rewrite (find_pt_no_dot fileNameStr fileNameStrLen 12 1) by
    (try assumption; lia).
  cbv zeta. destruct (9 <? fileNameStrLen); [discriminate|].
  destruct (strcmp_eq _ _); [|discriminate].
  rewrite !andb_false_r. cbn. discriminate.
Qed.

(** X15 on the demo volume: the name FOOBAR against the entry whose
    eleven name bytes are FOOBAR and five spaces. *)
Lemma PrintFile_short_name_needs_extension_witness :
  slice demo_root_sector1 0 11 = str "FOOBAR     " /\
  cat_short_name_match (str "FOOBAR") 6 demo_root_sector1 0 <> Some true.
Proof.
  split; [vm_compute; reflexivity|].
  apply (PrintFile_short_name_needs_extension (str "FOOBAR") 6
           demo_root_sector1 0).
  - lia.
  - intros j H1 H2.
    assert (Hj : j = 1 \/ j = 2 \/ j = 3 \/ j = 4) by lia.
    destruct Hj as [-> | [-> | [-> | ->]]]; vm_compute; discriminate.
Defined.

(* ================================================================= *)
(** ** The names that are accepted *)

Lemma first_not_space (s : list byte) :
  bytes_eqb s [] = false -> (at_ s 0 =? byteZ (chr " ")) = false ->
  existsb (fun c => negb (byte_eqb c (chr " "))) s = true.
Proof.
  destruct s as [|b l]; [discriminate|]. intros _ H.
  cbn [existsb]. unfold byte_eqb.
  change (at_ (b :: l) 0) with (byteZ b) in H. rewrite H. reflexivity.
Qed.

(** X16 (pvt_CheckIllegalName, and the check at the head of
    FAT_PrintFile): a name of fewer than 256 characters is rejected
    exactly when it is empty, begins with a space, or holds one of the
    nine illegal characters; the later test for a name made of spaces
    only never decides.  FAT_SetCurrentDirectory and FAT_PrintFile accept
    the same names. *)
Theorem name_checks_agree (nameStr : list byte) :
  strlen nameStr < 256 ->
  let bad :=
    bytes_eqb (c_str nameStr) []
    || (at_ (c_str nameStr) 0 =? byteZ (chr " "))
    || existsb is_illegal (c_str nameStr) in
  pvt_CheckIllegalName nameStr = Some (if bad then 1 else 0) /\
  (file_name_check nameStr = None <-> bad = false).
Proof.
  intros Hlen bad. subst bad.
  assert (Hs : strlen (c_str nameStr) = strlen nameStr)
    by (unfold strlen; rewrite c_str_idem; reflexivity).
  unfold pvt_CheckIllegalName, file_name_check, strcmp_eq.
  rewrite Hs, !c_str_idem. change (c_str []) with (@nil byte).
  replace (firstn (Z.to_nat (u8 (strlen nameStr))) (c_str nameStr))
    with (c_str nameStr).
  2:{ symmetry. apply firstn_all2. unfold u8.
      rewrite Z.mod_small by (unfold strlen in *; lia).
      unfold strlen. lia. }
  destruct (Z.ltb_spec (strlen nameStr) 256); [|lia].
  destruct (bytes_eqb (c_str nameStr) []) eqn:E1;
    [cbn [orb]; split; [reflexivity | split; discriminate]|].
  destruct (at_ (c_str nameStr) 0 =? byteZ (chr " ")) eqn:E2;
    [cbn [orb]; split; [reflexivity | split; discriminate]|].
  cbn [orb].
  destruct (existsb is_illegal (c_str nameStr));
    [split; [reflexivity | split; discriminate]|].
  pose proof (first_not_space _ E1 E2) as Hns. rewrite Hns.
  split; [reflexivity|].
  destruct (forallb _ (c_str nameStr)) eqn:F; [|split; reflexivity].
  exfalso. apply existsb_exists in Hns. destruct Hns as (c & Hin & Hc).
  rewrite forallb_forall in F. rewrite (F c Hin) in Hc. discriminate Hc.
Qed.

(** X16 on two names: one with a slash, one that both functions accept. *)
Lemma name_checks_agree_witness :
  pvt_CheckIllegalName (str "a/b") = Some 1 /\
  pvt_CheckIllegalName (str "FOOBAR") = Some 0 /\
  file_name_check (str "FOOBAR") = None.
Proof.
  destruct (name_checks_agree (str "a/b")) as [W1 _];
    [vm_compute; reflexivity|].
  destruct (name_checks_agree (str "FOOBAR")) as [W2 [_ W3]];
    [vm_compute; reflexivity|].
  split; [exact W1|]. split; [exact W2|]. apply W3. reflexivity.
Defined.

(* ================================================================= *)
(** ** Looking a name up in a directory without long names *)

Section ShortNameLookup.
Context {D : FatToSd}.

(** The loop over the entries of a sector in [FAT_SetCurrentDirectory],
    on entries without long names: it passes over the entries that do not
    match and ends at entry [k]. *)
Lemma cd_entries_short (bpb : BiosParameterBlock) (name : list byte)
  (cluster n abs : Z) (cur : list byte) (st : LnState) (k : Z) (m : nat) :
  forall (j : Z) (fuel : nat),
  longNameExistsFlag st = false ->
  0 <= j -> j + Z.of_nat m = k -> k < 16 -> (m < fuel)%nat ->
  (forall i, j <= i < k ->
     cd_short_entry cur (32 * i) = true /\ cd_hit name cur (32 * i) = false) ->
  cd_entries fuel bpb name (u8 (strlen name)) cluster n abs cur st (32 * j)
  = match cd_entry_step bpb name (u8 (strlen name)) cluster n abs cur st
            (32 * k) with
    | Continue st' entry' =>
        cd_entries (fuel - S m) bpb name (u8 (strlen name)) cluster n abs cur
                   st' (u16 (entry' + ENTRY_LEN))
    | BreakLoop st' => Go st'
    | Return r => Stop r
    | Undef => Undefined
    end.
Proof.
  induction m as [|m IH]; intros j fuel Hst Hj Hk Hk16 Hf Hpass;
    (destruct fuel as [|fuel]; [lia|]); cbn [cd_entries];
    unfold SECTOR_LEN; (destruct (Z.ltb_spec (32 * j) 512); [|lia]).
  - replace j with k by lia.
    replace (S fuel - 1)%nat with fuel by lia. reflexivity.
  - destruct (Hpass j ltac:(lia)) as [Hs Hh].
    unfold cd_short_entry in Hs. unfold cd_hit in Hh.
    apply andb_true_iff in Hs. destruct Hs as [Hnz Hnl].
    apply negb_true_iff in Hnz, Hnl.
    unfold cd_entry_step at 1. unfold adjust_entry. rewrite Hst, Hnz, Hnl.
    replace (match
               (if (u8 (strlen name) <? 9)
                   && negb (Z.land (at_ cur (32 * j + 11))
                                   DIRECTORY_ENTRY_ATTR_FLAG =? 0)
                then
                  if cd_short_name_match name (u8 (strlen name)) cur (32 * j)
                  then Return (Found cur (32 * j))
                  else Continue st (32 * j)
                else Continue st (32 * j))
             with
             | Continue st' entry' =>
                 cd_entries fuel bpb name (u8 (strlen name)) cluster n abs
                   cur st' (u16 (entry' + ENTRY_LEN))
             | BreakLoop st' => Go st'
             | Return r => Stop r
             | Undef => Undefined
             end)
      with (cd_entries fuel bpb name (u8 (strlen name)) cluster n abs
              cur st (u16 (32 * j + ENTRY_LEN))).
    2:{ destruct ((u8 (strlen name) <? 9)
                  && negb (Z.land (at_ cur (32 * j + 11))
                                  DIRECTORY_ENTRY_ATTR_FLAG =? 0)) eqn:E;
          [|reflexivity].
        cbn [andb] in Hh. rewrite Hh. reflexivity. }
    replace (u16 (32 * j + ENTRY_LEN)) with (32 * (j + 1))
      by (unfold u16, ENTRY_LEN; rewrite Z.mod_small; lia).
    rewrite (IH (j + 1) fuel) by (try assumption; try lia;
                                  intros i Hi; apply Hpass; lia).
    replace (S fuel - S (S m))%nat with (fuel - S m)%nat by lia.
    reflexivity.
Qed.

(** X17 (FAT_SetCurrentDirectory): looking a name up in a directory whose
    first sector holds entries without long names.  When the entries
    before entry [k] are in use and none of them is a directory whose
    first characters are the name, then: if entry [k] is the end marker
    (first byte 0) the code is [END_OF_DIRECTORY] and the cursor is as it
    was; if entry [k] is such a directory, the code is [SUCCESS] and the
    cursor is the child described by that entry.  The first match in the
    order of the entries is the one entered; for [k = 0] the first case is
    the empty directory. *)
Theorem cd_short_name_lookup (fuel : nat) (dir : FatCurrentDirectory)
  (name : list byte) (bpb : BiosParameterBlock) (k : Z) :
  let cur :=
    fat_ReadSingleSector (absolute_sector bpb (FATFirstCluster dir) 0) in
  pvt_CheckIllegalName name = Some 0 ->
  strcmp_eq name (str ".") = false -> strcmp_eq name (str "..") = false ->
  0 < sectorsPerCluster bpb -> 0 <= k < 16 -> (Z.to_nat k < fuel)%nat ->
  (forall i, 0 <= i < k ->
     cd_short_entry cur (32 * i) = true /\ cd_hit name cur (32 * i) = false) ->
  (at_ cur (32 * k) = 0 ->
   FAT_SetCurrentDirectory fuel dir name bpb = Some (END_OF_DIRECTORY, dir)) /\
  (cd_short_entry cur (32 * k) = true -> cd_hit name cur (32 * k) = true ->
   FAT_SetCurrentDirectory fuel dir name bpb
   = Some (SUCCESS,
           pvt_SetCurrentDirectoryToChild dir cur (32 * k) name bpb)).
Proof.
  intros cur Hname Hdot Hdd Hspc Hk Hf Hpass.
  assert (Hwalk : forall r,
            cd_entry_step bpb name (u8 (strlen name)) (FATFirstCluster dir) 0
              (absolute_sector bpb (FATFirstCluster dir) 0) cur ln_init
              (32 * k) = Return r ->
            cd_clusters fuel fuel bpb name (u8 (strlen name))
              (FATFirstCluster dir) ln_init = Some r).
  { intros r Hr. destruct fuel as [|fuel']; [lia|]. cbn [cd_clusters].
    destruct (Z.to_nat (sectorsPerCluster bpb)) as [|spc] eqn:Es; [lia|].
    cbn [cd_sectors]. fold cur.
    change 0 with (32 * 0) at 3.
    rewrite (cd_entries_short bpb name _ _ _ cur ln_init k (Z.to_nat k) 0)
      by (try reflexivity; try lia; intros i Hi; apply Hpass; lia).
    rewrite Hr. reflexivity. }
  unfold FAT_SetCurrentDirectory. rewrite Hname, Hdot, Hdd.
  change (negb (0 =? 0)) with false. cbv iota. split.
  - intros Hend. rewrite (Hwalk NotFound); [reflexivity|].
    unfold cd_entry_step, adjust_entry. cbn [ln_init longNameExistsFlag].
    rewrite Hend. reflexivity.
  - intros Hs Hh. rewrite (Hwalk (Found cur (32 * k))); [reflexivity|].
    unfold cd_short_entry in Hs. unfold cd_hit in Hh.
    apply andb_true_iff in Hs. destruct Hs as [Hnz Hnl].
    apply negb_true_iff in Hnz, Hnl.
    apply andb_true_iff in Hh. destruct Hh as [Hh1 Hh2].
    unfold cd_entry_step, adjust_entry. cbn [ln_init longNameExistsFlag].
    rewrite Hnz, Hnl, Hh1, Hh2. reflexivity.
Qed.

End ShortNameLookup.

(** X17 on the demo volume: FOOBAR is the first entry of the root
    directory; the directory FOOBAR itself holds two entries, none of
    which is named F. *)
Lemma cd_short_name_lookup_witness :
  FAT_SetCurrentDirectory (D := DemoDisk) 40 root_dir (str "FOOBAR") demo_bpb
  = Some (SUCCESS, foobar_dir) /\
  FAT_SetCurrentDirectory (D := DemoDisk) 40 foobar_dir (str "F") demo_bpb
  = Some (END_OF_DIRECTORY, foobar_dir).
Proof.
  split.
  - destruct (cd_short_name_lookup (D := DemoDisk) 40 root_dir
                (str "FOOBAR") demo_bpb 0) as [_ W].
    + reflexivity.
    + reflexivity.
    + reflexivity.
    + reflexivity.
    + lia.
    + cbn; lia.
    + intros i Hi. lia.
    + rewrite W; vm_compute; reflexivity.
  - destruct (cd_short_name_lookup (D := DemoDisk) 40 foobar_dir
                (str "F") demo_bpb 2) as [W _].
    + reflexivity.
    + reflexivity.
    + reflexivity.
    + reflexivity.
    + lia.
    + cbn; lia.
    + intros i Hi. assert (Hc : i = 0 \/ i = 1) by lia.
      destruct Hc as [-> | ->]; vm_compute; split; reflexivity.
    + apply W. vm_compute. reflexivity.
Defined.

Section ShortNameFileLookup.
Context {D : FatToSd}.




End ShortNameFileLookup.


(* ================================================================= *)
(** ** Listing the current directory *)

Section Listing.
Context {D : FatToSd} {P : Prints} {FF : FatFilters}.

Lemma ls_entry_step_codes (bpb : BiosParameterBlock) (entryFilter : Z)
  (cluster n abs : Z) (cur : list byte) (st : LnState) (entry : Z) :
  match ls_entry_step bpb entryFilter cluster n abs cur st entry with
  | LsReturn code _ => code = END_OF_DIRECTORY \/ code = CORRUPT_FAT_ENTRY
  | _ => True
  end.
Proof.
  unfold ls_entry_step. cbv zeta.
  repeat match goal with
         | |- context [match ?c with _ => _ end] =>
             lazymatch c with
             | context [match _ with _ => _ end] => fail
             | _ => destruct c; cbv beta iota
             end
         end; auto.
Qed.

Lemma ls_entries_grows (fuel : nat) (bpb : BiosParameterBlock)
  (entryFilter : Z) (cluster n abs : Z) (cur : list byte) :
  forall (st : LnState) (entry : Z) (out : list byte),
  match ls_entries fuel bpb entryFilter cluster n abs cur st entry out with
  | LsGo _ out' => exists rest, out' = out ++ rest
  | LsStop code out' =>
      (code = END_OF_DIRECTORY \/ code = CORRUPT_FAT_ENTRY) /\
      exists rest, out' = out ++ rest
  | LsUndefined => True
  end.
Proof.
  induction fuel as [|fuel IH]; intros st entry out; cbn [ls_entries];
    [exact I|].
  destruct (entry <? bytesPerSector bpb);
    [|exists []; rewrite app_nil_r; reflexivity].
  destruct (ls_entry_step _ _ _ _ _ _ _ _) as [st' e' pr|st'|code pr|] eqn:E.
  - specialize (IH st' (u16 (e' + ENTRY_LEN)) (out ++ pr)).
    destruct (ls_entries _ _ _ _ _ _ _ _ _ _) as [s o|c o|].
    + destruct IH as [rest ->]. exists (pr ++ rest). symmetry; apply app_assoc.
    + destruct IH as [Hc [rest ->]]. split; [exact Hc|].
      exists (pr ++ rest). symmetry; apply app_assoc.
    + exact I.
  - exists []. rewrite app_nil_r. reflexivity.
  - pose proof (ls_entry_step_codes bpb entryFilter cluster n abs cur st entry)
      as Hc.
    rewrite E in Hc. split; [exact Hc|]. exists pr. reflexivity.
  - exact I.
Qed.

Lemma ls_sectors_grows (k fuel : nat) (bpb : BiosParameterBlock)
  (entryFilter cluster : Z) :
  forall (n : Z) (st : LnState) (out : list byte),
  match ls_sectors k fuel bpb entryFilter cluster n st out with
  | LsGo _ out' => exists rest, out' = out ++ rest
  | LsStop code out' =>
      (code = END_OF_DIRECTORY \/ code = CORRUPT_FAT_ENTRY) /\
      exists rest, out' = out ++ rest
  | LsUndefined => True
  end.
Proof.
  induction k as [|k IH]; intros n st out; cbn [ls_sectors];
    [exists []; rewrite app_nil_r; reflexivity|].
  pose proof (ls_entries_grows fuel bpb entryFilter cluster n
                (absolute_sector bpb cluster n)
                (fat_ReadSingleSector (absolute_sector bpb cluster n))
                st 0 out) as He.
  destruct (ls_entries _ _ _ _ _ _ _ _ _ _) as [s o|c o|]; try exact He.
  destruct He as [r1 ->].
  specialize (IH (n + 1) s (out ++ r1)).
  destruct (ls_sectors _ _ _ _ _ _ _ _) as [s' o'|c' o'|]; [| |exact I].
  - destruct IH as [r2 ->]. exists (r1 ++ r2). symmetry; apply app_assoc.
  - destruct IH as [Hc [r2 ->]]. split; [exact Hc|].
    exists (r1 ++ r2). symmetry; apply app_assoc.
Qed.

Lemma ls_clusters_grows (fuel0 fuel : nat) (bpb : BiosParameterBlock)
  (entryFilter : Z) :
  forall (cluster : Z) (st : LnState) (out out' : list byte)
         (code : FatError),
  ls_clusters fuel0 fuel bpb entryFilter cluster st out = Some (code, out') ->
  (code = END_OF_DIRECTORY \/ code = CORRUPT_FAT_ENTRY) /\
  exists rest, out' = out ++ rest.
Proof.
  induction fuel as [|fuel IH]; intros cluster st out out' code H;
    cbn [ls_clusters] in H; [discriminate|].
  pose proof (ls_sectors_grows (Z.to_nat (sectorsPerCluster bpb)) fuel0 bpb
                entryFilter cluster 0 st out) as Hs.
  destruct (ls_sectors _ _ _ _ _ _ _ _) as [s o|c o|]; [| |discriminate].
  - destruct Hs as [r1 ->].
    destruct (negb _).
    + destruct (IH _ _ _ _ _ H) as [Hc [r2 ->]]. split; [exact Hc|].
      exists (r1 ++ r2). symmetry; apply app_assoc.
    + injection H as <- <-. split; [left; reflexivity|].
      exists r1. reflexivity.
  - injection H as <- <-. exact Hs.
Qed.

(** X19 (FAT_PrintCurrentDirectory): whenever the call returns, the code
    is [END_OF_DIRECTORY] or [CORRUPT_FAT_ENTRY], never [SUCCESS], and
    what was printed begins with the column headers that the entry filter
    asks for. *)
Theorem PrintCurrentDirectory_outcomes (fuel : nat)
  (dir : FatCurrentDirectory) (entryFilter : Z) (bpb : BiosParameterBlock)
  (code : FatError) (out : list byte) :
  FAT_PrintCurrentDirectory fuel dir entryFilter bpb = Some (code, out) ->
  (code = END_OF_DIRECTORY \/ code = CORRUPT_FAT_ENTRY) /\
  exists rest, out = ls_header entryFilter ++ rest.
Proof.
  unfold FAT_PrintCurrentDirectory. intros H.
  destruct (ls_clusters_grows _ _ _ _ _ _ _ _ _ H) as [Hc [rest ->]].
  split; [exact Hc|]. exists rest. reflexivity.
Qed.

(** The loop over the entries of a sector in [FAT_PrintCurrentDirectory],
    on entries without long names that end with the end marker. *)
Lemma ls_entries_short (bpb : BiosParameterBlock) (entryFilter : Z)
  (cluster n abs : Z) (cur : list byte) (st : LnState) (m : nat) :
  forall (j fuel : nat) (out : list byte),
  longNameExistsFlag st = false -> bytesPerSector bpb = 512 ->
  (j + m < 16)%nat -> (m < fuel)%nat ->
  (forall i, (j <= i < j + m)%nat ->
     at_ cur (32 * Z.of_nat i) = 0xE5 \/
     cat_short_entry cur (32 * Z.of_nat i) = true) ->
  at_ cur (32 * Z.of_nat (j + m)) = 0 ->
  ls_entries fuel bpb entryFilter cluster n abs cur st (32 * Z.of_nat j) out
  = LsStop END_OF_DIRECTORY
      (out ++ flat_map (fun i => ls_line cur (32 * Z.of_nat i) entryFilter)
                       (seq j m)).
Proof.
  induction m as [|m IH]; intros j fuel out Hst Hbps Hk Hf Hpass Hend;
    (destruct fuel as [|fuel]; [lia|]); cbn [ls_entries];
    rewrite Hbps; (destruct (Z.ltb_spec (32 * Z.of_nat j) 512); [|lia]).
  - rewrite Nat.add_0_r in Hend.
    unfold ls_entry_step, adjust_entry. rewrite Hst, Hend.
    cbn [seq flat_map]. reflexivity.
  - assert (Hstep : ls_entry_step bpb entryFilter cluster n abs cur st
                      (32 * Z.of_nat j)
                    = LsContinue st (32 * Z.of_nat j)
                        (ls_line cur (32 * Z.of_nat j) entryFilter)).
    { unfold ls_entry_step, adjust_entry, ls_line. rewrite Hst.
      destruct (Hpass j ltac:(lia)) as [Hdel | Hs].
      - rewrite Hdel. reflexivity.
      - unfold cat_short_entry in Hs.
        apply andb_true_iff in Hs. destruct Hs as [Hs Hnl].
        apply andb_true_iff in Hs. destruct Hs as [Hnd Hnz].
        apply negb_true_iff in Hnd, Hnz, Hnl.
        rewrite Z.land_comm in Hnl. rewrite Hnd, Hnz, Hnl.
        destruct (ls_hidden _ _); reflexivity. }
    rewrite Hstep.
    replace (u16 (32 * Z.of_nat j + ENTRY_LEN)) with (32 * Z.of_nat (S j))
      by (unfold u16, ENTRY_LEN; rewrite Z.mod_small; lia).
    assert (Hend' : at_ cur (32 * Z.of_nat (S j + m)) = 0)
      by (replace (S j + m)%nat with (j + S m)%nat by lia; exact Hend).
    assert (Hpass' : forall i, (S j <= i < S j + m)%nat ->
              at_ cur (32 * Z.of_nat i) = 0xE5 \/
              cat_short_entry cur (32 * Z.of_nat i) = true)
      by (intros i Hi; apply Hpass; lia).
    rewrite (IH (S j) fuel _ Hst Hbps ltac:(lia) ltac:(lia) Hpass' Hend').
    cbn [seq flat_map]. rewrite <- app_assoc. reflexivity.
Qed.

(** X20 (FAT_PrintCurrentDirectory): the listing of a directory whose
    first sector holds [k] entries without long names and then the end
    marker, with 512-byte sectors.  After the column headers each entry is
    listed in the order of the sector with its fields, its type and its
    short name, whether or not the filter holds [SHORT_NAME]; a deleted
    entry prints nothing, and neither does a hidden entry unless the
    filter holds [HIDDEN].  The code is [END_OF_DIRECTORY]; for [k = 0]
    only the headers are printed. *)
Theorem PrintCurrentDirectory_short_names (fuel : nat)
  (dir : FatCurrentDirectory) (entryFilter : Z) (bpb : BiosParameterBlock)
  (k : nat) :
  let cur :=
    fat_ReadSingleSector (absolute_sector bpb (FATFirstCluster dir) 0) in
  bytesPerSector bpb = 512 -> 0 < sectorsPerCluster bpb ->
  (k < 16)%nat -> (k < fuel)%nat ->
  (forall i, (i < k)%nat ->
     at_ cur (32 * Z.of_nat i) = 0xE5 \/
     cat_short_entry cur (32 * Z.of_nat i) = true) ->
  at_ cur (32 * Z.of_nat k) = 0 ->
  FAT_PrintCurrentDirectory fuel dir entryFilter bpb
  = Some (END_OF_DIRECTORY,
          ls_header entryFilter
          ++ flat_map (fun i => ls_line cur (32 * Z.of_nat i) entryFilter)
                      (seq 0 k)).
Proof.
  intros cur Hbps Hspc Hk Hf Hpass Hend.
  unfold FAT_PrintCurrentDirectory.
  destruct fuel as [|fuel']; [lia|]. cbn [ls_clusters].
  destruct (Z.to_nat (sectorsPerCluster bpb)) as [|spc] eqn:Es; [lia|].
  cbn [ls_sectors]. fold cur.
  change 0 with (32 * Z.of_nat 0) at 3.
  rewrite (ls_entries_short bpb entryFilter _ _ _ cur ln_init k 0)
    by (try reflexivity; try assumption; try lia;
        intros i Hi; apply Hpass; lia).
  reflexivity.
Qed.

End Listing.

(** X19 on the demo volume: the listing of the root directory. *)
Lemma PrintCurrentDirectory_outcomes_witness :
  exists rest,
    FAT_PrintCurrentDirectory (D := DemoDisk) (P := demo_prints)
      (FF := demo_filters) 40 root_dir 3 demo_bpb
    = Some (END_OF_DIRECTORY,
            ls_header (FF := demo_filters) 3 ++ rest).
Proof.
  assert (E : {out | FAT_PrintCurrentDirectory (D := DemoDisk)
                       (P := demo_prints) (FF := demo_filters) 40 root_dir 3
                       demo_bpb = Some (END_OF_DIRECTORY, out)})
    by (eexists; vm_compute; reflexivity).
  destruct E as [out E].
  destruct (PrintCurrentDirectory_outcomes (D := DemoDisk) (P := demo_prints)
              (FF := demo_filters) 40 root_dir 3 demo_bpb END_OF_DIRECTORY
              out E) as [_ [rest ->]].
  exists rest. exact E.
Defined.

(** X20 on the demo volume: the directory FOOBAR holds its two dot
    entries. *)
Lemma PrintCurrentDirectory_short_names_witness :
  FAT_PrintCurrentDirectory (D := DemoDisk) (P := demo_prints)
    (FF := demo_filters) 40 foobar_dir 0 demo_bpb
  = Some (END_OF_DIRECTORY,
          ls_header (FF := demo_filters) 0
          ++ [x0a; x0d] ++ str "             0kB    <DIR>    .           "
          ++ [x0a; x0d] ++ str "             0kB    <DIR>    ..          ").
Proof.
  rewrite (PrintCurrentDirectory_short_names (D := DemoDisk)
             (P := demo_prints) (FF := demo_filters) 40 foobar_dir 0
             demo_bpb 2).
  - vm_compute. reflexivity.
  - reflexivity.
  - reflexivity.
  - lia.
  - lia.
  - intros i Hi. right.
    assert (Hc : i = 0%nat \/ i = 1%nat) by lia.
    destruct Hc as [-> | ->]; vm_compute; reflexivity.
  - vm_compute. reflexivity.
Defined.

(* ================================================================= *)
(** ** The fields of an entry in the listing *)

Lemma bit_field (x mask lo w : Z) :
  0 <= lo -> 0 <= w -> Z.shiftr mask lo = Z.ones w ->
  Z.shiftr (Z.land x mask) lo = (x / 2 ^ lo) mod 2 ^ w.
Proof.
  intros Hlo Hw Hm. rewrite Z.shiftr_land, Hm, Z.land_ones by exact Hw.
  rewrite Z.shiftr_div_pow2 by exact Hlo. reflexivity.
Qed.

Section EntryFields.
Context {P : Prints} {FF : FatFilters}.

Lemma print_date_text (date : Z) :
  0 <= date < 65536 -> print_date date = date_text date.
Proof.
  intros Hd. unfold print_date, date_text, print_dec2. cbv zeta.
  rewrite (bit_field date 0x01E0 5 4) by (try reflexivity; lia).
  rewrite (bit_field date 0xFE00 9 7) by (try reflexivity; lia).
  change 31 with (Z.ones 5). rewrite Z.land_ones by lia.
  change (2 ^ 5) with 32. change (2 ^ 4) with 16.
  change (2 ^ 9) with 512. change (2 ^ 7) with 128.
  replace ((date / 512) mod 128) with (date / 512)
    by (symmetry; apply Z.mod_small; split;
        [apply Z.div_pos; lia | apply Z.div_lt_upper_bound; lia]).
  rewrite <- !app_assoc. reflexivity.
Qed.

Lemma print_time_text (time : Z) :
  0 <= time < 65536 -> print_time time = time_text time.
Proof.
  intros Ht. unfold print_time, time_text, print_dec2. cbv zeta.
  rewrite (bit_field time 0xF800 11 5) by (try reflexivity; lia).
  rewrite (bit_field time 0x07E0 5 6) by (try reflexivity; lia).
  change 31 with (Z.ones 5). rewrite Z.land_ones by lia.
  change (2 ^ 5) with 32. change (2 ^ 6) with 64. change (2 ^ 11) with 2048.
  replace ((time / 2048) mod 32) with (time / 2048)
    by (symmetry; apply Z.mod_small; split;
        [apply Z.div_pos; lia | apply Z.div_lt_upper_bound; lia]).
  rewrite <- !app_assoc. reflexivity.
Qed.

(** X21 (pvt_PrintEntryFields): for an entry that lies within the first
    65536 bytes of the array, what is printed is a line break, then for
    each of the three groups that the filter asks for the little-endian
    16-bit date as month/day/year, with the year counted from 1980, and
    the 16-bit time as hours:minutes:seconds, the seconds being twice the
    five low bits; then the 32-bit little-endian size divided by 1000,
    right-aligned and followed by kB. *)
Theorem PrintEntryFields_decodes (sector : list byte) (entry : Z)
  (entryFilter : Z) :
  0 <= entry -> entry + 31 < 65536 ->
  pvt_PrintEntryFields sector entry entryFilter
  = [x0a; x0d]
    ++ (if negb (Z.land CREATION entryFilter =? 0)
        then str "    " ++ date_text (le16 sector (entry + 16))
             ++ str "  " ++ time_text (le16 sector (entry + 14))
        else [])
    ++ (if negb (Z.land LAST_ACCESS entryFilter =? 0)
        then str "     " ++ date_text (le16 sector (entry + 18))
        else [])
    ++ (if negb (Z.land LAST_MODIFIED entryFilter =? 0)
        then str "     " ++ date_text (le16 sector (entry + 24))
             ++ str "  " ++ time_text (le16 sector (entry + 22))
        else [])
    ++ print_size (le32 sector (entry + 28)).
Proof.
  intros He Hhi. unfold pvt_PrintEntryFields. cbv zeta.
  assert (Hu : forall k, 0 <= k <= 31 -> u16 (entry + k) = entry + k)
    by (intros k Hk; unfold u16; apply Z.mod_small; lia).
  rewrite !Hu by lia.
  rewrite !shl8_or16_bytes by apply at_range.
  rewrite assemble32 by apply at_range.
  unfold le16, le32.
  replace (entry + 16 + 1) with (entry + 17) by lia.
  replace (entry + 14 + 1) with (entry + 15) by lia.
  replace (entry + 18 + 1) with (entry + 19) by lia.
  replace (entry + 24 + 1) with (entry + 25) by lia.
  replace (entry + 22 + 1) with (entry + 23) by lia.
  replace (entry + 28 + 1) with (entry + 29) by lia.
  replace (entry + 28 + 2) with (entry + 30) by lia.
  replace (entry + 28 + 3) with (entry + 31) by lia.
  assert (Hr : forall a b, 0 <= at_ sector a + 256 * at_ sector b < 65536).
  { intros a b. pose proof (at_range sector a). pose proof (at_range sector b).
    lia. }
  rewrite !print_date_text, !print_time_text by apply Hr.
  reflexivity.
Qed.

End EntryFields.

(** X21 on an entry written on 2 November 2026 at 13:45:58. *)
Lemma PrintEntryFields_decodes_witness :
  pvt_PrintEntryFields (P := demo_prints) (FF := demo_filters)
    (repeat x00 14 ++ le16_bytes (13 * 2048 + 45 * 32 + 29)
     ++ le16_bytes (46 * 512 + 11 * 32 + 2) ++ repeat x00 10
     ++ le32_bytes 123456) 0 0x08
  = [x0a; x0d] ++ str "    11/02/2026  13:45:58"
    ++ str "           123kB".
Proof.
  rewrite (PrintEntryFields_decodes (P := demo_prints) (FF := demo_filters)).
  - vm_compute. reflexivity.
  - lia.
  - lia.
Defined.

(* ================================================================= *)
(** ** Looking a long name up *)






Section LongNameLookup.
Context {D : FatToSd}.





End LongNameLookup.



(* ================================================================= *)
(** ** Listing an entry with a long name *)

Section LongNameListing.
Context {D : FatToSd} {P : Prints} {FF : FatFilters}.



End LongNameListing.


(* ================================================================= *)
(** ** Printing blocks *)

Section PrintBlocks.
Context {Wire : Type} {SB : SpiBase Wire} {SF : SdFlags} {HP : HexPrints}.

(** [SD_PrintSingleBlock] always prints the titles and the 32 rows, each
    row labelled with its own offset. *)
Lemma hex_cells_spec (block : list byte) (r : Z) (m : nat) :
  forall (j fuel : nat),
  0 <= r < 32 -> (j + m = 16)%nat -> (m < fuel)%nat ->
  hex_cells fuel block r (16 * r + Z.of_nat j) (Z.of_nat j)
  = Some (flat_map (fun i => (if i mod 4 =? 0 then str " " else [])
                             ++ str " "
                             ++ print_hex (at_ block (16 * r + i)))
                   (map Z.of_nat (seq j m)),
          16 * r + 16).
Proof.
  assert (Hb : 0 <= r < 32 -> u16 (u16 (r * 16) + 16) = 16 * r + 16)
    by (intros Hr; unfold u16; rewrite (Z.mod_small (r * 16)) by lia;
        rewrite Z.mod_small by lia; lia).
  induction m as [|m IH]; intros j fuel Hr Hj Hf;
    (destruct fuel as [|fuel]; [lia|]); cbn [hex_cells]; rewrite (Hb Hr).
  - destruct (Z.ltb_spec (16 * r + Z.of_nat j) (16 * r + 16)); [lia|].
    cbn [seq map flat_map]. do 2 f_equal. lia.
  - destruct (Z.ltb_spec (16 * r + Z.of_nat j) (16 * r + 16)); [|lia].
    replace (u16 (16 * r + Z.of_nat j + 1)) with (16 * r + Z.of_nat (S j))
      by (unfold u16; rewrite Z.mod_small; lia).
    replace (u16 (Z.of_nat j + 1)) with (Z.of_nat (S j))
      by (unfold u16; rewrite Z.mod_small; lia).
    rewrite (IH (S j) fuel) by lia.
    cbn [seq map flat_map]. rewrite <- !app_assoc. reflexivity.
Qed.

Lemma ascii_cells_spec (block : list byte) (r : Z) (m : nat) :
  forall (j fuel : nat),
  0 <= r < 32 -> (j + m = 16)%nat -> (m < fuel)%nat ->
  ascii_cells fuel block r (16 * r + Z.of_nat j)
  = Some (map (fun i => if at_ block (16 * r + i) <? 32 then chr " "
                        else if at_ block (16 * r + i) <? 128
                             then byte_at block (16 * r + i)
                             else chr ".")
              (map Z.of_nat (seq j m)),
          16 * r + 16).
Proof.
  assert (Hb : 0 <= r < 32 -> u16 (u16 (r * 16) + 16) = 16 * r + 16)
    by (intros Hr; unfold u16; rewrite (Z.mod_small (r * 16)) by lia;
        rewrite Z.mod_small by lia; lia).
  induction m as [|m IH]; intros j fuel Hr Hj Hf;
    (destruct fuel as [|fuel]; [lia|]); cbn [ascii_cells]; rewrite (Hb Hr).
  - destruct (Z.ltb_spec (16 * r + Z.of_nat j) (16 * r + 16)); [lia|].
    cbn [seq map]. do 2 f_equal. lia.
  - destruct (Z.ltb_spec (16 * r + Z.of_nat j) (16 * r + 16)); [|lia].
    replace (u16 (16 * r + Z.of_nat j + 1)) with (16 * r + Z.of_nat (S j))
      by (unfold u16; rewrite Z.mod_small; lia).
    rewrite (IH (S j) fuel) by lia.
    cbn [seq map].
    destruct (at_ block (16 * r + Z.of_nat j) <? 32); [reflexivity|].
    destruct (at_ block (16 * r + Z.of_nat j) <? 128); reflexivity.
Qed.

Lemma block_rows_spec (block : list byte) (m : nat) :
  forall (r fuel : nat),
  (r + m = 32)%nat -> (m < fuel)%nat ->
  block_rows fuel block (Z.of_nat r) (16 * Z.of_nat r)
  = Some (flat_map (fun r => block_row block (Z.of_nat r)) (seq r m)).
Proof.
  induction m as [|m IH]; intros r fuel Hr Hf;
    (destruct fuel as [|fuel]; [lia|]); cbn [block_rows];
    change (Z.of_nat BLOCK_LEN / 16) with 32.
  - destruct (Z.ltb_spec (Z.of_nat r) 32); [lia|]. reflexivity.
  - destruct (Z.ltb_spec (Z.of_nat r) 32); [|lia].
    replace (u16 (Z.of_nat r * 16)) with (16 * Z.of_nat r)
      by (unfold u16; rewrite Z.mod_small; lia).
    pose proof (hex_cells_spec block (Z.of_nat r) 16 0 17 ltac:(lia)
                  ltac:(lia) ltac:(lia)) as Hh.
    pose proof (ascii_cells_spec block (Z.of_nat r) 16 0 17 ltac:(lia)
                  ltac:(lia) ltac:(lia)) as Ha.
    cbn [Z.of_nat] in Hh, Ha. rewrite Z.add_0_r in Hh, Ha.
    rewrite Hh, Ha. clear Hh Ha.
    replace (u16 (Z.of_nat r + 1)) with (Z.of_nat (S r))
      by (unfold u16; rewrite Z.mod_small; lia).
    replace (16 * Z.of_nat r + 16) with (16 * Z.of_nat (S r)) by lia.
    rewrite (IH (S r) fuel) by lia.
    cbn [seq flat_map]. f_equal. unfold block_row. cbv zeta.
    change [0; 1; 2; 3; 4; 5; 6; 7; 8; 9; 10; 11; 12; 13; 14; 15]
      with (map Z.of_nat (seq 0 16)).
    destruct (Z.ltb_spec (16 * Z.of_nat r) 256).
    + rewrite <- !app_assoc. reflexivity.
    + destruct (Z.ltb_spec (16 * Z.of_nat r) 4096); [|lia].
      rewrite <- !app_assoc. reflexivity.
Qed.

Lemma SD_PrintSingleBlock_eq (block : list byte) :
  SD_PrintSingleBlock block = Some (block_text block).
Proof.
  unfold SD_PrintSingleBlock.
  change 0 with (Z.of_nat 0) at 1. change 0 with (16 * Z.of_nat 0).
  rewrite (block_rows_spec block 32 0 33) by lia.
  unfold block_text. reflexivity.
Qed.

(** The token wait of [SD_PrintMultipleBlocks], started with
    [timeout = t], looks at the next [1298 - t] bytes. *)
Lemma wait_sbt16_spec (m : nat) :
  forall (fuel : nat) (t : Z) (w : Wire),
  t = 1297 - Z.of_nat m -> 0 <= t -> (m < fuel)%nat ->
  wait_sbt16 fuel t w =
    Some match find_token (rx (S m) w) with
         | Some k => (true, after (S k) w)
         | None => (false, after (S m) w)
         end.
Proof.
  induction m as [|m IH]; intros fuel t w Ht Ht0 Hf;
    (destruct fuel as [|fuel]; [lia|]);
    cbn [wait_sbt16]; rewrite (rx_S _ w), !after_S;
    destruct (SD_ReceiveByteSPI w) as [b w'] eqn:E; cbn [fst snd find_token];
    (destruct (byteZ b =? 254); cbn [negb];
      [rewrite after_S, E; reflexivity|]);
    replace (u16 (t + 1)) with (t + 1)
      by (unfold u16; symmetry; apply Z.mod_small; lia).
  - destruct (Z.gtb_spec (t + 1) 1297); [|lia]. reflexivity.
  - destruct (Z.gtb_spec (t + 1) 1297); [lia|].
    rewrite (IH fuel (t + 1) w') by lia.
    destruct (find_token (rx (S m) w')) as [k|]; cbn [option_map];
      rewrite ?after_S, ?E; reflexivity.
Qed.

Lemma rx_block_length (w : Wire) : length (rx BLOCK_LEN w) = BLOCK_LEN.
Proof. apply rx_length. Qed.

Lemma last_cons_default {A : Type} (l : list A) :
  forall (a d : A), last (a :: l) d = last l a.
Proof.
  induction l as [|b l IH]; intros a d; [reflexivity|].
  change (last (a :: b :: l) d) with (last (b :: l) d).
  rewrite !IH. reflexivity.
Qed.

(** The loop over the blocks prints the blocks the card sends. *)
Lemma print_blocks_sent (r1 : byte) (cs : bool) (total : Z) (n : nat) :
  forall (fuel : nat) (i : Z) (block out : list byte) (w w' : Wire)
         (blocks : list (list byte)),
  length block = BLOCK_LEN -> (n <= fuel)%nat ->
  0 <= i -> i + Z.of_nat n <= total -> total <= 32767 ->
  blocks_sent n w = Some (blocks, w') ->
  print_blocks fuel i total r1 cs block out w
  = print_blocks (fuel - n) (i + Z.of_nat n) total r1 cs
      (last blocks block) (out ++ flat_map block_text blocks) w'.
Proof.
  induction n as [|n IH];
    intros fuel i block out w w' blocks Hlen Hf Hi Hin Ht Hs.
  - cbn [blocks_sent] in Hs. injection Hs as <- <-.
    cbn [flat_map last Z.of_nat]. rewrite app_nil_r, Z.add_0_r, Nat.sub_0_r.
    reflexivity.
  - destruct fuel as [|fuel]; [lia|]. cbn [blocks_sent] in Hs.
    destruct (find_token (rx 1298 w)) as [k|] eqn:Ek; [|discriminate].
    destruct (blocks_sent n _) as [[bs w2]|] eqn:Eb; [|discriminate].
    injection Hs as <- <-.
    cbn [print_blocks]. destruct (Z.ltb_spec i total); [|lia].
    rewrite (wait_sbt16_spec 1297) by lia.
    change (S 1297) with 1298%nat. rewrite Ek.
    rewrite load_block_whole by exact Hlen.
    rewrite SD_PrintSingleBlock_eq.
    destruct (Z.gtb_spec (i + 1) 32767); [lia|].
    rewrite (IH fuel (i + 1) _ _ _ w2 bs (rx_block_length _))
      by (try exact Eb; lia).
    replace (i + 1 + Z.of_nat n) with (i + Z.of_nat (S n)) by lia.
    replace (S fuel - S n)%nat with (fuel - n)%nat by lia.
    cbn [flat_map]. rewrite <- app_assoc.
    rewrite last_cons_default. reflexivity.
Qed.

(** X25 (SD_PrintMultipleBlocks, SD_PrintSingleBlock): when the card
    accepts CMD18 and sends the blocks asked for, each after a Start Block
    Token that comes within 1298 bytes and followed by two CRC bytes,
    every block is printed in turn as the titles and 32 rows of offset,
    hexadecimal values and characters; CMD12 is then sent and one byte
    taken, chip select is high, and the code is [READ_SUCCESS] without the
    R1 response. *)
Theorem PrintMultipleBlocks_prints_blocks (addr : Z) (n : nat)
  (block : list byte) (bus : Bus Wire) (blocks : list (list byte))
  (w' : Wire) :
  let r1 := fst (cmd_r1 READ_MULTIPLE_BLOCK addr (wire bus)) in
  let w1 := snd (cmd_r1 READ_MULTIPLE_BLOCK addr (wire bus)) in
  length block = BLOCK_LEN -> byteZ r1 = 0 -> Z.of_nat n <= 32767 ->
  blocks_sent n w1 = Some (blocks, w') ->
  SD_PrintMultipleBlocks addr (Z.of_nat n) block bus
  = Some (u16 READ_SUCCESS, flat_map block_text blocks,
          mkBus true (after 1 (SD_SendCommand STOP_TRANSMISSION 0 w'))).
Proof.
  intros r1 w1 Hlen Hr Hn Hs. subst r1 w1.
  unfold SD_PrintMultipleBlocks, cmd_r1 in *.
  destruct (SD_GetR1 _) as [r1 w1]. cbn [fst snd] in *.
  rewrite Hr. cbn [Z.gtb Z.compare Z.eqb].
  rewrite (print_blocks_sent r1 CS_LOW (Z.of_nat n) n _ 0 block [] w1 w' blocks)
    by (try assumption; lia).
  replace (Z.to_nat 32768 - n)%nat with (S (Z.to_nat 32767 - n)) by lia.
  cbn [print_blocks Z.add]. rewrite Z.ltb_irrefl. reflexivity.
Qed.

(** X26 (SD_PrintMultipleBlocks): when the card has sent some of the
    blocks asked for and then sends no Start Block Token within 1298
    bytes, the function returns [START_TOKEN_TIMEOUT | r1] from inside the
    wait, after printing the blocks received, without sending CMD12 and
    with chip select still asserted (low). *)
Theorem PrintMultipleBlocks_token_timeout_leaves_cs_low (addr total : Z)
  (n : nat) (block : list byte) (bus : Bus Wire)
  (blocks : list (list byte)) (w' : Wire) :
  let r1 := fst (cmd_r1 READ_MULTIPLE_BLOCK addr (wire bus)) in
  let w1 := snd (cmd_r1 READ_MULTIPLE_BLOCK addr (wire bus)) in
  length block = BLOCK_LEN -> byteZ r1 = 0 ->
  Z.of_nat n < total -> total <= 32767 ->
  blocks_sent n w1 = Some (blocks, w') ->
  find_token (rx 1298 w') = None ->
  SD_PrintMultipleBlocks addr total block bus
  = Some (u16 (Z.lor START_TOKEN_TIMEOUT (byteZ r1)),
          flat_map block_text blocks, mkBus false (after 1298 w')).
Proof.
  intros r1 w1 Hlen Hr Hn Ht Hs Hnone. subst r1 w1.
  unfold SD_PrintMultipleBlocks, cmd_r1 in *.
  destruct (SD_GetR1 _) as [r1 w1]. cbn [fst snd] in *.
  rewrite Hr. cbn [Z.gtb Z.compare Z.eqb].
  rewrite (print_blocks_sent r1 CS_LOW total n _ 0 block [] w1 w' blocks)
    by (try assumption; lia).
  replace (Z.to_nat 32768 - n)%nat with (S (Z.to_nat 32767 - n)) by lia.
  cbn [print_blocks Z.add]. destruct (Z.ltb_spec (Z.of_nat n) total); [|lia].
  rewrite (wait_sbt16_spec 1297) by lia.
  change (S 1297) with 1298%nat. rewrite Hnone, ?Hr. reflexivity.
Qed.

End PrintBlocks.

(** X25 on the scripted card: one block of [0x41] is asked for and
    printed. *)
Lemma PrintMultipleBlocks_prints_blocks_witness :
  SD_PrintMultipleBlocks (SB := ScriptedCard) (SF := demo_flags)
    (HP := demo_hex) 0 1 host_array (mkBus true card_one_block)
  = Some (0, block_text (HP := demo_hex) card_block,
          mkBus true (repeat xff 1291)).
Proof.
  etransitivity.
  - apply (PrintMultipleBlocks_prints_blocks (SB := ScriptedCard)
             (SF := demo_flags) (HP := demo_hex) 0 1 host_array
             (mkBus true card_one_block) [card_block] (repeat xff 1298)).
    + reflexivity.
    + reflexivity.
    + cbn; lia.
    + vm_compute. reflexivity.
  - vm_compute. reflexivity.
Defined.

(** X26 on the scripted card: two blocks are asked for, one comes. *)
Lemma PrintMultipleBlocks_token_timeout_leaves_cs_low_witness :
  SD_PrintMultipleBlocks (SB := ScriptedCard) (SF := demo_flags)
    (HP := demo_hex) 0 2 host_array (mkBus true card_one_block)
  = Some (0x0200, block_text (HP := demo_hex) card_block, mkBus false []).
Proof.
  etransitivity.
  - apply (PrintMultipleBlocks_token_timeout_leaves_cs_low
             (SB := ScriptedCard) (SF := demo_flags) (HP := demo_hex)
             0 2 1 host_array (mkBus true card_one_block) [card_block]
             (repeat xff 1298)).
    + reflexivity.
    + reflexivity.
    + cbn; lia.
    + lia.
    + vm_compute. reflexivity.
    + vm_compute. reflexivity.
  - vm_compute. reflexivity.
Defined.

(* ================================================================= *)
(** ** Writing a block and printing its code *)

Section WriteAndPrint.
Context {Wire : Type} {SB : SpiBase Wire} {SF : SdFlags} {WF : SdWriteFlags}.

(** X27 (SD_WriteSingleBlock with SD_PrintWriteError): when the seven
    case labels of the switch are distinct, as C requires of case labels,
    and the five flags the write returns are values of the upper byte,
    the text printed for the code of a write is R1_ERROR when the card
    rejected CMD24, DATA_RESPONSE_TIMEOUT when no valid data response
    token came within the 255 polls, CRC_ERROR_TOKEN_RECEIVED for a token
    with low five bits [0x0B], and DATA_ACCEPTED_TOKEN_RECEIVED or
    CARD_BUSY_TIMEOUT after every other token.  WRITE_ERROR_TOKEN_RECEIVED,
    INVALID_DATA_RESPONSE and UNKNOWN RESPONSE are never printed for the
    code of a write, also when the card answered with the write error
    token. *)
Theorem PrintWriteError_names_write_path (addr : Z) (data : list byte)
  (bus : Bus Wire) :
  NoDup [DATA_ACCEPTED_TOKEN_RECEIVED; CRC_ERROR_TOKEN_RECEIVED;
         WRITE_ERROR_TOKEN_RECEIVED; INVALID_DATA_RESPONSE;
         DATA_RESPONSE_TIMEOUT; CARD_BUSY_TIMEOUT; R1_ERROR] ->
  Forall upper_flag
    [DATA_ACCEPTED_TOKEN_RECEIVED; CRC_ERROR_TOKEN_RECEIVED;
     DATA_RESPONSE_TIMEOUT; CARD_BUSY_TIMEOUT; R1_ERROR] ->
  let r1 := fst (cmd_r1 WRITE_BLOCK addr (wire bus)) in
  let w1 := snd (cmd_r1 WRITE_BLOCK addr (wire bus)) in
  let w2 := write_frame xfe data w1 in
  option_map (fun r => SD_PrintWriteError (fst r))
    (SD_WriteSingleBlock addr data bus) =
  Some ([x0a; x0d] ++
        (if byteZ r1 =? 0 then
           match find_first valid_response (rx 255 w2) with
           | None => str " DATA_RESPONSE_TIMEOUT"
           | Some k =>
               if Z.land 0x1F (byteZ (nth k (rx 255 w2) x00)) =? 0x0B
               then str " CRC_ERROR_TOKEN_RECEIVED"
               else
                 match find_ready (rx 513 (after (S k) w2)) with
                 | Some _ => str " DATA_ACCEPTED_TOKEN_RECEIVED"
                 | None => str " CARD_BUSY_TIMEOUT"
                 end
           end
         else str " R1_ERROR")).
Proof.
  intros Hnd Hup r1 w1 w2. subst r1 w1 w2.
  assert (Hne : forall (P : Prop) (i j : nat) (a b : Z),
            nth_error [DATA_ACCEPTED_TOKEN_RECEIVED; CRC_ERROR_TOKEN_RECEIVED;
                       WRITE_ERROR_TOKEN_RECEIVED; INVALID_DATA_RESPONSE;
                       DATA_RESPONSE_TIMEOUT; CARD_BUSY_TIMEOUT; R1_ERROR] i
            = Some a ->
            nth_error [DATA_ACCEPTED_TOKEN_RECEIVED; CRC_ERROR_TOKEN_RECEIVED;
                       WRITE_ERROR_TOKEN_RECEIVED; INVALID_DATA_RESPONSE;
                       DATA_RESPONSE_TIMEOUT; CARD_BUSY_TIMEOUT; R1_ERROR] j
            = Some b -> i <> j -> a = b -> P).
  { intros P i j a b Hi Hj Hij Hab. exfalso. apply Hij.
    rewrite (proj1 (NoDup_nth_error _) Hnd i j); [reflexivity| |congruence].
    apply nth_error_Some. rewrite Hi. discriminate. }
  assert (Ha : upper_flag DATA_ACCEPTED_TOKEN_RECEIVED)
    by (apply (proj1 (Forall_forall _ _) Hup); cbn; auto).
  assert (Hc : upper_flag CRC_ERROR_TOKEN_RECEIVED)
    by (apply (proj1 (Forall_forall _ _) Hup); cbn; auto).
  assert (Ht : upper_flag DATA_RESPONSE_TIMEOUT)
    by (apply (proj1 (Forall_forall _ _) Hup); cbn; auto).
  assert (Hb : upper_flag CARD_BUSY_TIMEOUT)
    by (apply (proj1 (Forall_forall _ _) Hup); cbn; auto 6).
  assert (Hr1 : upper_flag R1_ERROR)
    by (apply (proj1 (Forall_forall _ _) Hup); cbn; auto 6).
  unfold SD_WriteSingleBlock, cmd_r1.
  destruct (SD_GetR1 _) as [r1 w1]. cbn [fst snd].
  pose proof (byteZ_range r1) as Hr.
  rewrite !send_bytes_frame. set (w2 := write_frame xfe data w1).
  unfold SD_PrintWriteError.
  destruct (Z.eqb_spec (byteZ r1) 0) as [Hz|Hnz].
  2:{ destruct (Z.gtb_spec (byteZ r1) 0); [|lia].
      cbn [option_map fst]. cbv zeta. rewrite code_upper_byte by assumption.
      destruct (Z.eqb_spec R1_ERROR DATA_ACCEPTED_TOKEN_RECEIVED) as [E|_];
        [apply (Hne _ 6%nat 0%nat _ _ eq_refl eq_refl); [lia|exact E]|].
      destruct (Z.eqb_spec R1_ERROR CRC_ERROR_TOKEN_RECEIVED) as [E|_];
        [apply (Hne _ 6%nat 1%nat _ _ eq_refl eq_refl); [lia|exact E]|].
      destruct (Z.eqb_spec R1_ERROR WRITE_ERROR_TOKEN_RECEIVED) as [E|_];
        [apply (Hne _ 6%nat 2%nat _ _ eq_refl eq_refl); [lia|exact E]|].
      destruct (Z.eqb_spec R1_ERROR INVALID_DATA_RESPONSE) as [E|_];
        [apply (Hne _ 6%nat 3%nat _ _ eq_refl eq_refl); [lia|exact E]|].
      destruct (Z.eqb_spec R1_ERROR DATA_RESPONSE_TIMEOUT) as [E|_];
        [apply (Hne _ 6%nat 4%nat _ _ eq_refl eq_refl); [lia|exact E]|].
      destruct (Z.eqb_spec R1_ERROR CARD_BUSY_TIMEOUT) as [E|_];
        [apply (Hne _ 6%nat 5%nat _ _ eq_refl eq_refl); [lia|exact E]|].
      rewrite Z.eqb_refl. reflexivity. }
  destruct (Z.gtb_spec (byteZ r1) 0); [lia|].
  rewrite (poll_token_spec 0xFE 255) by lia.
  destruct (find_first valid_response (rx 255 w2)) as [k|] eqn:Ek.
  2:{ cbn [option_map fst]. cbv zeta. rewrite code_upper_byte by assumption.
      destruct (Z.eqb_spec DATA_RESPONSE_TIMEOUT DATA_ACCEPTED_TOKEN_RECEIVED) as [E|_];
        [apply (Hne _ 4%nat 0%nat _ _ eq_refl eq_refl); [lia|exact E]|].
      destruct (Z.eqb_spec DATA_RESPONSE_TIMEOUT CRC_ERROR_TOKEN_RECEIVED) as [E|_];
        [apply (Hne _ 4%nat 1%nat _ _ eq_refl eq_refl); [lia|exact E]|].
      destruct (Z.eqb_spec DATA_RESPONSE_TIMEOUT WRITE_ERROR_TOKEN_RECEIVED) as [E|_];
        [apply (Hne _ 4%nat 2%nat _ _ eq_refl eq_refl); [lia|exact E]|].
      destruct (Z.eqb_spec DATA_RESPONSE_TIMEOUT INVALID_DATA_RESPONSE) as [E|_];
        [apply (Hne _ 4%nat 3%nat _ _ eq_refl eq_refl); [lia|exact E]|].
      rewrite Z.eqb_refl. reflexivity. }
  destruct (find_first_bound _ _ _ Ek) as [_ Hv].
  destruct (response_dispatch _ Hv) as [Hacc Hcrc]. rewrite Hacc, <- Hcrc.
  destruct (Z.land 31 (byteZ (nth k (rx 255 w2) x00)) =? 11); cbn [negb].
  { cbn [option_map fst]. cbv zeta. rewrite code_upper_byte by assumption.
    destruct (Z.eqb_spec CRC_ERROR_TOKEN_RECEIVED DATA_ACCEPTED_TOKEN_RECEIVED) as [E|_];
      [apply (Hne _ 1%nat 0%nat _ _ eq_refl eq_refl); [lia|exact E]|].
    rewrite Z.eqb_refl. reflexivity. }
  rewrite (poll_while_spec is_busy 0x1FF 512) by lia.
  rewrite <- find_ready_first.
  destruct (find_ready _) as [j|]; cbn [option_map fst]; cbv zeta;
    rewrite code_upper_byte by assumption.
  - rewrite Z.eqb_refl. reflexivity.
  - destruct (Z.eqb_spec CARD_BUSY_TIMEOUT DATA_ACCEPTED_TOKEN_RECEIVED) as [E|_];
      [apply (Hne _ 5%nat 0%nat _ _ eq_refl eq_refl); [lia|exact E]|].
    destruct (Z.eqb_spec CARD_BUSY_TIMEOUT CRC_ERROR_TOKEN_RECEIVED) as [E|_];
      [apply (Hne _ 5%nat 1%nat _ _ eq_refl eq_refl); [lia|exact E]|].
    destruct (Z.eqb_spec CARD_BUSY_TIMEOUT WRITE_ERROR_TOKEN_RECEIVED) as [E|_];
      [apply (Hne _ 5%nat 2%nat _ _ eq_refl eq_refl); [lia|exact E]|].
    destruct (Z.eqb_spec CARD_BUSY_TIMEOUT INVALID_DATA_RESPONSE) as [E|_];
      [apply (Hne _ 5%nat 3%nat _ _ eq_refl eq_refl); [lia|exact E]|].
    destruct (Z.eqb_spec CARD_BUSY_TIMEOUT DATA_RESPONSE_TIMEOUT) as [E|_];
      [apply (Hne _ 5%nat 4%nat _ _ eq_refl eq_refl); [lia|exact E]|].
    rewrite Z.eqb_refl. reflexivity.
Qed.

End WriteAndPrint.

(** X27 on the scripted card: the card answers the block with the write
    error token and the text names an accepted write. *)
Lemma PrintWriteError_names_write_path_witness :
  option_map (fun r => SD_PrintWriteError (SF := demo_flags)
                         (WF := demo_write_flags) (fst r))
    (SD_WriteSingleBlock (SB := ScriptedCard) (SF := demo_flags)
       (WF := demo_write_flags) 7 host_array (mkBus true card_write_error))
  = Some ([x0a; x0d] ++ str " DATA_ACCEPTED_TOKEN_RECEIVED").
Proof.
  pose proof (PrintWriteError_names_write_path (SB := ScriptedCard)
                (SF := demo_flags) (WF := demo_write_flags) 7 host_array
                (mkBus true card_write_error)) as W.
  rewrite W.
  - vm_compute. reflexivity.
  - repeat (apply NoDup_cons; [cbn; intuition discriminate|]).
    apply NoDup_nil.
  - repeat (apply Forall_cons; [split; [cbn; lia | reflexivity]|]).
    apply Forall_nil.
Defined.

(* ================================================================= *)
(** ** Printing a block: the two revisions *)

Lemma u16_mod4 (x : Z) : u16 x mod 4 = x mod 4.
Proof.
  unfold u16. apply Z.mod_mod_divide. exists 16384. reflexivity.
Qed.

Section PrintBlockRevisions.
Context {HP : HexPrints}.

(** The loop over the values of a row in the later revision prints what
    the loop of the earlier one prints with the padding printer: the
    counter [space] and [offset] agree modulo 4. *)
Lemma sd_hex_cells_padded (block : list byte) (row : Z) :
  forall (fuel : nat) (offset space : Z),
  offset mod 4 = space mod 4 ->
  sd_hex_cells fuel block row offset
  = hex_cells (HP := zero_padded HP) fuel block row offset space.
Proof.
  induction fuel as [|fuel IH]; intros offset space Hm;
    cbn [sd_hex_cells hex_cells]; cbv zeta.
  - reflexivity.
  - destruct (offset <? u16 (u16 (row * 16) + 16)); [|reflexivity].
    rewrite (IH (u16 (offset + 1)) (u16 (space + 1))).
    + rewrite Hm. cbn [print_hex zero_padded].
      destruct (hex_cells _ _ _ _ _) as [[rest o]|]; reflexivity.
    + rewrite !u16_mod4, (Z.add_mod offset), (Z.add_mod space), Hm by lia.
      reflexivity.
Qed.

Lemma sd_block_rows_padded (block : list byte) :
  forall (fuel : nat) (row offset : Z),
  sd_block_rows fuel block row offset
  = block_rows (HP := zero_padded HP) fuel block row offset.
Proof.
  induction fuel as [|fuel IH]; intros row offset;
    cbn [sd_block_rows block_rows]; cbv zeta.
  - reflexivity.
  - destruct (row <? Z.of_nat BLOCK_LEN / 16); [|reflexivity].
    rewrite (sd_hex_cells_padded block row 17 (u16 (row * 16)) 0)
      by (rewrite u16_mod4; replace (row * 16) with (row * 4 * 4) by lia;
          rewrite Z.mod_mul by lia; reflexivity).
    destruct (hex_cells _ _ _ _ _) as [[cells o]|]; [|reflexivity].
    destruct (ascii_cells _ _ _ _) as [[chars o2]|]; [|reflexivity].
    rewrite IH.
    destruct (block_rows _ _ _ _) as [rest|]; [|reflexivity].
    do 3 f_equal. cbn [print_hex zero_padded].
    destruct (Z.ltb_spec offset 16); destruct (Z.ltb_spec offset 256);
      try lia; [reflexivity|reflexivity|].
    destruct (Z.ltb_spec offset 4096); reflexivity.
Qed.

(** The padding printer prints two characters for a byte, and three for
    an offset of three digits, when the printer prints the digits of a
    value without leading zeros. *)
Lemma zero_padded_byte (z : Z) :
  (forall v, 0 <= v < 16 -> length (print_hex v) = 1%nat) ->
  (forall v, 16 <= v < 256 -> length (print_hex v) = 2%nat) ->
  0 <= z < 256 -> length (print_hex (HexPrints := zero_padded HP) z) = 2%nat.
Proof.
  intros H1 H2 Hz. cbn [print_hex zero_padded]. rewrite length_app.
  destruct (Z.ltb_spec z 16).
  - rewrite H1 by lia. reflexivity.
  - rewrite H2 by lia. reflexivity.
Qed.

Lemma padded_label_length (z : Z) :
  (forall v, 0 <= v < 16 -> length (print_hex v) = 1%nat) ->
  (forall v, 16 <= v < 256 -> length (print_hex v) = 2%nat) ->
  (forall v, 256 <= v < 4096 -> length (print_hex v) = 3%nat) ->
  0 <= z < 4096 ->
  (length (if (z <? 0x100)%Z then str "0x0" else str "0x")
   + length (print_hex (HexPrints := zero_padded HP) z) = 5)%nat.
Proof.
  intros H1 H2 H3 Hz.
  destruct (Z.ltb_spec z 256).
  - rewrite zero_padded_byte by (try assumption; lia). reflexivity.
  - cbn [print_hex zero_padded]. rewrite length_app.
    destruct (Z.ltb_spec z 16); [lia|]. rewrite H3 by lia. reflexivity.
Qed.

(** X28 (sd_PrintSingleBlock against SD_PrintSingleBlock): for every
    array of [BLOCK_LEN] bytes, the length both functions ask for, and
    every printer of hexadecimal values, the later
    revision prints what the earlier revision prints when its values
    below [0x10] are given a leading [0]: the test [offset % 4] of the
    later revision selects the same cells as the counter [space] of the
    earlier one, and the label [0x00] for an offset below [0x10] is the
    label [0x0] followed by the leading [0]. *)
Theorem PrintSingleBlock_revisions_agree (block : list byte) :
  length block = BLOCK_LEN ->
  sd_PrintSingleBlock block
  = SD_PrintSingleBlock (HP := zero_padded HP) block.
Proof.
  intros _. unfold sd_PrintSingleBlock, SD_PrintSingleBlock. cbv zeta.
  rewrite sd_block_rows_padded. reflexivity.
Qed.

(** X29 (sd_PrintSingleBlock): when the printer of hexadecimal values
    prints the digits of a value without leading zeros, the later
    revision prints an array of [BLOCK_LEN] bytes as the titles, 32 rows
    and a closing line break, and every row has 82 characters whatever
    the block holds, so that the three columns are aligned. *)
Theorem sd_PrintSingleBlock_rows_align (block : list byte) :
  (forall v, 0 <= v < 16 -> length (print_hex v) = 1%nat) ->
  (forall v, 16 <= v < 256 -> length (print_hex v) = 2%nat) ->
  (forall v, 256 <= v < 4096 -> length (print_hex v) = 3%nat) ->
  length block = BLOCK_LEN ->
  exists rows : list (list byte),
    sd_PrintSingleBlock block
    = Some ([x0a; x0a; x0d] ++ str " BLOCK OFFSET"
            ++ [x09; x09; x09; x09] ++ str "   HEX"
            ++ [x09; x09; x09; x09; x09] ++ str "     ASCII" ++ [x0a; x0d]
            ++ concat rows ++ [x0a; x0a; x0d]) /\
    length rows = 32%nat /\
    Forall (fun row => length row = 82%nat) rows.
Proof.
  intros H1 H2 H3 _.
  exists (map (fun r => block_row (HP := zero_padded HP) block (Z.of_nat r))
              (seq 0 32)).
  split; [|split].
  - unfold sd_PrintSingleBlock. cbv zeta. rewrite sd_block_rows_padded.
    pose proof (SD_PrintSingleBlock_eq (HP := zero_padded HP) block) as E.
    unfold SD_PrintSingleBlock in E. cbv zeta in E.
    destruct (block_rows _ _ _ _) as [rows|]; [|discriminate E].
    rewrite E. unfold block_text. rewrite flat_map_concat_map. reflexivity.
  - rewrite length_map, length_seq. reflexivity.
  - apply Forall_forall. intros row Hin. apply in_map_iff in Hin.
    destruct Hin as (r & <- & Hr). apply in_seq in Hr.
    unfold block_row. cbv zeta.
    assert (HL := padded_label_length (16 * Z.of_nat r) H1 H2 H3
                    ltac:(lia)).
    rewrite !length_app, length_map. cbn [flat_map]. rewrite !length_app.
    set (a := length (if 16 * Z.of_nat r <? 256 then _ else _)) in *.
    set (b := length (print_hex (16 * Z.of_nat r))) in *.
    clearbody a b.
    rewrite !zero_padded_byte by (try assumption; apply at_range).
    cbn. lia.
Qed.

End PrintBlockRevisions.

(** X28 on the block of the scripted card. *)
Lemma PrintSingleBlock_revisions_agree_witness :
  sd_PrintSingleBlock (HP := demo_hex) card_block
  = SD_PrintSingleBlock (HP := zero_padded demo_hex) card_block.
Proof.
  apply (PrintSingleBlock_revisions_agree (HP := demo_hex) card_block).
  vm_compute. reflexivity.
Defined.

(** X29 with the printer of the concrete runs. *)
Lemma sd_PrintSingleBlock_rows_align_witness :
  exists rows : list (list byte),
    sd_PrintSingleBlock (HP := demo_hex) card_block
    = Some ([x0a; x0a; x0d] ++ str " BLOCK OFFSET"
            ++ [x09; x09; x09; x09] ++ str "   HEX"
            ++ [x09; x09; x09; x09; x09] ++ str "     ASCII" ++ [x0a; x0d]
            ++ concat rows ++ [x0a; x0a; x0d]) /\
    length rows = 32%nat /\
    Forall (fun row => length row = 82%nat) rows.
Proof.
  apply (sd_PrintSingleBlock_rows_align (HP := demo_hex) card_block).
  - intros v Hv. cbn [print_hex demo_hex hex_digits].
    destruct (Z.ltb_spec v 16); [reflexivity|lia].
  - intros v Hv. cbn [print_hex demo_hex hex_digits].
    pose proof (Z.div_lt_upper_bound v 16 16).
    destruct (Z.ltb_spec v 16); [lia|].
    destruct (Z.ltb_spec (v / 16) 16); [reflexivity|lia].
  - intros v Hv. cbn [print_hex demo_hex hex_digits].
    pose proof (Z.div_lt_upper_bound v 16 256).
    pose proof (Z.div_le_lower_bound v 16 16).
    pose proof (Z.div_lt_upper_bound (v / 16) 16 16).
    destruct (Z.ltb_spec v 16); [lia|].
    destruct (Z.ltb_spec (v / 16) 16); [lia|].
    destruct (Z.ltb_spec (v / 16 / 16) 16); [reflexivity|lia].
  - vm_compute. reflexivity.
Defined.
